(** * xlam-server: the backend adaptation layer

    A shallow embedding of [src/engine.py] and [src/formatting.py]:
    tool formatting, the three backend adapters, the dispatch router, the
    response normaliser and the function-call extractor, followed by the
    properties the specification states about them.

    Conventions.
    - A Python [str] is a list of Unicode code points.
    - Python values are the JSON-shaped values that flow through the gateway
      (request bodies, configuration dictionaries, backend replies); a [dict]
      is an association list in insertion order, its keys are strings.
    - Everything the interpreter or the outside world decides is gathered in
      the class [World]: the salted string hash, the textual form of floats
      and the quoting of [repr], the process environment and the replies of
      the backends.
    - The limits of the interpreter that data can reach are modelled: the
      conversions between integers and text raise [ValueError] beyond
      [int_max_str_digits] digits, and [json.dumps], [json.loads] and
      [repr] raise [RecursionError] on containers nested deeper than the
      interpreter allows where they are called, a depth the [World] gives.
      The values of the configuration (strings of the environment, or what
      the operator sets) are rendered without these limits, and the text of
      a hash is that of a machine word. Memory is not modelled; log records
      are not part of the trace. *)

From Stdlib Require Import List ZArith NArith Lia Bool String Ascii.
From Stdlib Require Import PrimFloat DecimalString.
From Stdlib Require DecimalFacts DecimalPos.
Import ListNotations.

Local Open Scope N_scope.

(* ===================================================================== *)
(** ** Strings                                                            *)
(* ===================================================================== *)

Definition char := N.
Definition str := list char.

(** [py "abc"] is the Python string written [abc]. *)
Definition py (s : string) : str := map N_of_ascii (list_ascii_of_string s).

(** [pyq] reads a literal in which a backquote stands for the double quote. *)
Definition pyq (s : string) : str :=
  map (fun c => if c =? 96 then 34 else c) (py s).

Fixpoint str_eqb (a b : str) : bool :=
  match a, b with
  | [], [] => true
  | x :: a', y :: b' => (x =? y) && str_eqb a' b'
  | _, _ => false
  end.

Fixpoint startswith (p s : str) : bool :=
  match p, s with
  | [], _ => true
  | x :: p', y :: s' => (x =? y) && startswith p' s'
  | _ :: _, [] => false
  end.

(** [sub in s] for two strings. *)
Fixpoint str_contains (sub s : str) : bool :=
  startswith sub s ||
  match s with
  | [] => false
  | _ :: s' => str_contains sub s'
  end.

(** [sep.join(parts)] *)
Fixpoint join (sep : str) (parts : list str) : str :=
  match parts with
  | [] => []
  | [p] => p
  | p :: rest => p ++ sep ++ join sep rest
  end.

(** [str.lower] on the ASCII letters; the only comparison made with its result
    is against ["true"], and no code point outside ASCII lowers to one of
    [t], [r], [u], [e]. *)
Definition lower_char (c : char) : char :=
  if (65 <=? c) && (c <=? 90) then c + 32 else c.

Definition lower (s : str) : str := map lower_char s.

(** The decimal text of an integer: [str(n)] where the digit limit allows
    the conversion. *)
Definition int_str (n : Z) : str := py (NilZero.string_of_int (Z.to_int n)).

(* ===================================================================== *)
(** ** Values, dictionaries, results                                      *)
(* ===================================================================== *)

#[warnings="-register-all"]
Inductive pyval : Type :=
| PNone
| PBool (b : bool)
| PInt (n : Z)
| PFloat (f : float)
| PStr (s : str)
| PList (l : list pyval)
| PDict (d : list (str * pyval)).

Definition dict := list (str * pyval).

(** [d.get(k)] *)
Fixpoint dict_get (k : str) (d : dict) : option pyval :=
  match d with
  | [] => None
  | (k', v) :: d' => if str_eqb k k' then Some v else dict_get k d'
  end.

(** [d.get(k, default)] *)
Definition dict_get_default (k : str) (default : pyval) (d : dict) : pyval :=
  match dict_get k d with
  | Some v => v
  | None => default
  end.

(** [k in d] *)
Definition dict_mem (k : str) (d : dict) : bool :=
  match dict_get k d with
  | Some _ => true
  | None => false
  end.

(** [d[k] = v]: an existing key keeps its place, a new key goes last. *)
Fixpoint dict_set (k : str) (v : pyval) (d : dict) : dict :=
  match d with
  | [] => [(k, v)]
  | (k', v') :: d' =>
      if str_eqb k k' then (k', v) :: d' else (k', v') :: dict_set k v d'
  end.

(** [dict(pairs)] *)
Definition dict_of_pairs (pairs : list (str * pyval)) : dict :=
  fold_left (fun d kv => dict_set (fst kv) (snd kv) d) pairs [].

(** [bool(v)] *)
Definition truthy (v : pyval) : bool :=
  match v with
  | PNone => false
  | PBool b => b
  | PInt n => negb (n =? 0)%Z
  | PFloat f => negb (PrimFloat.eqb f zero)
  | PStr [] => false
  | PStr (_ :: _) => true
  | PList [] => false
  | PList (_ :: _) => true
  | PDict [] => false
  | PDict (_ :: _) => true
  end.

(** [v == s] for a string [s]. *)
Definition py_eq_str (v : pyval) (s : str) : bool :=
  match v with
  | PStr s' => str_eqb s' s
  | _ => false
  end.

Inductive exn : Type :=
| TypeError
| AttributeError
| ValueError (msg : str)
| JSONDecodeError
| RecursionError
| RequestError          (* httpx: transport failure or timeout *)
| HTTPStatusError.      (* httpx: raise_for_status *)

Inductive result (A : Type) : Type :=
| Return (a : A)
| Raise (e : exn).

Arguments Return {A} a.
Arguments Raise {A} e.

(** The results of a sequence of steps in order, or the first error. *)
Fixpoint collect {A : Type} (steps : list (result A)) : result (list A) :=
  match steps with
  | [] => Return []
  | Return a :: rest =>
      match collect rest with
      | Return l => Return (a :: l)
      | Raise e => Raise e
      end
  | Raise e :: _ => Raise e
  end.

(** [sys.int_info.default_max_str_digits]; nothing in the repository
    changes the limit. *)
Definition int_max_str_digits : nat := 4300.

(** The number of decimal digits of an integer, the sign apart. *)
Definition int_digit_count (n : Z) : nat := List.length (int_str (Z.abs n)).

(** The errors of the digit limit, from an integer to text and back. *)
Definition digit_limit_to_str : exn :=
  ValueError
    (py "Exceeds the limit (4300 digits) for integer string conversion; use sys.set_int_max_str_digits() to increase the limit").

Definition digit_limit_to_int (digits : nat) : exn :=
  ValueError
    (py "Exceeds the limit (4300 digits) for integer string conversion: value has "
     ++ int_str (Z.of_nat digits)
     ++ py " digits; use sys.set_int_max_str_digits() to increase the limit").

(** [str(n)] and [repr(n)] of an integer. *)
Definition int_to_str (n : Z) : result str :=
  if (int_max_str_digits <? int_digit_count n)%nat then Raise digit_limit_to_str
  else Return (int_str n).

(** [key in v] for a string [key] and any value [v]. *)
Definition py_in (key : str) (v : pyval) : result bool :=
  match v with
  | PDict d => Return (dict_mem key d)
  | PList l => Return (existsb (fun x => py_eq_str x key) l)
  | PStr s => Return (str_contains key s)
  | _ => Raise TypeError
  end.

(* ===================================================================== *)
(** ** The outside world                                                  *)
(* ===================================================================== *)

(** One [httpx.post(url, json=..., headers=..., timeout=30.0)]. *)
Record http_request : Type := {
  req_url : str;
  req_json : dict;
  req_headers : option dict;
  req_timeout_seconds : Z
}.

(** What the adapters look at in a reply: whether [raise_for_status] raises
    and what [json()] gives ([None] when the body is not JSON). *)
Record http_response : Type := {
  status_is_error : bool;
  body_json : option pyval
}.

Class World : Type := {
  (** [hash(s)] of a string, salted per process *)
  str_hash : str -> Z;
  (** [repr(x)] of a float and of a string *)
  float_repr : float -> str;
  str_repr : str -> str;
  (** [float(s)] on a JSON number token *)
  float_of_str : str -> float;
  (** [os.getenv(name)] *)
  getenv : str -> option str;
  (** the backend's answer to a request; [None] is a transport failure *)
  httpx_post : http_request -> option http_response;
  (** how deep containers may nest before the recursion limit of the
      interpreter stops [json.loads], [json.dumps] and [repr] where the
      gateway calls them *)
  loads_depth : nat;
  dumps_depth : nat;
  repr_depth : nat
}.

(** A world in which nothing is set and every backend is unreachable. *)
Definition quiet_world : World := {|
  str_hash := fun _ => 0%Z;
  float_repr := fun _ => py "0.0";
  str_repr := fun s => py "'" ++ s ++ py "'";
  float_of_str := fun _ => zero;
  getenv := fun _ => None;
  httpx_post := fun _ => None;
  loads_depth := 900;
  dumps_depth := 900;
  repr_depth := 900
|}.

(** Computations that call backends: a result and the requests sent. *)
Definition io (A : Type) : Type := (result A * list http_request)%type.

Definition io_raise {A} (e : exn) : io A := (Raise e, []).

(** What a step of the JSON decoder gives: a value and the text after it,
    an error, or no result within the steps allowed. *)
Inductive scan (A : Type) : Type :=
| Decoded (a : A) (rest : str)
| DecodeError
| Failed (e : exn)
| FuelOut.

Arguments Decoded {A} a rest.
Arguments DecodeError {A}.
Arguments Failed {A} e.
Arguments FuelOut {A}.

Definition scan_map {A B} (f : A -> B) (r : scan A) : scan B :=
  match r with
  | Decoded a rest => Decoded (f a) rest
  | DecodeError => DecodeError
  | Failed e => Failed e
  | FuelOut => FuelOut
  end.

Section Gateway.

Context {W : World}.

(* ===================================================================== *)
(** ** Text forms of values: [repr], [str], [json.dumps]                  *)
(* ===================================================================== *)

Fixpoint py_repr (v : pyval) : str :=
  match v with
  | PNone => py "None"
  | PBool true => py "True"
  | PBool false => py "False"
  | PInt n => int_str n
  | PFloat f => float_repr f
  | PStr s => str_repr s
  | PList l => py "[" ++ join (py ", ") (map py_repr l) ++ py "]"
  | PDict d =>
      py "{"
      ++ join (py ", ")
           (map (fun kv => let '(k, x) := kv in
                           str_repr k ++ py ": " ++ py_repr x) d)
      ++ py "}"
  end.

(** [str(v)], which is what an f-string field [{v}] renders, for a value of
    the configuration. *)
Definition py_str (v : pyval) : str :=
  match v with
  | PStr s => s
  | _ => py_repr v
  end.

(** [repr(v)] with the limits of the interpreter: every value on the way
    down takes one of the [room] nested calls that are left, an integer is
    subject to the digit limit, the first error ends the rendering. *)
Fixpoint py_repr_within (room : nat) (v : pyval) {struct room} : result str :=
  match room with
  | O => Raise RecursionError
  | S room' =>
      match v with
      | PNone => Return (py "None")
      | PBool true => Return (py "True")
      | PBool false => Return (py "False")
      | PInt n => int_to_str n
      | PFloat f => Return (float_repr f)
      | PStr s => Return (str_repr s)
      | PList l =>
          match collect (map (py_repr_within room') l) with
          | Return parts => Return (py "[" ++ join (py ", ") parts ++ py "]")
          | Raise e => Raise e
          end
      | PDict d =>
          match collect
                  (map (fun kv =>
                          match py_repr_within room' (PStr (fst kv)) with
                          | Return key =>
                              match py_repr_within room' (snd kv) with
                              | Return x => Return (key ++ py ": " ++ x)
                              | Raise e => Raise e
                              end
                          | Raise e => Raise e
                          end) d) with
          | Return parts => Return (py "{" ++ join (py ", ") parts ++ py "}")
          | Raise e => Raise e
          end
      end
  end.

(** [str(v)] of a value that comes with a request: what an f-string field
    [{v}] renders, or the error of a limit. *)
Definition py_format (v : pyval) : result str :=
  match v with
  | PStr s => Return s
  | _ => py_repr_within repr_depth v
  end.

Definition hex_digit (n : N) : char :=
  if n <? 10 then 48 + n else 87 + n.

(** ['{0:04x}'.format(n)] for [n < 0x10000] *)
Definition hex4 (n : N) : str :=
  [hex_digit (N.shiftr n 12 mod 16); hex_digit (N.shiftr n 8 mod 16);
   hex_digit (N.shiftr n 4 mod 16); hex_digit (n mod 16)].

(** One character of [json.encoder.py_encode_basestring_ascii]. *)
Definition json_escape_char (c : char) : str :=
  if c =? 92 then py "\\"
  else if c =? 34 then [92; 34]
  else if c =? 8 then py "\b"
  else if c =? 12 then py "\f"
  else if c =? 10 then py "\n"
  else if c =? 13 then py "\r"
  else if c =? 9 then py "\t"
  else if (32 <=? c) && (c <=? 126) then [c]
  else if c <? 65536 then py "\u" ++ hex4 c
  else
    let n := c - 65536 in
    let s1 := N.lor 55296 (N.land (N.shiftr n 10) 1023) in
    let s2 := N.lor 56320 (N.land n 1023) in
    py "\u" ++ hex4 s1 ++ py "\u" ++ hex4 s2.

Definition json_quote (s : str) : str :=
  [34] ++ List.concat (map json_escape_char s) ++ [34].

(** [json.encoder.floatstr] with [allow_nan] *)
Definition json_float (f : float) : str :=
  if negb (PrimFloat.eqb f f) then py "NaN"
  else if PrimFloat.eqb f infinity then py "Infinity"
  else if PrimFloat.eqb f neg_infinity then py "-Infinity"
  else float_repr f.

(** The text [json.dumps(v)] writes with the default options, when it
    returns. *)
Fixpoint json_text (v : pyval) : str :=
  match v with
  | PNone => py "null"
  | PBool true => py "true"
  | PBool false => py "false"
  | PInt n => int_str n
  | PFloat f => json_float f
  | PStr s => json_quote s
  | PList l => py "[" ++ join (py ", ") (map json_text l) ++ py "]"
  | PDict d =>
      py "{"
      ++ join (py ", ")
           (map (fun kv => let '(k, x) := kv in
                           json_quote k ++ py ": " ++ json_text x) d)
      ++ py "}"
  end.

(** [json.dumps(v)] with the default options and the limits of the
    interpreter: a list or a dictionary takes one of the [room] nested calls
    that are left, an integer is subject to the digit limit, the first error
    ends the encoding. *)
Fixpoint json_dumps_within (room : nat) (v : pyval) {struct v} : result str :=
  match v with
  | PNone => Return (py "null")
  | PBool true => Return (py "true")
  | PBool false => Return (py "false")
  | PInt n => int_to_str n
  | PFloat f => Return (json_float f)
  | PStr s => Return (json_quote s)
  | PList l =>
      match room with
      | O => Raise RecursionError
      | S room' =>
          match collect (map (json_dumps_within room') l) with
          | Return parts => Return (py "[" ++ join (py ", ") parts ++ py "]")
          | Raise e => Raise e
          end
      end
  | PDict d =>
      match room with
      | O => Raise RecursionError
      | S room' =>
          match collect
                  (map (fun kv => let '(k, x) := kv in
                                  match json_dumps_within room' x with
                                  | Return text =>
                                      Return (json_quote k ++ py ": " ++ text)
                                  | Raise e => Raise e
                                  end) d) with
          | Return parts => Return (py "{" ++ join (py ", ") parts ++ py "}")
          | Raise e => Raise e
          end
      end
  end.

Definition json_dumps (v : pyval) : result str :=
  json_dumps_within dumps_depth v.

(* ===================================================================== *)
(** ** [json.loads]: the decoder of [json.decoder] and [json.scanner]     *)
(* ===================================================================== *)

(** [WHITESPACE]: space, tab, line feed, carriage return. *)
Definition is_ws (c : char) : bool :=
  (c =? 32) || (c =? 9) || (c =? 10) || (c =? 13).

Fixpoint skip_ws (s : str) : str :=
  match s with
  | c :: r => if is_ws c then skip_ws r else s
  | [] => []
  end.

Definition hex_val (c : char) : option N :=
  if (48 <=? c) && (c <=? 57) then Some (c - 48)
  else if (97 <=? c) && (c <=? 102) then Some (c - 87)
  else if (65 <=? c) && (c <=? 70) then Some (c - 55)
  else None.

Definition decode_uXXXX (h1 h2 h3 h4 : char) : option N :=
  match hex_val h1, hex_val h2, hex_val h3, hex_val h4 with
  | Some a, Some b, Some c, Some d => Some (((a * 16 + b) * 16 + c) * 16 + d)
  | _, _, _, _ => None
  end.

(** [BACKSLASH] *)
Definition backslash (c : char) : option char :=
  if c =? 34 then Some 34
  else if c =? 92 then Some 92
  else if c =? 47 then Some 47
  else if c =? 98 then Some 8
  else if c =? 102 then Some 12
  else if c =? 110 then Some 10
  else if c =? 114 then Some 13
  else if c =? 116 then Some 9
  else None.

Definition cons_chunk (c : char) (r : option (str * str)) : option (str * str) :=
  match r with
  | Some (content, rest) => Some (c :: content, rest)
  | None => None
  end.

(** [scanstring(s, end, strict=True)], from just after the opening quote:
    the decoded text and what follows the closing quote. *)
Fixpoint scanstring (s : str) : option (str * str) :=
  match s with
  | [] => None
  | c :: r =>
      if c =? 34 then Some ([], r)
      else if c =? 92 then
        match r with
        | [] => None
        | esc :: r1 =>
            if negb (esc =? 117) then
              match backslash esc with
              | Some ch => cons_chunk ch (scanstring r1)
              | None => None
              end
            else
              match r1 with
              | h1 :: h2 :: h3 :: h4 :: r2 =>
                  match decode_uXXXX h1 h2 h3 h4 with
                  | None => None
                  | Some uni =>
                      if (55296 <=? uni) && (uni <=? 56319) then
                        match r2 with
                        | b :: u :: r4 =>
                            if (b =? 92) && (u =? 117) then
                              match r4 with
                              | k1 :: k2 :: k3 :: k4 :: r5 =>
                                  match decode_uXXXX k1 k2 k3 k4 with
                                  | None => None
                                  | Some uni2 =>
                                      if (56320 <=? uni2) && (uni2 <=? 57343) then
                                        cons_chunk
                                          (65536 + N.lor (N.shiftl (uni - 55296) 10)
                                                         (uni2 - 56320))
                                          (scanstring r5)
                                      else cons_chunk uni (scanstring r2)
                                  end
                              | _ => None
                              end
                            else cons_chunk uni (scanstring r2)
                        | _ => cons_chunk uni (scanstring r2)
                        end
                      else cons_chunk uni (scanstring r2)
                  end
              | _ => None
              end
        end
      else if c <? 32 then None
      else cons_chunk c (scanstring r)
  end.

Definition is_digit (c : char) : bool := (48 <=? c) && (c <=? 57).

Fixpoint span_digits (s : str) : str * str :=
  match s with
  | c :: r =>
      if is_digit c then let '(d, rest) := span_digits r in (c :: d, rest)
      else ([], s)
  | [] => ([], [])
  end.

(** [NUMBER_RE], first group: an optional minus sign, then either a single
    zero or a non-zero digit followed by digits. *)
Definition match_integer (s : str) : option (str * str) :=
  let '(sign, s1) :=
    match s with
    | c :: r => if c =? 45 then ([45], r) else ([], s)
    | [] => ([], s)
    end in
  match s1 with
  | c :: r =>
      if c =? 48 then Some (sign ++ [48], r)
      else if is_digit c then
        let '(d, rest) := span_digits r in Some (sign ++ c :: d, rest)
      else None
  | [] => None
  end.

(** second group, optional: a dot and at least one digit. *)
Definition match_frac (s : str) : str * str :=
  match s with
  | c :: r =>
      if c =? 46 then
        match span_digits r with
        | ([], _) => ([], s)
        | (d, rest) => (c :: d, rest)
        end
      else ([], s)
  | [] => ([], s)
  end.

(** third group, optional: [e] or [E], an optional sign, at least one digit. *)
Definition match_exp (s : str) : str * str :=
  match s with
  | c :: r =>
      if (c =? 101) || (c =? 69) then
        let '(sg, r1) :=
          match r with
          | x :: r' => if (x =? 45) || (x =? 43) then ([x], r') else ([], r)
          | [] => ([], r)
          end in
        match span_digits r1 with
        | ([], _) => ([], s)
        | (d, rest) => (c :: sg ++ d, rest)
        end
      else ([], s)
  | [] => ([], s)
  end.

Definition digits_value (d : str) : Z :=
  fold_left (fun acc c => (acc * 10 + Z.of_N (c - 48))%Z) d 0%Z.

(** The value [int(s)] gives on the first group. *)
Definition parse_int (s : str) : Z :=
  match s with
  | c :: r => if c =? 45 then (- digits_value r)%Z else digits_value s
  | [] => 0%Z
  end.

(** The digits of the first group, the sign apart. *)
Definition unsigned_digits (s : str) : str :=
  match s with
  | c :: r => if c =? 45 then r else s
  | [] => []
  end.

(** [int(s)] on the first group, with the digit limit. *)
Definition int_of_str (s : str) : result Z :=
  let digits := List.length (unsigned_digits s) in
  if (int_max_str_digits <? digits)%nat then Raise (digit_limit_to_int digits)
  else Return (parse_int s).

(** [NUMBER_RE] and the conversion of what it matched: [None] when there is
    no number, otherwise the number, or the error of the digit limit, and
    the text after the match. *)
Definition match_number (s : str) : option (result pyval * str) :=
  match match_integer s with
  | None => None
  | Some (integer, s1) =>
      let '(frac, s2) := match_frac s1 in
      let '(exp, s3) := match_exp s2 in
      match frac, exp with
      | [], [] =>
          Some (match int_of_str integer with
                | Return n => Return (PInt n)
                | Raise e => Raise e
                end, s3)
      | _, _ => Some (Return (PFloat (float_of_str (integer ++ frac ++ exp))), s3)
      end
  end.

(** [scan_once] with [JSONObject] and [JSONArray]: the test for an empty
    container is made where the container opens, the loops over members and
    elements are [object_pairs] (entered after the opening quote of a key)
    and [array_values]. Every call spends one unit of [fuel], which only
    makes the recursion structural; entering an object or an array takes one
    of the [room] nested calls that are left. *)
Fixpoint scan_once (fuel room : nat) (s : str) {struct fuel} : scan pyval :=
  match fuel with
  | O => FuelOut
  | S fuel' =>
      match s with
      | [] => DecodeError
      | nextchar :: r =>
          if nextchar =? 34 then
            match scanstring r with
            | Some (v, rest) => Decoded (PStr v) rest
            | None => DecodeError
            end
          else if nextchar =? 123 then
            match room with
            | O => Failed RecursionError
            | S room' =>
                match skip_ws r with
                | c :: r1 =>
                    if c =? 125 then Decoded (PDict []) r1
                    else if c =? 34 then
                      scan_map (fun pairs => PDict (dict_of_pairs pairs))
                               (object_pairs fuel' room' r1 [])
                    else DecodeError
                | [] => DecodeError
                end
            end
          else if nextchar =? 91 then
            match room with
            | O => Failed RecursionError
            | S room' =>
                match skip_ws r with
                | c :: r1 =>
                    if c =? 93 then Decoded (PList []) r1
                    else scan_map PList (array_values fuel' room' (c :: r1) [])
                | [] => DecodeError
                end
            end
          else if (nextchar =? 110) && startswith (py "null") s then
            Decoded PNone (skipn 4 s)
          else if (nextchar =? 116) && startswith (py "true") s then
            Decoded (PBool true) (skipn 4 s)
          else if (nextchar =? 102) && startswith (py "false") s then
            Decoded (PBool false) (skipn 5 s)
          else
            match match_number s with
            | Some (Return v, rest) => Decoded v rest
            | Some (Raise e, _) => Failed e
            | None =>
                if (nextchar =? 78) && startswith (py "NaN") s then
                  Decoded (PFloat nan) (skipn 3 s)
                else if (nextchar =? 73) && startswith (py "Infinity") s then
                  Decoded (PFloat infinity) (skipn 8 s)
                else if (nextchar =? 45) && startswith (py "-Infinity") s then
                  Decoded (PFloat neg_infinity) (skipn 9 s)
                else DecodeError
            end
      end
  end

with object_pairs (fuel room : nat) (s : str) (pairs : list (str * pyval))
       {struct fuel} : scan (list (str * pyval)) :=
  match fuel with
  | O => FuelOut
  | S fuel' =>
      match scanstring s with
      | None => DecodeError
      | Some (key, s1) =>
          match skip_ws s1 with
          | c :: s2 =>
              if c =? 58 then
                match scan_once fuel' room (skip_ws s2) with
                | Decoded value s3 =>
                    let pairs' := pairs ++ [(key, value)] in
                    match skip_ws s3 with
                    | d :: s4 =>
                        if d =? 125 then Decoded pairs' s4
                        else if d =? 44 then
                          match skip_ws s4 with
                          | q :: s5 =>
                              if q =? 34 then object_pairs fuel' room s5 pairs'
                              else DecodeError
                          | [] => DecodeError
                          end
                        else DecodeError
                    | [] => DecodeError
                    end
                | DecodeError => DecodeError
                | Failed e => Failed e
                | FuelOut => FuelOut
                end
              else DecodeError
          | [] => DecodeError
          end
      end
  end

with array_values (fuel room : nat) (s : str) (values : list pyval)
       {struct fuel} : scan (list pyval) :=
  match fuel with
  | O => FuelOut
  | S fuel' =>
      match scan_once fuel' room s with
      | Decoded value s1 =>
          let values' := values ++ [value] in
          match skip_ws s1 with
          | c :: s2 =>
              if c =? 93 then Decoded values' s2
              else if c =? 44 then array_values fuel' room (skip_ws s2) values'
              else DecodeError
          | [] => DecodeError
          end
      | DecodeError => DecodeError
      | Failed e => Failed e
      | FuelOut => FuelOut
      end
  end.

(** [json.loads(s)] for a string [s] with [room] nested calls left: the
    value, or the exception raised. The fuel given is always enough. *)
Definition json_loads_within (room : nat) (s : str) : result pyval :=
  if startswith [65279] s then Raise JSONDecodeError
  else
    match scan_once (S (2 * List.length s)) room (skip_ws s) with
    | Decoded obj rest =>
        match skip_ws rest with
        | [] => Return obj
        | _ :: _ => Raise JSONDecodeError
        end
    | DecodeError => Raise JSONDecodeError
    | Failed e => Raise e
    | FuelOut => Raise RecursionError
    end.

Definition json_loads (s : str) : result pyval :=
  json_loads_within loads_depth s.

(* ===================================================================== *)
(** ** [re.search] on the pattern of the extractor                        *)
(* ===================================================================== *)

(** The pattern uses two constructs: a literal character and a greedy
    repetition of a negated one-character class. *)
Inductive atom : Type :=
| AChar (c : char)
| AStarNot (c : char).

(** Backtracking match of a pattern at the head of [s]: the length of the
    match. A repetition takes as many characters as it can and gives them
    back one at a time while the rest of the pattern fails. *)
Fixpoint match_here (p : list atom) : str -> option nat :=
  match p with
  | [] => fun _ => Some O
  | AChar c :: p' =>
      fun s =>
        match s with
        | x :: r => if x =? c then option_map S (match_here p' r) else None
        | [] => None
        end
  | AStarNot c :: p' =>
      fix star (s : str) : option nat :=
        match s with
        | x :: r =>
            if x =? c then match_here p' s
            else
              match star r with
              | Some n => Some (S n)
              | None => match_here p' s
              end
        | [] => match_here p' []
        end
  end.

(** [re.search(p, text)]: the text of the leftmost match. *)
Fixpoint re_search (p : list atom) (text : str) : option str :=
  match match_here p text with
  | Some n => Some (firstn n text)
  | None =>
      match text with
      | [] => None
      | _ :: rest => re_search p rest
      end
  end.

(** An opening brace, characters other than a closing brace, the quoted word
    [name], characters other than a closing brace, a closing brace. *)
Definition function_call_pattern : list atom :=
  [AChar 123; AStarNot 125] ++ map AChar (pyq "`name`")
  ++ [AStarNot 125; AChar 125].

(* ===================================================================== *)
(** ** engine.py                                                          *)
(* ===================================================================== *)

Definition extract_function_call (text : str) : pyval :=
  match re_search function_call_pattern text with
  | Some json_match =>
      match json_loads json_match with
      | Return call => call
      | Raise _ => PNone
      end
  | None => PNone
  end.

Definition parse_function_call_response (response : pyval) (config : dict)
  : result pyval :=
  match py_in (py "choices") response with
  | Raise e => Raise e
  | Return true => Return response
  | Return false =>
      match py_in (py "response") response with
      | Raise e => Raise e
      | Return false => Return response
      | Return true =>
          match response with
          | PDict d =>
              match dict_get_default (py "response") (PStr []) d with
              | PStr text =>
                  Return (PDict
                    [(py "id", PStr (py "call_" ++ int_str (str_hash text)));
                     (py "object", PStr (py "chat.completion"));
                     (py "created", dict_get_default (py "created_at") (PInt 0) d);
                     (py "model",
                      dict_get_default (py "model_name") (PStr (py "unknown")) config);
                     (py "choices",
                      PList [PDict
                        [(py "index", PInt 0);
                         (py "message", PDict
                            [(py "role", PStr (py "assistant"));
                             (py "content", PStr text);
                             (py "function_call", extract_function_call text)]);
                         (py "finish_reason",
                          PStr (if truthy (extract_function_call text)
                                then py "function_call" else py "stop"))]]);
                     (py "usage", PDict
                        [(py "prompt_tokens", PInt 0);
                         (py "completion_tokens", PInt 0);
                         (py "total_tokens", PInt 0)])])
              | _ => Raise TypeError
              end
          | _ => Raise AttributeError
          end
      end
  end.

(** [os.getenv(name, default)] *)
Definition getenv_default (name default : str) : str :=
  match getenv name with
  | Some v => v
  | None => default
  end.

Definition get_default_config : dict :=
  [(py "backend", PStr (getenv_default (py "MODEL_BACKEND") (py "ollama")));
   (py "model_name", PStr (getenv_default (py "MODEL_NAME") (py "default")));
   (py "base_url",
    PStr (getenv_default (py "MODEL_BASE_URL") (py "http://localhost:11434")));
   (py "tool_format", PStr (getenv_default (py "TOOL_FORMAT") (py "json")));
   (py "use_raw_mode",
    PBool (str_eqb (lower (getenv_default (py "USE_RAW_MODE") (py "false")))
                   (py "true")))].

(** [httpx.post], [raise_for_status] and [json()], in this order. *)
Definition post_json (req : http_request) : io pyval :=
  match httpx_post req with
  | None => (Raise RequestError, [req])
  | Some resp =>
      if status_is_error resp then (Raise HTTPStatusError, [req])
      else
        match body_json resp with
        | Some body => (Return body, [req])
        | None => (Raise JSONDecodeError, [req])
        end
  end.

Definition call_ollama (prompt : str) (tools : pyval) (config : dict)
    (temperature max_tokens : pyval) : io pyval :=
  let base_url :=
    dict_get_default (py "base_url") (PStr (py "http://localhost:11434")) config in
  let model_name := dict_get_default (py "model_name") (PStr (py "default")) config in
  let use_raw := dict_get_default (py "use_raw_mode") (PBool false) config in
  let url := py_str base_url ++ py "/api/generate" in
  let payload : dict :=
    [(py "model", model_name);
     (py "prompt", PStr prompt);
     (py "stream", PBool false);
     (py "options", PDict [(py "temperature", temperature);
                           (py "num_predict", max_tokens)])] in
  let with_tools : result dict :=
    if truthy tools then
      match tools with
      | PStr markup =>
          Return (dict_set (py "prompt") (PStr (prompt ++ [10; 10] ++ markup))
                           payload)
      | _ =>
          match json_dumps tools with
          | Return text => Return (dict_set (py "context") (PStr text) payload)
          | Raise e => Raise e
          end
      end
    else Return payload in
  match with_tools with
  | Raise e => (Raise e, [])
  | Return payload =>
      let payload :=
        if truthy use_raw then dict_set (py "raw") (PBool true) payload
        else payload in
      match post_json {| req_url := url; req_json := payload;
                         req_headers := None; req_timeout_seconds := 30 |} with
      | (Return result, sent) => (parse_function_call_response result config, sent)
      | (Raise e, sent) => (Raise e, sent)
      end
  end.

Definition call_vllm (prompt : str) (tools : pyval) (config : dict)
    (temperature max_tokens : pyval) : io pyval :=
  let base_url :=
    dict_get_default (py "base_url") (PStr (py "http://localhost:8000")) config in
  let model_name := dict_get_default (py "model_name") (PStr (py "default")) config in
  let url := py_str base_url ++ py "/v1/chat/completions" in
  let messages := PList [PDict [(py "role", PStr (py "user"));
                                (py "content", PStr prompt)]] in
  let payload : dict :=
    [(py "model", model_name);
     (py "messages", messages);
     (py "temperature", temperature);
     (py "max_tokens", max_tokens)] in
  let payload :=
    if truthy tools then
      dict_set (py "tools")
               (match tools with PList _ => tools | _ => PList [tools] end) payload
    else payload in
  post_json {| req_url := url; req_json := payload;
               req_headers := None; req_timeout_seconds := 30 |}.

Definition call_openai_compatible (prompt : str) (tools : pyval) (config : dict)
    (temperature max_tokens : pyval) : io pyval :=
  let base_url :=
    dict_get_default (py "base_url") (PStr (py "https://api.openai.com/v1")) config in
  let model_name :=
    dict_get_default (py "model_name") (PStr (py "gpt-3.5-turbo")) config in
  let api_key :=
    dict_get_default (py "api_key")
      (match getenv (py "OPENAI_API_KEY") with Some k => PStr k | None => PNone end)
      config in
  let url := py_str base_url ++ py "/chat/completions" in
  let headers : dict :=
    [(py "Authorization", PStr (py "Bearer " ++ py_str api_key));
     (py "Content-Type", PStr (py "application/json"))] in
  let messages := PList [PDict [(py "role", PStr (py "user"));
                                (py "content", PStr prompt)]] in
  let payload : dict :=
    [(py "model", model_name);
     (py "messages", messages);
     (py "temperature", temperature);
     (py "max_tokens", max_tokens)] in
  let payload :=
    if truthy tools then
      dict_set (py "tools")
               (match tools with PList _ => tools | _ => PList [tools] end) payload
    else payload in
  post_json {| req_url := url; req_json := payload;
               req_headers := Some headers; req_timeout_seconds := 30 |}.

Definition call_model (prompt : str) (tools : pyval) (model_config : option dict)
    (temperature max_tokens : pyval) : io pyval :=
  let model_config :=
    match model_config with
    | None => get_default_config
    | Some c => c
    end in
  let backend := dict_get_default (py "backend") (PStr (py "ollama")) model_config in
  if py_eq_str backend (py "ollama") then
    call_ollama prompt tools model_config temperature max_tokens
  else if py_eq_str backend (py "vllm") then
    call_vllm prompt tools model_config temperature max_tokens
  else if py_eq_str backend (py "openai") then
    call_openai_compatible prompt tools model_config temperature max_tokens
  else io_raise (ValueError (py "Unsupported backend: " ++ py_str backend)).

(* ===================================================================== *)
(** ** formatting.py                                                      *)
(* ===================================================================== *)

(** One turn of the loop of [json_tools_to_xml]: the parts appended for
    [tool]. [get] on a value that is not a dictionary is an error; so is a
    name, a description or a parameter schema that a limit of the
    interpreter keeps from being rendered. *)
Definition append_tool (xml_parts : list str) (tool : pyval) : result (list str) :=
  match tool with
  | PDict t =>
      match dict_get_default (py "function") (PDict []) t with
      | PDict func =>
          let name := dict_get_default (py "name") (PStr []) func in
          let description := dict_get_default (py "description") (PStr []) func in
          let parameters := dict_get_default (py "parameters") (PDict []) func in
          match py_format name with
          | Raise e => Raise e
          | Return name_text =>
              let xml_parts :=
                xml_parts ++ [py "<tool name='" ++ name_text ++ py "'>"] in
              match py_format description with
              | Raise e => Raise e
              | Return description_text =>
                  let xml_parts :=
                    xml_parts
                    ++ [py "<description>" ++ description_text
                        ++ py "</description>"] in
                  if truthy parameters then
                    let xml_parts := xml_parts ++ [py "<parameters>"] in
                    match json_dumps parameters with
                    | Raise e => Raise e
                    | Return parameters_text =>
                        let xml_parts := xml_parts ++ [parameters_text] in
                        let xml_parts := xml_parts ++ [py "</parameters>"] in
                        Return (xml_parts ++ [py "</tool>"])
                    end
                  else Return (xml_parts ++ [py "</tool>"])
              end
          end
      | _ => Raise AttributeError
      end
  | _ => Raise AttributeError
  end.

Fixpoint append_tools (tools : list pyval) (xml_parts : list str)
  : result (list str) :=
  match tools with
  | [] => Return xml_parts
  | tool :: rest =>
      match append_tool xml_parts tool with
      | Return parts => append_tools rest parts
      | Raise e => Raise e
      end
  end.

Definition json_tools_to_xml (tools : list pyval) : result str :=
  match append_tools tools [py "<tools>"] with
  | Return xml_parts => Return (List.concat (xml_parts ++ [py "</tools>"]))
  | Raise e => Raise e
  end.

Definition format_tools_for_model (tools : list pyval) (format_type : str)
  : result pyval :=
  if str_eqb format_type (py "xml") then
    match json_tools_to_xml tools with
    | Return xml => Return (PStr xml)
    | Raise e => Raise e
    end
  else if str_eqb format_type (py "function_calling") then
    Return (PDict [(py "tools", PList tools)])
  else Return (PList tools).

Definition xml_tools_to_json (xml_string : str) : result (list pyval) :=
  Return [].

End Gateway.

(* ===================================================================== *)
(** ** The words of the specification                                     *)
(* ===================================================================== *)

(** The strings a pattern denotes. *)
Inductive matches : list atom -> str -> Prop :=
| matches_nil : matches [] []
| matches_char c p m :
    matches p m -> matches (AChar c :: p) (c :: m)
| matches_star c p a m :
    Forall (fun x => x <> c) a -> matches p m -> matches (AStarNot c :: p) (a ++ m).

(** A text in braces that holds the quoted word [name], as a key or anywhere
    else: it opens with a brace and its only closing brace is its last
    character. *)
Definition braces_with_quoted_name (m : str) : Prop :=
  exists a b : str,
    m = [123] ++ a ++ pyq "`name`" ++ b ++ [125] /\ ~ In 125 a /\ ~ In 125 b.

(** [m] occurs in [text] as such a text, and none starts further left. *)
Definition first_match (text m : str) : Prop :=
  exists pre post : str,
    text = pre ++ m ++ post /\
    braces_with_quoted_name m /\
    forall pre' m' post',
      text = pre' ++ m' ++ post' -> braces_with_quoted_name m' ->
      (List.length pre <= List.length pre')%nat.

Definition no_match (text : str) : Prop :=
  forall pre m post, text = pre ++ m ++ post -> ~ braces_with_quoted_name m.

(** What the decoder raises besides a decoding error: the error of the
    recursion limit, or that of the digit limit on an integer of more
    digits than it allows. *)
Definition decoder_limit_error (e : exn) : Prop :=
  e = RecursionError \/
  exists digits, (int_max_str_digits < digits)%nat /\ e = digit_limit_to_int digits.

Section ToolMarkup.

Context {W : World}.

(** A tool schema as [json_tools_to_xml] reads it: a dictionary whose
    ["function"] entry, when present, is a dictionary. *)
Definition is_tool_schema (tool : pyval) : Prop :=
  exists t func : dict,
    tool = PDict t /\ dict_get_default (py "function") (PDict []) t = PDict func.

Definition tool_function (tool : pyval) : dict :=
  match tool with
  | PDict t =>
      match dict_get_default (py "function") (PDict []) t with
      | PDict func => func
      | _ => []
      end
  | _ => []
  end.

Definition tool_name (tool : pyval) : pyval :=
  dict_get_default (py "name") (PStr []) (tool_function tool).

Definition tool_description (tool : pyval) : pyval :=
  dict_get_default (py "description") (PStr []) (tool_function tool).

Definition tool_parameters (tool : pyval) : pyval :=
  dict_get_default (py "parameters") (PDict []) (tool_function tool).

(** An error of a limit of the interpreter on the way from a value to text:
    the recursion limit or the digit limit. *)
Definition limit_error (e : exn) : Prop :=
  e = RecursionError \/ e = digit_limit_to_str.

(** The element of one tool: the name as an attribute, a description child,
    and a parameters child holding JSON text exactly when the parameters are
    not empty. Name and description stand as they render, nothing in them
    is escaped. A tool has an element when no limit of the interpreter keeps
    its name, description or parameters from being rendered. *)
Definition tool_element (tool : pyval) (el : str) : Prop :=
  exists name description : str,
    py_format (tool_name tool) = Return name /\
    py_format (tool_description tool) = Return description /\
    ((truthy (tool_parameters tool) = false /\
      el = py "<tool name='" ++ name ++ py "'>"
           ++ py "<description>" ++ description ++ py "</description>"
           ++ py "</tool>")
     \/ (truthy (tool_parameters tool) = true /\
         exists parameters : str,
           json_dumps (tool_parameters tool) = Return parameters /\
           el = py "<tool name='" ++ name ++ py "'>"
                ++ py "<description>" ++ description ++ py "</description>"
                ++ py "<parameters>" ++ parameters ++ py "</parameters>"
                ++ py "</tool>")).

End ToolMarkup.

(** The payload of a chat-completion request: one user message holding the
    prompt, the model, the sampling settings, and the tools when some are
    supplied, a lone tool standing as a list of one. *)
Definition chat_payload (payload : dict) (prompt : str)
    (tools model temperature max_tokens : pyval) : Prop :=
  dict_get (py "messages") payload
  = Some (PList [PDict [(py "role", PStr (py "user"));
                        (py "content", PStr prompt)]]) /\
  dict_get (py "model") payload = Some model /\
  dict_get (py "temperature") payload = Some temperature /\
  dict_get (py "max_tokens") payload = Some max_tokens /\
  (truthy tools = false -> dict_get (py "tools") payload = None) /\
  (truthy tools = true -> (exists l, tools = PList l) ->
   dict_get (py "tools") payload = Some tools) /\
  (truthy tools = true -> (forall l, tools <> PList l) ->
   dict_get (py "tools") payload = Some (PList [tools])).

(* ===================================================================== *)
(** ** server.py                                                          *)
(* ===================================================================== *)

(** A second part of the outside world, met by the front door and by the
    registered handlers: the text [str(e)] of an exception that a library
    raised, and the answers of the configuration server. *)
Inductive http_method : Type := GET | POST.

(** One [client.get] or [client.post] of an [httpx.Client]. *)
Record client_request : Type := {
  cr_method : http_method;
  cr_url : str;
  cr_params : option dict;
  cr_json : option dict;
  cr_timeout_seconds : Z
}.

Class Services : Type := {
  (** [str(e)] for the exceptions whose text is not set by this program *)
  exception_text : exn -> str;
  (** the configuration server's answer; [None] is a transport failure *)
  client_send : client_request -> option http_response
}.

(** Services that are unreachable. *)
Definition quiet_services : Services := {|
  exception_text := fun _ => py "error";
  client_send := fun _ => None
|}.

(** A world whose backend answers every request with the JSON [body]. *)
Definition answering_world (body : pyval) : World := {|
  str_hash := fun _ => 0%Z;
  float_repr := fun _ => py "0.0";
  str_repr := fun s => py "'" ++ s ++ py "'";
  float_of_str := fun _ => zero;
  getenv := fun _ => None;
  httpx_post := fun _ => Some {| status_is_error := false; body_json := Some body |};
  loads_depth := 900;
  dumps_depth := 900;
  repr_depth := 900
|}.

(** Services whose configuration server answers with the JSON [body]. *)
Definition answering_services (body : pyval) : Services := {|
  exception_text := fun _ => py "error";
  client_send := fun _ => Some {| status_is_error := false; body_json := Some body |}
|}.

(** [ChatMessage] and [ChatCompletionRequest], after validation: the defaults
    of absent fields are already filled in. *)
Record ChatMessage : Type := {
  msg_role : str;
  msg_content : str
}.

Record ChatCompletionRequest : Type := {
  chat_model : option str;
  chat_messages : list ChatMessage;
  chat_tools : option (list dict);
  chat_temperature : option float;
  chat_max_tokens : option Z
}.

(** What the handler of a route gives: the body it returns, or the
    [HTTPException] it raises. *)
Inductive http_reply : Type :=
| Reply (body : pyval)
| HTTPException (status_code : Z) (detail : str).

Section FrontDoor.

Context {W : World} {Sv : Services}.

(** [str(e)] *)
Definition exn_str (e : exn) : str :=
  match e with
  | ValueError msg => msg
  | _ => exception_text e
  end.

Definition get_model_config (model_name : option str) : dict :=
  [(py "backend", PStr (getenv_default (py "MODEL_BACKEND") (py "ollama")));
   (py "model_name",
    PStr (match model_name with
          | Some (c :: m) => c :: m
          | _ => getenv_default (py "MODEL_NAME") (py "default")
          end));
   (py "base_url",
    PStr (getenv_default (py "MODEL_BASE_URL") (py "http://localhost:11434")));
   (py "tool_format", PStr (getenv_default (py "TOOL_FORMAT") (py "json")));
   (py "use_raw_mode",
    PBool (str_eqb (lower (getenv_default (py "USE_RAW_MODE") (py "false")))
                   (py "true")))].

Definition build_prompt_from_messages (messages : list ChatMessage) : str :=
  let prompt_parts :=
    fold_left
      (fun prompt_parts msg =>
         prompt_parts ++ [msg_role msg ++ py ": " ++ msg_content msg])
      messages [] in
  join [10] prompt_parts.

Definition chat_completions (request : ChatCompletionRequest)
  : http_reply * list http_request :=
  let model_config := get_model_config (chat_model request) in
  let formatted_tools : result pyval :=
    match chat_tools request with
    | Some (t :: ts) =>
        match dict_get_default (py "tool_format") (PStr (py "json")) model_config with
        | PStr format_type =>
            format_tools_for_model (map PDict (t :: ts)) format_type
        | _ => Return (PList (map PDict (t :: ts)))
        end
    | _ => Return PNone
    end in
  match formatted_tools with
  | Raise e => (HTTPException 500 (exn_str e), [])
  | Return formatted_tools =>
      let prompt := build_prompt_from_messages (chat_messages request) in
      let temperature :=
        match chat_temperature request with Some t => PFloat t | None => PNone end in
      let max_tokens :=
        match chat_max_tokens request with Some n => PInt n | None => PNone end in
      match call_model prompt formatted_tools (Some model_config)
              temperature max_tokens with
      | (Return response, sent) => (Reply response, sent)
      | (Raise e, sent) => (HTTPException 500 (exn_str e), sent)
      end
  end.

End FrontDoor.

(* ===================================================================== *)
(** ** function_registry.py                                               *)
(* ===================================================================== *)

(** What calling a handler gives: its result and the requests it made. *)
Definition outcome : Type := (result pyval * list client_request)%type.

(** A handler, as [execute_function] uses it: called with keyword arguments. *)
Definition handler : Type := dict -> outcome.

Record FunctionRegistry : Type := {
  _functions : dict;
  _handlers : list (str * handler)
}.

Fixpoint handlers_get (name : str) (hs : list (str * handler)) : option handler :=
  match hs with
  | [] => None
  | (n, h) :: hs' => if str_eqb name n then Some h else handlers_get name hs'
  end.

Fixpoint handlers_set (name : str) (h : handler) (hs : list (str * handler))
  : list (str * handler) :=
  match hs with
  | [] => [(name, h)]
  | (n, h') :: hs' =>
      if str_eqb name n then (n, h) :: hs' else (n, h') :: handlers_set name h hs'
  end.

(** [FunctionRegistry()] *)
Definition new_registry : FunctionRegistry :=
  {| _functions := []; _handlers := [] |}.

Definition register_function (self : FunctionRegistry) (name : str)
    (description parameters : pyval) (handler : option handler)
  : FunctionRegistry :=
  let functions :=
    dict_set name
      (PDict [(py "name", PStr name);
              (py "description", description);
              (py "parameters", parameters)])
      (_functions self) in
  match handler with
  | Some h =>
      {| _functions := functions; _handlers := handlers_set name h (_handlers self) |}
  | None => {| _functions := functions; _handlers := _handlers self |}
  end.

(** [get_function]: the definition, or [None]. *)
Definition get_function (self : FunctionRegistry) (name : str) : pyval :=
  dict_get_default name PNone (_functions self).

Definition list_functions (self : FunctionRegistry) : list pyval :=
  map snd (_functions self).

Definition execute_function (self : FunctionRegistry) (name : str)
    (arguments : dict) : outcome :=
  if negb (dict_mem name (_functions self)) then
    (Raise (ValueError (py "Function not found: " ++ name)), [])
  else
    match handlers_get name (_handlers self) with
    | Some handler => handler arguments
    | None =>
        (Return (PDict [(py "function", PStr name);
                        (py "arguments", PDict arguments);
                        (py "status", PStr (py "registered_but_no_handler"))]),
         [])
    end.

(** The errors of [func[key]]. *)
Inductive lookup_error : Type :=
| KeyError (key : str)
| SubscriptTypeError.

(** [v[key]] for a string [key] *)
Definition subscript (v : pyval) (key : str) : lookup_error + pyval :=
  match v with
  | PDict d =>
      match dict_get key d with
      | Some x => inr x
      | None => inl (KeyError key)
      end
  | _ => inl SubscriptTypeError
  end.

(** One turn of the loop of [get_tools_definition]. *)
Definition append_definition (tools : list pyval) (func : pyval)
  : lookup_error + list pyval :=
  match subscript func (py "name") with
  | inl e => inl e
  | inr name =>
      match subscript func (py "description") with
      | inl e => inl e
      | inr description =>
          match subscript func (py "parameters") with
          | inl e => inl e
          | inr parameters =>
              inr (tools ++
                   [PDict [(py "type", PStr (py "function"));
                           (py "function",
                            PDict [(py "name", name);
                                   (py "description", description);
                                   (py "parameters", parameters)])]])
          end
      end
  end.

Fixpoint append_definitions (funcs tools : list pyval) : lookup_error + list pyval :=
  match funcs with
  | [] => inr tools
  | func :: rest =>
      match append_definition tools func with
      | inl e => inl e
      | inr tools' => append_definitions rest tools'
      end
  end.

Definition get_tools_definition (self : FunctionRegistry)
  : lookup_error + list pyval :=
  append_definitions (map snd (_functions self)) [].

(** The registries the program can build. *)
Inductive reachable : FunctionRegistry -> Prop :=
| reachable_new : reachable new_registry
| reachable_register self name description parameters handler :
    reachable self ->
    reachable (register_function self name description parameters handler).

(* ===================================================================== *)
(** ** More words of the specification                                    *)
(* ===================================================================== *)

Section MoreWords.

Context {W : World}.

(** The payload of a local-generate request: model, non-streaming flag and
    sampling options; markup tools ride on the prompt after a blank line,
    other tools go as the JSON text [json.dumps] returns for them under
    ["context"]; ["raw"] is set only when asked for. *)
Definition generate_payload (payload : dict) (prompt : str)
    (tools model use_raw temperature max_tokens : pyval) : Prop :=
  dict_get (py "model") payload = Some model /\
  dict_get (py "stream") payload = Some (PBool false) /\
  dict_get (py "options") payload
  = Some (PDict [(py "temperature", temperature);
                 (py "num_predict", max_tokens)]) /\
  (truthy tools = false ->
   dict_get (py "prompt") payload = Some (PStr prompt) /\
   dict_get (py "context") payload = None) /\
  (forall markup, tools = PStr markup -> truthy tools = true ->
   dict_get (py "prompt") payload = Some (PStr (prompt ++ [10; 10] ++ markup)) /\
   dict_get (py "context") payload = None) /\
  (truthy tools = true -> (forall markup, tools <> PStr markup) ->
   dict_get (py "prompt") payload = Some (PStr prompt) /\
   exists text,
     json_dumps tools = Return text /\
     dict_get (py "context") payload = Some (PStr text)) /\
  dict_get (py "raw") payload
  = (if truthy use_raw then Some (PBool true) else None).

(** The tools given to [call_ollama] have to be dumped and cannot be: they
    are not empty, they are not markup, and [json.dumps] raises [e] on
    them. *)
Definition dump_failure (tools : pyval) (e : exn) : Prop :=
  truthy tools = true /\
  (forall markup, tools <> PStr markup) /\
  json_dumps tools = Raise e.

End MoreWords.

(** The three backends [call_model] knows. *)
Definition supported_backend (backend : pyval) : Prop :=
  backend = PStr (py "ollama") \/ backend = PStr (py "vllm")
  \/ backend = PStr (py "openai").

(** A world in which one environment variable is set. *)
Definition env_world (name value : str) : World := {|
  str_hash := fun _ => 0%Z;
  float_repr := fun _ => py "0.0";
  str_repr := fun s => py "'" ++ s ++ py "'";
  float_of_str := fun _ => zero;
  getenv := fun n => if str_eqb n name then Some value else None;
  httpx_post := fun _ => None;
  loads_depth := 900;
  dumps_depth := 900;
  repr_depth := 900
|}.

(** The line of one message in the prompt. *)
Definition message_line (msg : ChatMessage) : str :=
  msg_role msg ++ py ": " ++ msg_content msg.

(** The definition [register_function] stores under [name]. *)
Definition registered_entry (name : str) (v : pyval) : Prop :=
  exists description parameters,
    v = PDict [(py "name", PStr name);
               (py "description", description);
               (py "parameters", parameters)].

(** The tool definition [get_tools_definition] builds from a stored entry. *)
Definition tool_of_entry (kv : str * pyval) : pyval :=
  PDict [(py "type", PStr (py "function")); (py "function", snd kv)].

(** A handler that answers [None] and sends nothing. *)
Definition idle_handler : handler := fun _ => (Return PNone, []).

(* ===================================================================== *)
(** ** functions/mcp_configuration.py                                     *)
(* ===================================================================== *)

(** Keyword arguments: [f( **arguments )]. A key that names no parameter and
    a parameter left without value are both a [TypeError]. *)
Definition only_keys (names : list str) (arguments : dict) : bool :=
  forallb (fun kv => existsb (str_eqb (fst kv)) names) arguments.

Definition kwarg (p : str * option pyval) (arguments : dict) : result pyval :=
  match dict_get (fst p) arguments, snd p with
  | Some v, _ => Return v
  | None, Some default => Return default
  | None, None => Raise TypeError
  end.

Definition with_kwargs0 (f : outcome) : handler :=
  fun arguments =>
    if only_keys [] arguments then f else (Raise TypeError, []).

Definition with_kwargs1 (p1 : str * option pyval) (f : pyval -> outcome)
  : handler :=
  fun arguments =>
    if only_keys [fst p1] arguments then
      match kwarg p1 arguments with
      | Return a1 => f a1
      | Raise e => (Raise e, [])
      end
    else (Raise TypeError, []).

Definition with_kwargs2 (p1 p2 : str * option pyval)
    (f : pyval -> pyval -> outcome) : handler :=
  fun arguments =>
    if only_keys [fst p1; fst p2] arguments then
      match kwarg p1 arguments, kwarg p2 arguments with
      | Return a1, Return a2 => f a1 a2
      | Raise e, _ => (Raise e, [])
      | _, Raise e => (Raise e, [])
      end
    else (Raise TypeError, []).

Definition with_kwargs3 (p1 p2 p3 : str * option pyval)
    (f : pyval -> pyval -> pyval -> outcome) : handler :=
  fun arguments =>
    if only_keys [fst p1; fst p2; fst p3] arguments then
      match kwarg p1 arguments, kwarg p2 arguments, kwarg p3 arguments with
      | Return a1, Return a2, Return a3 => f a1 a2 a3
      | Raise e, _, _ => (Raise e, [])
      | _, Raise e, _ => (Raise e, [])
      | _, _, Raise e => (Raise e, [])
      end
    else (Raise TypeError, []).

Definition with_kwargs4 (p1 p2 p3 p4 : str * option pyval)
    (f : pyval -> pyval -> pyval -> pyval -> outcome) : handler :=
  fun arguments =>
    if only_keys [fst p1; fst p2; fst p3; fst p4] arguments then
      match kwarg p1 arguments, kwarg p2 arguments,
            kwarg p3 arguments, kwarg p4 arguments with
      | Return a1, Return a2, Return a3, Return a4 => f a1 a2 a3 a4
      | Raise e, _, _, _ => (Raise e, [])
      | _, Raise e, _, _ => (Raise e, [])
      | _, _, Raise e, _ => (Raise e, [])
      | _, _, _, Raise e => (Raise e, [])
      end
    else (Raise TypeError, []).

(** The parameter schema registered for [mcp_discover_services]. *)
Definition mcp_discover_services_parameters : pyval :=
  PDict
    [(py "type", PStr (py "object"));
     (py "properties",
      PDict
        [(py "category",
          PDict
            [(py "type", PStr (py "string"));
             (py "enum",
              PList
                [PStr (py "lead_generation");
                 PStr (py "email");
                 PStr (py "data_enrichment");
                 PStr (py "all")]);
             (py "description", PStr (py "Category of services to discover"));
             (py "default", PStr (py "all"))])])].

(** The parameter schema registered for [mcp_get_service_info]. *)
Definition mcp_get_service_info_parameters : pyval :=
  PDict
    [(py "type", PStr (py "object"));
     (py "properties",
      PDict
        [(py "service_name",
          PDict
            [(py "type", PStr (py "string"));
             (py "description",
              PStr (py "Service identifier (e.g., 'linkedin', 'sendgrid', 'hunter_io')"))])]);
     (py "required", PList [PStr (py "service_name")])].

(** The parameter schema registered for [mcp_configure_service]. *)
Definition mcp_configure_service_parameters : pyval :=
  PDict
    [(py "type", PStr (py "object"));
     (py "properties",
      PDict
        [(py "service_name",
          PDict
            [(py "type", PStr (py "string"));
             (py "description",
              PStr (py "Service identifier (e.g., 'linkedin', 'sendgrid')"))]);
         (py "credentials",
          PDict
            [(py "type", PStr (py "object"));
             (py "description",
              PStr (py "Service credentials (API keys, tokens, etc.)"))]);
         (py "settings",
          PDict
            [(py "type", PStr (py "object"));
             (py "description", PStr (py "Optional service-specific settings"))]);
         (py "config_name",
          PDict
            [(py "type", PStr (py "string"));
             (py "description", PStr (py "Configuration name (default: 'default')"));
             (py "default", PStr (py "default"))])]);
     (py "required", PList [PStr (py "service_name"); PStr (py "credentials")])].

(** The parameter schema registered for [mcp_test_service]. *)
Definition mcp_test_service_parameters : pyval :=
  PDict
    [(py "type", PStr (py "object"));
     (py "properties",
      PDict
        [(py "service_name",
          PDict
            [(py "type", PStr (py "string"));
             (py "description", PStr (py "Service identifier"))]);
         (py "config_id",
          PDict
            [(py "type", PStr (py "integer"));
             (py "description",
              PStr (py "Optional configuration ID to test specific config"))])]);
     (py "required", PList [PStr (py "service_name")])].

(** The parameter schema registered for [mcp_list_services]. *)
Definition mcp_list_services_parameters : pyval :=
  PDict
    [(py "type", PStr (py "object"));
     (py "properties", PDict [])].

(** The parameter schema registered for [mcp_update_service_config]. *)
Definition mcp_update_service_config_parameters : pyval :=
  PDict
    [(py "type", PStr (py "object"));
     (py "properties",
      PDict
        [(py "service_name",
          PDict
            [(py "type", PStr (py "string"));
             (py "description", PStr (py "Service identifier"))]);
         (py "updates",
          PDict
            [(py "type", PStr (py "object"));
             (py "description",
              PStr (py "Configuration updates (credentials, settings, etc.)"))])]);
     (py "required", PList [PStr (py "service_name"); PStr (py "updates")])].

(** The parameter schema registered for [mcp_get_config_guide]. *)
Definition mcp_get_config_guide_parameters : pyval :=
  PDict
    [(py "type", PStr (py "object"));
     (py "properties",
      PDict
        [(py "service_name",
          PDict
            [(py "type", PStr (py "string"));
             (py "description", PStr (py "Service identifier"))])]);
     (py "required", PList [PStr (py "service_name")])].

(** The parameter schema registered for [mcp_search_marketplace]. *)
Definition mcp_search_marketplace_parameters : pyval :=
  PDict
    [(py "type", PStr (py "object"));
     (py "properties",
      PDict
        [(py "use_case",
          PDict
            [(py "type", PStr (py "string"));
             (py "description",
              PStr (py "Search by use case (e.g., 'lead generation', 'email marketing')"))]);
         (py "integration_type",
          PDict
            [(py "type", PStr (py "string"));
             (py "description", PStr (py "Search by integration type"))]);
         (py "category",
          PDict
            [(py "type", PStr (py "string"));
             (py "enum",
              PList
                [PStr (py "lead_generation");
                 PStr (py "email");
                 PStr (py "data_enrichment")]);
             (py "description", PStr (py "Filter by category"))])])].

Section McpConfiguration.

Context {W : World} {Sv : Services}.

Definition MCP_CONFIG_SERVER_URL : str :=
  getenv_default (py "MCP_CONFIG_SERVER_URL") (py "http://mcp-config-server:8001").

(** The request, [raise_for_status] and [json()], in this order. *)
Definition client_json (req : client_request) : outcome :=
  match client_send req with
  | None => (Raise RequestError, [req])
  | Some resp =>
      if status_is_error resp then (Raise HTTPStatusError, [req])
      else
        match body_json resp with
        | Some body => (Return body, [req])
        | None => (Raise JSONDecodeError, [req])
        end
  end.

(** The [except Exception as e] that closes every handler: the failure
    becomes a reply, [what] being the words before the colon. *)
Definition or_error_reply (what : str) (o : outcome) : outcome :=
  match o with
  | (Return v, sent) => (Return v, sent)
  | (Raise e, sent) =>
      (Return (PDict [(py "success", PBool false);
                      (py "message", PStr (what ++ py ": " ++ exn_str e));
                      (py "error", PStr (exn_str e))]),
       sent)
  end.

Definition discover_services_handler (category : pyval) : outcome :=
  or_error_reply (py "Error discovering services")
    (client_json
       {| cr_method := GET;
          cr_url := MCP_CONFIG_SERVER_URL ++ py "/mcp/tools/discover_services";
          cr_params := Some [(py "category", category)];
          cr_json := None;
          cr_timeout_seconds := 30 |}).

Definition get_service_info_handler (service_name : pyval) : outcome :=
  or_error_reply (py "Error getting service info")
    (client_json
       {| cr_method := GET;
          cr_url := MCP_CONFIG_SERVER_URL ++ py "/mcp/tools/get_service_info";
          cr_params := Some [(py "service_name", service_name)];
          cr_json := None;
          cr_timeout_seconds := 30 |}).

Definition configure_service_handler
    (service_name credentials settings config_name : pyval) : outcome :=
  or_error_reply (py "Error configuring service")
    (client_json
       {| cr_method := POST;
          cr_url := MCP_CONFIG_SERVER_URL ++ py "/mcp/tools/configure_service";
          cr_params := None;
          cr_json :=
            Some [(py "service_name", service_name);
                  (py "credentials", credentials);
                  (py "settings", if truthy settings then settings else PDict []);
                  (py "config_name", config_name)];
          cr_timeout_seconds := 60 |}).

Definition test_service_handler (service_name config_id : pyval) : outcome :=
  let params : dict := [(py "service_name", service_name)] in
  let params :=
    if truthy config_id then dict_set (py "config_id") config_id params
    else params in
  or_error_reply (py "Error testing service")
    (client_json
       {| cr_method := POST;
          cr_url := MCP_CONFIG_SERVER_URL ++ py "/mcp/tools/test_service_connection";
          cr_params := Some params;
          cr_json := None;
          cr_timeout_seconds := 30 |}).

Definition list_services_handler : outcome :=
  or_error_reply (py "Error listing services")
    (client_json
       {| cr_method := GET;
          cr_url := MCP_CONFIG_SERVER_URL ++ py "/mcp/tools/list_configured_services";
          cr_params := None;
          cr_json := None;
          cr_timeout_seconds := 30 |}).

Definition update_service_config_handler (service_name updates : pyval)
  : outcome :=
  or_error_reply (py "Error updating service config")
    (client_json
       {| cr_method := POST;
          cr_url := MCP_CONFIG_SERVER_URL ++ py "/mcp/tools/update_service_config";
          cr_params := Some [(py "service_name", service_name)];
          cr_json := Some [(py "updates", updates)];
          cr_timeout_seconds := 30 |}).

Definition get_config_guide_handler (service_name : pyval) : outcome :=
  or_error_reply (py "Error getting config guide")
    (client_json
       {| cr_method := GET;
          cr_url := MCP_CONFIG_SERVER_URL ++ py "/mcp/tools/get_configuration_guide";
          cr_params := Some [(py "service_name", service_name)];
          cr_json := None;
          cr_timeout_seconds := 30 |}).

Definition search_marketplace_handler (use_case integration_type category : pyval)
  : outcome :=
  let params : dict := [] in
  let params :=
    if truthy use_case then dict_set (py "use_case") use_case params else params in
  let params :=
    if truthy integration_type
    then dict_set (py "integration_type") integration_type params else params in
  let params :=
    if truthy category then dict_set (py "category") category params else params in
  or_error_reply (py "Error searching marketplace")
    (client_json
       {| cr_method := GET;
          cr_url := MCP_CONFIG_SERVER_URL ++ py "/mcp/tools/search_marketplace";
          cr_params := Some params;
          cr_json := None;
          cr_timeout_seconds := 30 |}).

(** The eight registrations, in the order of the source. *)
Definition register_mcp_functions (function_registry : FunctionRegistry)
  : FunctionRegistry :=
  let function_registry :=
    register_function function_registry (py "mcp_discover_services")
      (PStr (py "Discover what external services can be configured for "
         ++ py "marketing automation. Filter by category: lead_generation, "
         ++ py "email, data_enrichment, or 'all'."))
      mcp_discover_services_parameters
      (Some (with_kwargs1 (py "category", Some (PStr (py "all")))
             discover_services_handler)) in
  let function_registry :=
    register_function function_registry (py "mcp_get_service_info")
      (PStr (py "Get detailed information about a specific service including "
         ++ py "capabilities, pricing, and requirements."))
      mcp_get_service_info_parameters
      (Some (with_kwargs1 (py "service_name", None) get_service_info_handler)) in
  let function_registry :=
    register_function function_registry (py "mcp_configure_service")
      (PStr (py "Configure an external service with API credentials. The AI "
         ++ py "will guide you through the process step-by-step."))
      mcp_configure_service_parameters
      (Some (with_kwargs4 (py "service_name", None) (py "credentials", None)
             (py "settings", Some PNone)
             (py "config_name", Some (PStr (py "default")))
             configure_service_handler)) in
  let function_registry :=
    register_function function_registry (py "mcp_test_service")
      (PStr (py "Test if a configured service connection is working. Validates "
         ++ py "credentials and API access."))
      mcp_test_service_parameters
      (Some (with_kwargs2 (py "service_name", None) (py "config_id", Some PNone)
             test_service_handler)) in
  let function_registry :=
    register_function function_registry (py "mcp_list_services")
      (PStr (py "List all currently configured services and their status "
         ++ py "(active, failed, pending)."))
      mcp_list_services_parameters
      (Some (with_kwargs0 list_services_handler)) in
  let function_registry :=
    register_function function_registry (py "mcp_update_service_config")
      (PStr (py "Update configuration for an existing service. Can update "
         ++ py "credentials or settings."))
      mcp_update_service_config_parameters
      (Some (with_kwargs2 (py "service_name", None) (py "updates", None)
             update_service_config_handler)) in
  let function_registry :=
    register_function function_registry (py "mcp_get_config_guide")
      (PStr (py "Get step-by-step guide for configuring a specific service. "
         ++ py "Includes where to find API keys and setup instructions."))
      mcp_get_config_guide_parameters
      (Some (with_kwargs1 (py "service_name", None) get_config_guide_handler)) in
  let function_registry :=
    register_function function_registry (py "mcp_search_marketplace")
      (PStr (py "Search marketplace for services by use case, integration type, "
         ++ py "or category."))
      mcp_search_marketplace_parameters
      (Some (with_kwargs3 (py "use_case", Some PNone) (py "integration_type", Some PNone)
             (py "category", Some PNone)
             search_marketplace_handler)) in
  function_registry.

End McpConfiguration.

(** The names [register_mcp_functions] registers, in order. *)
Definition mcp_function_names : list str :=
  [py "mcp_discover_services"; py "mcp_get_service_info";
   py "mcp_configure_service"; py "mcp_test_service";
   py "mcp_list_services"; py "mcp_update_service_config";
   py "mcp_get_config_guide"; py "mcp_search_marketplace"].

Section McpWords.

Context {W : World} {Sv : Services}.

(** The request did not give a JSON body: no answer, an error status, or a
    body that is not JSON. *)
Definition request_failed (req : client_request) : Prop :=
  client_send req = None \/
  exists resp,
    client_send req = Some resp /\
    (status_is_error resp = true \/ body_json resp = None).

(** The reply a handler makes of a failure. *)
Definition failure_reply (v : pyval) : Prop :=
  exists what text : str,
    v = PDict [(py "success", PBool false);
               (py "message", PStr (what ++ py ": " ++ text));
               (py "error", PStr text)].

(** What calling a registered handler with keyword arguments gives: a
    [TypeError] before anything is sent when the arguments do not fit the
    parameters; otherwise one request to a tool of the configuration server
    and a value, the JSON body of the answer or the reply made of the
    failure. *)
Definition handler_outcome (o : outcome) : Prop :=
  o = (Raise TypeError, []) \/
  exists v req,
    o = (Return v, [req]) /\
    startswith (MCP_CONFIG_SERVER_URL ++ py "/mcp/tools/") (cr_url req) = true /\
    (forall resp body,
        client_send req = Some resp -> status_is_error resp = false ->
        body_json resp = Some body -> v = body) /\
    (request_failed req -> failure_reply v).

End McpWords.

(* ===================================================================== *)
(** ** Reading back what [json.dumps] wrote: the words                    *)
(* ===================================================================== *)

(** The digits of a decimal number, as characters. *)
Definition uint_chars (u : Decimal.uint) : str := py (NilEmpty.string_of_uint u).

(** One step of [int] on decimal digits. *)
Definition digit_step (acc : Z) (c : char) : Z := (acc * 10 + Z.of_N (c - 48))%Z.

(** What may follow a number for the decoder to stop there. *)
Definition number_end (rest : str) : Prop :=
  match rest with
  | [] => True
  | c :: _ => is_digit c = false /\ (c =? 46) = false
              /\ (c =? 101) = false /\ (c =? 69) = false
  end.

(** A Unicode scalar value: a code point that is not a surrogate. *)
Definition scalar (c : char) : Prop :=
  c < 55296 \/ (57344 <= c /\ c < 1114112).

(** A text [json.dumps] and the pattern of the extractor both leave whole:
    scalar values only, and no closing brace. *)
Definition flat_text (s : str) : Prop := Forall scalar s /\ ~ In 125 s.

(** A value without nesting: [None], a boolean, an integer or a flat text. *)
Definition flat_value (v : pyval) : Prop :=
  match v with
  | PNone | PBool _ | PInt _ => True
  | PStr s => flat_text s
  | _ => False
  end.

(** A function call without nesting: distinct keys, one of them [name],
    and flat texts and values. *)
Definition flat_call (call : dict) : Prop :=
  NoDup (map fst call) /\
  In (py "name") (map fst call) /\
  Forall (fun kv => flat_text (fst kv) /\ flat_value (snd kv)) call.

(** A flat value the decoder can read back: an integer is within the digit
    limit. *)
Definition readable_value (v : pyval) : Prop :=
  match v with
  | PNone | PBool _ => True
  | PInt n => (int_digit_count n <= int_max_str_digits)%nat
  | PStr s => flat_text s
  | _ => False
  end.

Definition readable_call (call : dict) : Prop :=
  NoDup (map fst call) /\
  In (py "name") (map fst call) /\
  Forall (fun kv => flat_text (fst kv) /\ readable_value (snd kv)) call.

(** What follows a member of an object: a comma or the closing brace. *)
Definition value_end (rest : str) : Prop :=
  exists r, rest = 44 :: r \/ rest = 125 :: r.

Section Members.

Context {W : World}.

(** One member of a dumped object: the quoted key, a colon and a space, and
    the value. *)
Definition member (kv : str * pyval) : str :=
  json_quote (fst kv) ++ py ": " ++ json_text (snd kv).

End Members.
(* ===================================================================== *)
(** ** Strings and dictionaries                                           *)
(* ===================================================================== *)

Lemma str_eqb_eq (a b : str) : str_eqb a b = true <-> a = b.
Proof.
  revert b. induction a as [|x a IH]; intros [|y b]; simpl; split;
    try congruence; try reflexivity.
  - intros H. apply andb_true_iff in H as [Hx Hr].
    apply N.eqb_eq in Hx. apply IH in Hr. congruence.
  - intros H. injection H as -> ->. rewrite N.eqb_refl. simpl.
    apply IH. reflexivity.
Qed.

Lemma str_eqb_neq (a b : str) : str_eqb a b = false <-> a <> b.
Proof.
  split.
  - intros H E. apply str_eqb_eq in E. congruence.
  - intros H. destruct (str_eqb a b) eqn:E; [|reflexivity].
    apply str_eqb_eq in E. contradiction.
Qed.

Lemma py_eq_str_true (v : pyval) (s : str) : py_eq_str v s = true <-> v = PStr s.
Proof.
  destruct v; simpl; split; try congruence.
  - intros H. apply str_eqb_eq in H. congruence.
  - intros H. injection H as ->. apply str_eqb_eq. reflexivity.
Qed.

Lemma py_eq_str_false (v : pyval) (s : str) : v <> PStr s -> py_eq_str v s = false.
Proof.
  intros H. destruct (py_eq_str v s) eqn:E; [|reflexivity].
  apply py_eq_str_true in E. contradiction.
Qed.

(* ===================================================================== *)
(** ** The pattern matcher                                                *)
(* ===================================================================== *)

Lemma match_here_star (c : char) (p : list atom) (s : str) :
  match_here (AStarNot c :: p) s =
  match s with
  | x :: r =>
      if x =? c then match_here p s
      else
        match match_here (AStarNot c :: p) r with
        | Some n => Some (S n)
        | None => match_here p s
        end
  | [] => match_here p []
  end.
Proof. destruct s; reflexivity. Qed.

(** What the matcher returns is the length of a prefix the pattern denotes. *)
Lemma match_here_sound (p : list atom) :
  forall s n, match_here p s = Some n ->
  exists m rest, s = m ++ rest /\ List.length m = n /\ matches p m.
Proof.
  induction p as [|[c|c] p IH].
  - intros s n H. injection H as <-. exists [], s. repeat split. constructor.
  - intros [|x r] n H; simpl in H; [discriminate|].
    destruct (x =? c) eqn:E; [|discriminate].
    apply N.eqb_eq in E. subst x.
    destruct (match_here p r) as [k|] eqn:Hk; [|discriminate].
    injection H as <-.
    destruct (IH _ _ Hk) as (m & rest & -> & <- & Hm).
    exists (c :: m), rest. repeat split. constructor. exact Hm.
  - induction s as [|x r IHs]; intros n H; rewrite match_here_star in H.
    + destruct (IH _ _ H) as (m & rest & E & L & Hm).
      exists m, rest. repeat split; auto.
      change m with ([] ++ m). constructor; [constructor | exact Hm].
    + destruct (x =? c) eqn:E.
      * destruct (IH _ _ H) as (m & rest & E' & L & Hm).
        exists m, rest. repeat split; auto.
        change m with ([] ++ m). constructor; [constructor | exact Hm].
      * destruct (match_here (AStarNot c :: p) r) as [k|] eqn:Hk.
        -- injection H as <-.
           destruct (IHs _ eq_refl) as (m & rest & -> & <- & Hm).
           exists (x :: m), rest. repeat split.
           inversion Hm as [| |c' p' a m' Ha Hm' E1 E2]; subst.
           change (x :: a ++ m') with ((x :: a) ++ m').
           constructor; [|exact Hm'].
           constructor; [|exact Ha]. apply N.eqb_neq. exact E.
        -- destruct (IH _ _ H) as (m & rest & E' & L & Hm).
           exists m, rest. repeat split; auto.
           change m with ([] ++ m). constructor; [constructor | exact Hm].
Qed.

Lemma match_here_star_skip (c : char) (p : list atom) (s : str) :
  match_here p s <> None -> match_here (AStarNot c :: p) s <> None.
Proof.
  intros H. rewrite match_here_star. destruct s as [|x r]; [exact H|].
  destruct (x =? c); [exact H|].
  destruct (match_here (AStarNot c :: p) r); [discriminate | exact H].
Qed.

(** Backtracking loses no match: where the pattern denotes a prefix of the
    input, the matcher finds one. *)
Lemma match_here_complete (p : list atom) (m : str) :
  matches p m -> forall rest, match_here p (m ++ rest) <> None.
Proof.
  induction 1 as [|c p m Hm IH|c p a m Ha Hm IH]; intros rest.
  - discriminate.
  - simpl. rewrite N.eqb_refl. specialize (IH rest).
    destruct (match_here p (m ++ rest)); [discriminate | contradiction].
  - induction Ha as [|x a Hx Ha IHa].
    + apply match_here_star_skip. apply IH.
    + rewrite <- app_assoc.
      change ((x :: a) ++ m ++ rest) with (x :: (a ++ m ++ rest)).
      rewrite match_here_star.
      apply N.eqb_neq in Hx. rewrite Hx.
      rewrite <- app_assoc in IHa.
      destruct (match_here (AStarNot c :: p) (a ++ m ++ rest)) eqn:E.
      * discriminate.
      * exfalso. apply IHa. reflexivity.
Qed.

(** [re_search] returns a match, and no match starts further left. *)
Lemma re_search_some (p : list atom) :
  forall text m, re_search p text = Some m ->
  exists pre post,
    text = pre ++ m ++ post /\ matches p m /\
    forall pre' m' post',
      text = pre' ++ m' ++ post' -> matches p m' ->
      (List.length pre <= List.length pre')%nat.
Proof.
  induction text as [|x rest IH]; intros m H; simpl in H.
  - destruct (match_here p []) as [n|] eqn:E; [|discriminate].
    injection H as <-.
    destruct (match_here_sound _ _ _ E) as (m & r & E' & L & Hm).
    symmetry in E'. apply app_eq_nil in E' as [-> ->]. simpl in L. subst n.
    exists [], []. repeat split; [exact Hm|]. intros; simpl; lia.
  - destruct (match_here p (x :: rest)) as [n|] eqn:E.
    + injection H as <-.
      destruct (match_here_sound _ _ _ E) as (m & r & E' & L & Hm).
      exists [], r. rewrite E'. subst n. rewrite firstn_app, firstn_all.
      rewrite Nat.sub_diag. simpl. rewrite app_nil_r.
      repeat split; [exact Hm|]. intros; lia.
    + destruct (IH _ H) as (pre & post & -> & Hm & Hmin).
      exists (x :: pre), post. repeat split; [exact Hm|].
      intros [|y pre'] m' post' E' Hm'.
      * exfalso. simpl in E'. rewrite E' in E.
        exact (match_here_complete _ _ Hm' post' E).
      * simpl in E'. injection E' as _ E'. simpl.
        apply le_n_S. exact (Hmin _ _ _ E' Hm').
Qed.

Lemma re_search_none (p : list atom) :
  forall text, re_search p text = None ->
  forall pre m post, text = pre ++ m ++ post -> ~ matches p m.
Proof.
  induction text as [|x rest IH]; intros H pre m post E Hm; simpl in H.
  - destruct (match_here p []) eqn:E0; [discriminate|].
    symmetry in E. apply app_eq_nil in E as [-> E].
    apply app_eq_nil in E as [-> ->].
    exact (match_here_complete _ _ Hm [] E0).
  - destruct (match_here p (x :: rest)) eqn:E0; [discriminate|].
    destruct pre as [|y pre].
    + simpl in E. rewrite E in E0. exact (match_here_complete _ _ Hm post E0).
    + simpl in E. injection E as _ E. exact (IH H _ _ _ E Hm).
Qed.

Lemma Forall_neq_not_In (c : char) (a : str) :
  Forall (fun x => x <> c) a <-> ~ In c a.
Proof.
  rewrite Forall_forall. split.
  - intros H Hin. exact (H c Hin eq_refl).
  - intros H x Hin E. subst x. contradiction.
Qed.

(** The pattern of the extractor denotes the brace objects of the
    specification. *)
Lemma function_call_pattern_denotes (m : str) :
  matches function_call_pattern m <-> braces_with_quoted_name m.
Proof.
  unfold function_call_pattern, braces_with_quoted_name. split.
  - intros H.
    repeat match goal with
           | Hm : matches (_ :: _) _ |- _ => inversion Hm; subst; clear Hm
           | Hm : matches (_ ++ _) _ |- _ => simpl in Hm
           | Hm : matches (map _ _) _ |- _ => simpl in Hm
           end.
    match goal with
    | Hm : matches [] _ |- _ => inversion Hm; subst; clear Hm
    end.
    match goal with
    | Ha : Forall _ ?a, Hb : Forall _ ?b |- context [?a ++ _ :: _ :: _] =>
        exists a, b; repeat split;
        [apply Forall_neq_not_In; exact Ha | apply Forall_neq_not_In; exact Hb]
    end.
  - intros (a & b & -> & Ha & Hb).
    apply Forall_neq_not_In in Ha. apply Forall_neq_not_In in Hb.
    simpl. constructor. constructor; [exact Ha|].
    do 6 constructor. constructor; [exact Hb|].
    change [125] with (125 :: []). constructor. constructor.
Qed.

(** The text up to the first closing brace is determined. *)
Lemma split_at_first (c : char) (a a' r r' : str) :
  ~ In c a -> ~ In c a' -> a ++ c :: r = a' ++ c :: r' -> a = a' /\ r = r'.
Proof.
  revert a'. induction a as [|x a IH]; intros [|y a'] Ha Ha' E; simpl in *.
  - injection E as ->. auto.
  - injection E as E _. exfalso. apply Ha'. left. congruence.
  - injection E as E _. exfalso. apply Ha. left. congruence.
  - injection E as -> E.
    destruct (IH a') as [-> ->]; auto.
Qed.

Lemma brace_object_one_closing (m : str) :
  braces_with_quoted_name m ->
  exists body, m = 123 :: body ++ [125] /\ ~ In 125 body.
Proof.
  intros (a & b & -> & Ha & Hb).
  exists (a ++ pyq "`name`" ++ b). split.
  - simpl. rewrite <- !app_assoc. reflexivity.
  - rewrite !in_app_iff. intros [H|[H|H]]; auto.
    vm_compute in H. repeat (destruct H as [H|H]; [discriminate|]). exact H.
Qed.

Lemma first_match_unique (text m m' : str) :
  first_match text m -> first_match text m' -> m = m'.
Proof.
  intros (pre & post & E & Hm & Hmin) (pre' & post' & E' & Hm' & Hmin').
  pose proof (Hmin _ _ _ E' Hm') as L1.
  pose proof (Hmin' _ _ _ E Hm) as L2.
  assert (L : List.length pre = List.length pre') by lia.
  rewrite E in E'.
  apply app_eq_app in E' as [l [[-> E']|[-> E']]];
    rewrite length_app in L;
    (destruct l; [|simpl in L; lia]); simpl in E'; rewrite ?app_nil_r in *.
  all: destruct (brace_object_one_closing _ Hm) as (body & -> & Hb);
       destruct (brace_object_one_closing _ Hm') as (body' & -> & Hb');
       simpl in E'; injection E' as E'; rewrite <- !app_assoc in E'; simpl in E'.
  - destruct (split_at_first _ _ _ _ _ Hb' Hb E') as [-> _]. reflexivity.
  - destruct (split_at_first _ _ _ _ _ Hb Hb' E') as [-> _]. reflexivity.
Qed.

(* ===================================================================== *)
(** ** The JSON decoder                                                   *)
(* ===================================================================== *)

Ltac break_match_in H :=
  match type of H with
  | context [match ?x with _ => _ end] => destruct x eqn:?
  end.

Lemma skip_ws_length (s : str) :
  (List.length (skip_ws s) <= List.length s)%nat.
Proof.
  induction s as [|c r IH]; cbn [skip_ws List.length]; [lia|].
  destruct (is_ws c); cbn [List.length]; lia.
Qed.

(** Skipping white space never crosses a double quote. *)
Lemma skip_ws_stops_at_quote (a t r1 : str) :
  skip_ws (a ++ 34 :: t) = 125 :: r1 -> In 125 a.
Proof.
  induction a as [|x a IH]; cbn [app skip_ws].
  - change (is_ws 34) with false. cbn iota. discriminate.
  - destruct (is_ws x).
    + intros H. right. exact (IH H).
    + intros H. injection H as -> _. left. reflexivity.
Qed.

Lemma cons_chunk_some (c : char) (r : option (str * str)) (v rest : str) :
  cons_chunk c r = Some (v, rest) -> exists v', r = Some (v', rest).
Proof.
  destruct r as [[v' rest']|]; cbn [cons_chunk]; [|discriminate].
  intros H. injection H as _ ->. eauto.
Qed.

Lemma scanstring_shorter :
  forall n s v rest,
    (List.length s <= n)%nat -> scanstring s = Some (v, rest) ->
    (List.length rest < List.length s)%nat.
Proof.
  induction n as [|n IH]; intros s v rest L H.
  - destruct s; cbn [List.length] in *; [discriminate | lia].
  - destruct s as [|c r]; [discriminate|].
    cbn [scanstring] in H.
    repeat (break_match_in H; try discriminate);
      try (injection H as _ <-; cbn [List.length]; lia);
      (apply cons_chunk_some in H as [v' H]; apply IH in H;
       cbn [List.length] in *; lia).
Qed.

Lemma span_digits_length (s d rest : str) :
  span_digits s = (d, rest) ->
  (List.length d + List.length rest = List.length s)%nat.
Proof.
  revert d rest. induction s as [|c r IH]; intros d rest H;
    cbn [span_digits] in H.
  - injection H as <- <-. reflexivity.
  - destruct (is_digit c).
    + destruct (span_digits r) as [d' rest'] eqn:E.
      injection H as <- <-. specialize (IH _ _ eq_refl).
      cbn [List.length]. lia.
    + injection H as <- <-. cbn [List.length]. lia.
Qed.

Ltac number_lengths H :=
  repeat (break_match_in H; try discriminate);
  repeat match goal with
         | E : span_digits _ = _ |- _ => apply span_digits_length in E
         | E : (_, _) = (_, _) |- _ => injection E as <- <-
         | E : Some _ = Some _ |- _ => injection E as <- <-
         end;
  cbn [List.length] in *; lia.

Lemma match_integer_shorter (s i rest : str) :
  match_integer s = Some (i, rest) ->
  (List.length rest < List.length s)%nat.
Proof.
  unfold match_integer. intros H.
  destruct s as [|c r]; [discriminate|].
  destruct (c =? 45); number_lengths H.
Qed.

Lemma match_frac_length (s f rest : str) :
  match_frac s = (f, rest) -> (List.length rest <= List.length s)%nat.
Proof. unfold match_frac. intros H. number_lengths H. Qed.

Lemma match_exp_length (s e rest : str) :
  match_exp s = (e, rest) -> (List.length rest <= List.length s)%nat.
Proof.
  unfold match_exp. intros H.
  destruct s as [|c r]; [injection H as <- <-; lia|].
  destruct ((c =? 101) || (c =? 69)); [|injection H as <- <-; lia].
  destruct r as [|x r']; [number_lengths H|].
  destruct ((x =? 45) || (x =? 43)); number_lengths H.
Qed.

Section Decoder.

Context {W : World}.

Lemma match_number_shorter (s : str) (v : result pyval) (rest : str) :
  match_number s = Some (v, rest) ->
  (List.length rest < List.length s)%nat.
Proof.
  unfold match_number. intros H.
  destruct (match_integer s) as [[i s1]|] eqn:Ei; [|discriminate].
  destruct (match_frac s1) as [f s2] eqn:Ef.
  destruct (match_exp s2) as [e s3] eqn:Ee.
  apply match_integer_shorter in Ei.
  apply match_frac_length in Ef. apply match_exp_length in Ee.
  assert (rest = s3) as ->
    by (destruct f, e; injection H as _ <-; reflexivity).
  lia.
Qed.

End Decoder.

Lemma decoded_rest {A : Type} (a b : A) (r1 r2 : str) :
  Decoded a r1 = Decoded b r2 -> r2 = r1.
Proof. intros H. injection H as _ ->. reflexivity. Qed.

Section DecoderSteps.

Context {W : World}.

(** Length facts about the pieces of a decoding step. *)
Ltac length_facts :=
  repeat match goal with
         | H : Decoded _ _ = Decoded _ _ |- _ =>
             apply decoded_rest in H; rewrite H in *; clear H
         | E : skip_ws ?a = _ :: _ |- _ =>
             let F := fresh "F" in
             pose proof (skip_ws_length a) as F; rewrite E in F; clear E
         | E : scanstring _ = Some _ |- _ =>
             apply (scanstring_shorter _ _ _ _ (le_n _)) in E
         | E : match_number _ = Some _ |- _ => apply match_number_shorter in E
         | E : context [skip_ws ?a] |- _ =>
             lazymatch goal with
             | _ : (List.length (skip_ws a) <= List.length a)%nat |- _ => fail
             | _ => pose proof (skip_ws_length a)
             end
         end;
  rewrite ?length_skipn; cbn [List.length] in *.

(** A decoded value takes at least one character. *)
Lemma decode_consumes (fuel : nat) :
  (forall room s v rest,
      scan_once fuel room s = Decoded v rest ->
      (List.length rest < List.length s)%nat) /\
  (forall room s acc pairs rest,
      object_pairs fuel room s acc = Decoded pairs rest ->
      (List.length rest < List.length s)%nat) /\
  (forall room s acc values rest,
      array_values fuel room s acc = Decoded values rest ->
      (List.length rest < List.length s)%nat).
Proof.
  induction fuel as [|fuel (IHs & IHo & IHa)].
  - repeat split; intros; discriminate.
  - repeat split.
    + intros room [|c r] v rest H; [discriminate|].
      cbn [scan_once] in H. unfold scan_map in H.
      repeat (break_match_in H; try discriminate);
        repeat match goal with
               | E : object_pairs fuel _ _ _ = Decoded _ _ |- _ => apply IHo in E
               | E : array_values fuel _ _ _ = Decoded _ _ |- _ => apply IHa in E
               end;
        length_facts; lia.
    + intros room s acc pairs rest H. cbn [object_pairs] in H.
      repeat (break_match_in H; try discriminate);
        repeat match goal with
               | E : scan_once fuel _ _ = Decoded _ _ |- _ => apply IHs in E
               | E : object_pairs fuel _ _ _ = Decoded _ _ |- _ => apply IHo in E
               end;
        length_facts; lia.
    + intros room s acc values rest H. cbn [array_values] in H.
      repeat (break_match_in H; try discriminate);
        repeat match goal with
               | E : scan_once fuel _ _ = Decoded _ _ |- _ => apply IHs in E
               | E : array_values fuel _ _ _ = Decoded _ _ |- _ => apply IHa in E
               end;
        length_facts; lia.
Qed.

(** Twice the length of the text, and one more, is fuel enough. *)
Lemma decode_fuel (fuel : nat) :
  (forall room s,
      (2 * List.length s + 1 <= fuel)%nat -> scan_once fuel room s <> FuelOut) /\
  (forall room s acc,
      (2 * List.length s + 2 <= fuel)%nat ->
      object_pairs fuel room s acc <> FuelOut) /\
  (forall room s acc,
      (2 * List.length s + 2 <= fuel)%nat ->
      array_values fuel room s acc <> FuelOut).
Proof.
  induction fuel as [|fuel (IHs & IHo & IHa)].
  - repeat split; intros; lia.
  - destruct (decode_consumes fuel) as (Cs & Co & Ca).
    repeat split.
    + intros room [|c r] L H; [discriminate|].
      cbn [scan_once] in H. unfold scan_map in H.
      repeat (break_match_in H; try discriminate);
        match goal with
        | E : object_pairs fuel ?n ?x ?a = FuelOut |- _ =>
            apply (IHo n x a); [|exact E]
        | E : array_values fuel ?n ?x ?a = FuelOut |- _ =>
            apply (IHa n x a); [|exact E]
        end;
        length_facts; lia.
    + intros room s acc L H. cbn [object_pairs] in H.
      repeat (break_match_in H; try discriminate);
        repeat match goal with
               | E : scan_once fuel _ _ = Decoded _ _ |- _ => apply Cs in E
               end;
        match goal with
        | E : scan_once fuel ?n ?x = FuelOut |- _ => apply (IHs n x); [|exact E]
        | E : object_pairs fuel ?n ?x ?a = FuelOut |- _ =>
            apply (IHo n x a); [|exact E]
        end;
        length_facts; lia.
    + intros room s acc L H. cbn [array_values] in H.
      repeat (break_match_in H; try discriminate);
        repeat match goal with
               | E : scan_once fuel _ _ = Decoded _ _ |- _ => apply Cs in E
               end;
        match goal with
        | E : scan_once fuel ?n ?x = FuelOut |- _ => apply (IHs n x); [|exact E]
        | E : array_values fuel ?n ?x ?a = FuelOut |- _ =>
            apply (IHa n x a); [|exact E]
        end;
        length_facts; lia.
Qed.

Lemma match_number_error (s : str) (e : exn) (rest : str) :
  match_number s = Some (Raise e, rest) -> decoder_limit_error e.
Proof.
  unfold match_number. intros H.
  destruct (match_integer s) as [[i s1]|]; [|discriminate].
  destruct (match_frac s1) as [f s2]. destruct (match_exp s2) as [x s3].
  destruct f, x; try discriminate.
  unfold int_of_str in H.
  destruct (int_max_str_digits <? List.length (unsigned_digits i))%nat eqn:E;
    [|discriminate].
  injection H as <- _. right. eexists. split; [|reflexivity].
  apply Nat.ltb_lt. exact E.
Qed.

Lemma decode_errors (fuel : nat) :
  (forall room s e, scan_once fuel room s = Failed e -> decoder_limit_error e) /\
  (forall room s acc e,
      object_pairs fuel room s acc = Failed e -> decoder_limit_error e) /\
  (forall room s acc e,
      array_values fuel room s acc = Failed e -> decoder_limit_error e).
Proof.
  induction fuel as [|fuel (IHs & IHo & IHa)].
  - repeat split; intros; discriminate.
  - repeat split.
    + intros room [|c r] e H; [discriminate|].
      cbn [scan_once] in H. unfold scan_map in H.
      repeat (break_match_in H; try discriminate);
        try (injection H as <-);
        try (left; reflexivity);
        try match goal with
            | E : object_pairs fuel _ _ _ = Failed _ |- _ => exact (IHo _ _ _ _ E)
            | E : array_values fuel _ _ _ = Failed _ |- _ => exact (IHa _ _ _ _ E)
            | E : match_number _ = Some (Raise _, _) |- _ =>
                exact (match_number_error _ _ _ E)
            end.
    + intros room s acc e H. cbn [object_pairs] in H.
      repeat (break_match_in H; try discriminate);
        try (injection H as <-);
        match goal with
        | E : scan_once fuel _ _ = Failed _ |- _ => exact (IHs _ _ _ E)
        | E : object_pairs fuel _ _ _ = Failed _ |- _ => exact (IHo _ _ _ _ E)
        end.
    + intros room s acc e H. cbn [array_values] in H.
      repeat (break_match_in H; try discriminate);
        try (injection H as <-);
        match goal with
        | E : scan_once fuel _ _ = Failed _ |- _ => exact (IHs _ _ _ E)
        | E : array_values fuel _ _ _ = Failed _ |- _ => exact (IHa _ _ _ _ E)
        end.
Qed.

(** The decoder never stops for lack of fuel: [json_loads] returns a value,
    raises a decoding error, or raises the error of a limit. *)
Lemma json_loads_within_total (room : nat) (s : str) :
  (exists v, json_loads_within room s = Return v) \/
  json_loads_within room s = Raise JSONDecodeError \/
  exists e, json_loads_within room s = Raise e /\ decoder_limit_error e.
Proof.
  unfold json_loads_within.
  destruct (startswith [65279] s); [right; left; reflexivity|].
  destruct (scan_once (S (2 * List.length s)) room (skip_ws s))
    as [v rest| |e|] eqn:E.
  - destruct (skip_ws rest); [left; eauto | right; left; reflexivity].
  - right. left. reflexivity.
  - right. right. exists e. split; [reflexivity|].
    destruct (decode_errors (S (2 * List.length s))) as (Es & _ & _).
    exact (Es _ _ _ E).
  - exfalso. destruct (decode_fuel (S (2 * List.length s))) as (Fs & _ & _).
    apply (Fs room (skip_ws s)); [|exact E].
    pose proof (skip_ws_length s). lia.
Qed.

Lemma json_loads_total (s : str) :
  (exists v, json_loads s = Return v) \/
  json_loads s = Raise JSONDecodeError \/
  exists e, json_loads s = Raise e /\ decoder_limit_error e.
Proof. exact (json_loads_within_total loads_depth s). Qed.

(** The error of the recursion limit comes from nesting, never from the
    fuel: without room for one container a text that opens one is refused,
    and with room the fuel does not run out. *)
Lemma json_loads_within_no_room (r : str) :
  json_loads_within 0 (123 :: r) = Raise RecursionError.
Proof. reflexivity. Qed.

End DecoderSteps.

Lemma dict_set_nonempty (k : str) (v : pyval) (d : dict) : dict_set k v d <> [].
Proof.
  destruct d as [|[k' v'] d]; cbn [dict_set]; [discriminate|].
  destruct (str_eqb k k'); discriminate.
Qed.

Lemma dict_of_pairs_nonempty (pairs : list (str * pyval)) :
  pairs <> [] -> dict_of_pairs pairs <> [].
Proof.
  unfold dict_of_pairs.
  assert (G : forall (l : list (str * pyval)) (d : dict), d <> [] ->
              fold_left (fun d kv => dict_set (fst kv) (snd kv) d) l d <> []).
  { induction l as [|kv l IH]; intros d Hd; cbn [fold_left]; [exact Hd|].
    apply IH. apply dict_set_nonempty. }
  destruct pairs as [|kv l]; [congruence|].
  intros _. cbn [fold_left]. apply G. apply dict_set_nonempty.
Qed.

Section DecoderObjects.

Context {W : World}.

(** The loop over the members of an object yields at least one member. *)
Lemma object_pairs_nonempty (fuel : nat) :
  forall room s acc pairs rest,
    object_pairs fuel room s acc = Decoded pairs rest -> pairs <> [].
Proof.
  induction fuel as [|fuel IH]; intros room s acc pairs rest H; [discriminate|].
  cbn [object_pairs] in H.
  repeat (break_match_in H; try discriminate).
  - injection H as <- _. intros E. apply app_eq_nil in E as [_ E]. discriminate.
  - exact (IH _ _ _ _ _ H).
Qed.

(** At an opening brace the decoder yields a dictionary, and an empty one
    only when nothing but white space precedes the closing brace. *)
Lemma scan_once_object (fuel room : nat) (r : str) (v : pyval) (rest : str) :
  scan_once fuel room (123 :: r) = Decoded v rest ->
  exists d, v = PDict d /\ (d = [] -> exists r1, skip_ws r = 125 :: r1).
Proof.
  destruct fuel as [|fuel]; [discriminate|].
  cbn [scan_once]. change (123 =? 34) with false. change (123 =? 123) with true.
  cbn iota. intros H.
  destruct room as [|room]; [discriminate|].
  destruct (skip_ws r) as [|c r1] eqn:E; [discriminate|].
  destruct (c =? 125) eqn:Ec.
  - apply N.eqb_eq in Ec. subst c. injection H as <- _.
    exists []. split; [reflexivity|]. intros _. eauto.
  - destruct (c =? 34); [|discriminate].
    destruct (object_pairs fuel room r1 []) as [pairs rest'| | |] eqn:Ep;
      cbn [scan_map] in H; try discriminate.
    injection H as <- _. exists (dict_of_pairs pairs). split; [reflexivity|].
    intros Hd. exfalso.
    apply (dict_of_pairs_nonempty pairs); [|exact Hd].
    exact (object_pairs_nonempty _ _ _ _ _ _ Ep).
Qed.

Lemma json_loads_object (r : str) (v : pyval) :
  json_loads (123 :: r) = Return v ->
  exists d, v = PDict d /\ (d = [] -> exists r1, skip_ws r = 125 :: r1).
Proof.
  unfold json_loads, json_loads_within.
  change (startswith [65279] (123 :: r)) with false.
  change (skip_ws (123 :: r)) with (123 :: r). cbn iota.
  destruct (scan_once _ _ (123 :: r)) as [obj rest| | |] eqn:E; try discriminate.
  destruct (skip_ws rest); [|discriminate].
  intros H. injection H as <-. exact (scan_once_object _ _ _ _ _ E).
Qed.

(** A brace object that holds the quoted word [name] decodes, if at all, to
    a dictionary with at least one key. *)
Lemma json_loads_brace_object (m : str) (v : pyval) :
  braces_with_quoted_name m ->
  json_loads m = Return v ->
  exists d, v = PDict d /\ d <> [].
Proof.
  intros (a & b & -> & Ha & _) H.
  change ([123] ++ a ++ pyq "`name`" ++ b ++ [125])
    with (123 :: (a ++ 34 :: (py "name" ++ [34]) ++ b ++ [125])) in H.
  destruct (json_loads_object _ _ H) as (d & -> & Hd).
  exists d. split; [reflexivity|].
  intros E. destruct (Hd E) as [r1 Hr].
  apply Ha. exact (skip_ws_stops_at_quote _ _ _ Hr).
Qed.

End DecoderObjects.

(* ===================================================================== *)
(** ** Rendering values as text                                           *)
(* ===================================================================== *)

(** Induction on values, through the lists and dictionaries they hold. *)
Lemma pyval_nested_ind (P : pyval -> Prop) :
  P PNone ->
  (forall b, P (PBool b)) ->
  (forall n, P (PInt n)) ->
  (forall f, P (PFloat f)) ->
  (forall s, P (PStr s)) ->
  (forall l, Forall P l -> P (PList l)) ->
  (forall d, Forall (fun kv => P (snd kv)) d -> P (PDict d)) ->
  forall v, P v.
Proof.
  intros HN HB HI HF HS HL HD.
  fix IH 1. intros [|b|n|f|s|l|d].
  - exact HN.
  - apply HB.
  - apply HI.
  - apply HF.
  - apply HS.
  - apply HL. induction l as [|x l IHl]; constructor; [apply IH | exact IHl].
  - apply HD. induction d as [|[k x] d IHd]; constructor; [apply IH | exact IHd].
Qed.

Lemma collect_raise {A : Type} (steps : list (result A)) (e : exn) :
  collect steps = Raise e -> In (Raise e) steps.
Proof.
  induction steps as [|[a|e'] steps IH]; cbn [collect]; [discriminate| |].
  - destruct (collect steps); [discriminate|].
    intros H. right. apply IH. exact H.
  - intros H. left. injection H as ->. reflexivity.
Qed.

Lemma collect_return {A : Type} (steps : list (result A)) (l : list A) :
  collect steps = Return l <-> steps = map Return l.
Proof.
  revert l. induction steps as [|[a|e] steps IH]; intros l; cbn [collect].
  - split; intros H.
    + injection H as <-. reflexivity.
    + destruct l; [reflexivity | discriminate].
  - destruct (collect steps) as [l'|e'] eqn:E; split; intros H.
    + injection H as <-. cbn [map]. f_equal. apply IH. reflexivity.
    + destruct l as [|b l]; [discriminate|]. cbn [map] in H.
      injection H as -> H. apply IH in H. injection H as <-. reflexivity.
    + discriminate.
    + destruct l as [|b l]; [discriminate|]. cbn [map] in H.
      injection H as _ H. apply IH in H. discriminate.
  - split; [discriminate|]. destruct l; discriminate.
Qed.

Lemma collect_cases {A : Type} (steps : list (result A)) :
  (exists l, collect steps = Return l) \/
  (exists e, collect steps = Raise e /\ In (Raise e) steps).
Proof.
  destruct (collect steps) as [l|e] eqn:E; [left; eauto|].
  right. exists e. split; [reflexivity | exact (collect_raise _ _ E)].
Qed.

Lemma int_to_str_cases (n : Z) :
  (int_to_str n = Return (int_str n) /\
   (int_digit_count n <= int_max_str_digits)%nat) \/
  (int_to_str n = Raise digit_limit_to_str /\
   (int_max_str_digits < int_digit_count n)%nat).
Proof.
  unfold int_to_str.
  destruct (int_max_str_digits <? int_digit_count n)%nat eqn:E.
  - right. split; [reflexivity|]. apply Nat.ltb_lt. exact E.
  - left. split; [reflexivity|]. apply Nat.ltb_ge. exact E.
Qed.

Section TextForms.

Context {W : World}.

(** Rendering fails only at a limit of the interpreter. *)
Lemma py_repr_within_error (room : nat) :
  forall v e, py_repr_within room v = Raise e -> limit_error e.
Proof.
  induction room as [|room IH]; intros v e H; cbn [py_repr_within] in H.
  - injection H as <-. left. reflexivity.
  - destruct v as [|[|]|n|f|s|l|d]; try discriminate.
    + destruct (int_to_str_cases n) as [(E & _)|(E & _)]; rewrite E in H;
        [discriminate|]. injection H as <-. right. reflexivity.
    + destruct (collect (map (py_repr_within room) l)) eqn:E; [discriminate|].
      injection H as ->. apply collect_raise in E.
      apply in_map_iff in E as (x & E & _). exact (IH _ _ E).
    + match type of H with
      | match collect ?c with _ => _ end = _ => destruct (collect c) eqn:E
      end; [discriminate|].
      injection H as ->. apply collect_raise in E.
      apply in_map_iff in E as ([k x] & E & _). cbn [fst snd] in E.
      destruct (py_repr_within room (PStr k)) eqn:Ek.
      * destruct (py_repr_within room x) eqn:Ex; [discriminate|].
        injection E as ->. exact (IH _ _ Ex).
      * injection E as ->. exact (IH _ _ Ek).
Qed.

Lemma py_format_error (v : pyval) (e : exn) :
  py_format v = Raise e -> limit_error e.
Proof.
  destruct v; cbn [py_format]; try discriminate;
    apply py_repr_within_error.
Qed.

Lemma json_dumps_within_error (v : pyval) :
  forall room e, json_dumps_within room v = Raise e -> limit_error e.
Proof.
  induction v as [|b|n|f|s|l IH|d IH] using pyval_nested_ind;
    intros room e H; cbn [json_dumps_within] in H.
  - discriminate.
  - destruct b; discriminate.
  - destruct (int_to_str_cases n) as [(E & _)|(E & _)]; rewrite E in H;
      [discriminate|]. injection H as <-. right. reflexivity.
  - discriminate.
  - discriminate.
  - destruct room as [|room]; [injection H as <-; left; reflexivity|].
    destruct (collect (map (json_dumps_within room) l)) eqn:E; [discriminate|].
    injection H as ->. apply collect_raise in E.
    apply in_map_iff in E as (x & E & Hx).
    rewrite Forall_forall in IH. exact (IH x Hx _ _ E).
  - destruct room as [|room]; [injection H as <-; left; reflexivity|].
    match type of H with
    | match collect ?c with _ => _ end = _ => destruct (collect c) eqn:E
    end; [discriminate|].
    injection H as ->. apply collect_raise in E.
    apply in_map_iff in E as ([k x] & E & Hx).
    rewrite Forall_forall in IH. specialize (IH _ Hx). cbn [snd] in IH.
    destruct (json_dumps_within room x) eqn:Ex; [discriminate|].
    injection E as ->. exact (IH _ _ Ex).
Qed.

Lemma json_dumps_error (v : pyval) (e : exn) :
  json_dumps v = Raise e -> limit_error e.
Proof. apply json_dumps_within_error. Qed.

(** What [json.dumps] returns is the JSON text of the value. *)
Lemma json_dumps_within_text (v : pyval) :
  forall room text, json_dumps_within room v = Return text -> text = json_text v.
Proof.
  induction v as [|b|n|f|s|l IH|d IH] using pyval_nested_ind;
    intros room text H; cbn [json_dumps_within] in H.
  - injection H as <-. reflexivity.
  - destruct b; injection H as <-; reflexivity.
  - destruct (int_to_str_cases n) as [(E & _)|(E & _)]; rewrite E in H;
      [|discriminate]. injection H as <-. reflexivity.
  - injection H as <-. reflexivity.
  - injection H as <-. reflexivity.
  - destruct room as [|room]; [discriminate|].
    destruct (collect (map (json_dumps_within room) l)) as [parts|] eqn:E;
      [|discriminate].
    injection H as H. subst text. apply collect_return in E.
    assert (Ep : parts = map json_text l).
    { revert parts E. induction IH as [|x l Hx _ IHl]; intros parts E.
      - destruct parts; [reflexivity | discriminate].
      - destruct parts as [|p parts]; [discriminate|]. cbn [map] in E |- *.
        injection E as Ex E. rewrite (Hx _ _ Ex), (IHl _ E). reflexivity. }
    rewrite Ep. reflexivity.
  - destruct room as [|room]; [discriminate|].
    match type of H with
    | match collect ?c with _ => _ end = _ =>
        destruct (collect c) as [parts|] eqn:E
    end; [|discriminate].
    injection H as H. subst text. apply collect_return in E.
    assert (Ep : parts
                 = map (fun kv => let '(k, x) := kv in
                                  json_quote k ++ py ": " ++ json_text x) d).
    { revert parts E. induction IH as [|[k x] d Hx _ IHd]; intros parts E.
      - destruct parts; [reflexivity | discriminate].
      - destruct parts as [|p parts]; [discriminate|]. cbn [map] in E |- *.
        injection E as Ex E. cbn [snd] in Hx.
        destruct (json_dumps_within room x) as [t|] eqn:Et; [|discriminate].
        injection Ex as <-. rewrite (Hx _ _ Et), (IHd _ E). reflexivity. }
    rewrite Ep. reflexivity.
Qed.

Lemma json_dumps_text (v : pyval) (text : str) :
  json_dumps v = Return text -> text = json_text v.
Proof. apply json_dumps_within_text. Qed.

End TextForms.
(* ===================================================================== *)
(** ** The decimal text of integers                                       *)
(* ===================================================================== *)

Lemma uint_chars_digits (u : Decimal.uint) :
  Forall (fun c => is_digit c = true) (uint_chars u).
Proof. induction u; constructor; (reflexivity || assumption). Qed.

Lemma uint_chars_cons (u : Decimal.uint) :
  match u with
  | Decimal.Nil => uint_chars u = []
  | Decimal.D0 v => uint_chars u = 48 :: uint_chars v
  | Decimal.D1 v => uint_chars u = 49 :: uint_chars v
  | Decimal.D2 v => uint_chars u = 50 :: uint_chars v
  | Decimal.D3 v => uint_chars u = 51 :: uint_chars v
  | Decimal.D4 v => uint_chars u = 52 :: uint_chars v
  | Decimal.D5 v => uint_chars u = 53 :: uint_chars v
  | Decimal.D6 v => uint_chars u = 54 :: uint_chars v
  | Decimal.D7 v => uint_chars u = 55 :: uint_chars v
  | Decimal.D8 v => uint_chars u = 56 :: uint_chars v
  | Decimal.D9 v => uint_chars u = 57 :: uint_chars v
  end.
Proof. destruct u; reflexivity. Qed.

Ltac uint_head :=
  match goal with
  | |- context [uint_chars ?t] =>
      lazymatch t with
      | Decimal.Nil => change (uint_chars t) with (@nil char)
      | _ ?v =>
          let E := fresh "E" in
          pose proof (uint_chars_cons t) as E; cbv beta iota in E;
          rewrite E; clear E
      end
  end.

Lemma digits_fold_pos (u : Decimal.uint) :
  forall a : positive,
    fold_left digit_step (uint_chars u) (Zpos a) = Zpos (Pos.of_uint_acc u a).
Proof.
  induction u; intros a; uint_head;
    cbn [fold_left Pos.of_uint_acc]; [reflexivity|..];
    rewrite <- IHu; f_equal; unfold digit_step; lia.
Qed.

Lemma digits_fold_zero (u : Decimal.uint) :
  fold_left digit_step (uint_chars u) 0%Z = Z.of_N (Pos.of_uint u).
Proof.
  induction u; uint_head;
    cbn [fold_left Pos.of_uint]; try reflexivity; try exact IHu;
    unfold digit_step at 2;
    match goal with
    | |- fold_left _ _ ?z = _ =>
        let z' := eval vm_compute in z in change z with z'
    end;
    rewrite digits_fold_pos; reflexivity.
Qed.

Lemma digits_value_uint (u : Decimal.uint) :
  digits_value (uint_chars u) = Z.of_N (Pos.of_uint u).
Proof. exact (digits_fold_zero u). Qed.

(** The decimal digits of a positive number: at least one, the first not a
    zero. *)
Lemma to_uint_head (p : positive) :
  exists c r,
    uint_chars (Pos.to_uint p) = c :: r /\
    is_digit c = true /\ (c =? 48) = false /\
    Forall (fun x => is_digit x = true) r.
Proof.
  pose proof (DecimalPos.Unsigned.to_uint_nonzero p) as Hz.
  pose proof (DecimalPos.Unsigned.to_uint_nonnil p) as Hn.
  assert (Hu : Decimal.unorm (Pos.to_uint p) = Pos.to_uint p).
  { rewrite <- (DecimalPos.Unsigned.to_of (Pos.to_uint p)).
    rewrite DecimalPos.Unsigned.of_to. reflexivity. }
  pose proof (uint_chars_digits (Pos.to_uint p)) as Hd.
  destruct (Pos.to_uint p) as [|u|u|u|u|u|u|u|u|u|u] eqn:E;
    try congruence;
    try (match type of Hd with
         | Forall _ (uint_chars ?t) =>
             pose proof (uint_chars_cons t) as Ec; cbv beta iota in Ec;
             rewrite Ec in Hd |- *
         end;
         inversion Hd; subst; eexists; eexists;
         split; [reflexivity|]; split; [reflexivity|];
         split; [reflexivity|assumption]).
  exfalso. rewrite DecimalFacts.unorm_D0 in Hu. unfold Decimal.unorm in Hu.
  destruct (Decimal.nzhead u) eqn:En; try congruence.
  exact (DecimalFacts.nzhead_nonzero _ _ En).
Qed.

Lemma int_str_cases (n : Z) :
  (n = 0%Z /\ int_str n = [48]) \/
  (exists p, n = Zpos p /\ int_str n = uint_chars (Pos.to_uint p)) \/
  (exists p, n = Zneg p /\ int_str n = 45 :: uint_chars (Pos.to_uint p)).
Proof.
  destruct n as [|p|p].
  - left. split; reflexivity.
  - right. left. exists p. split; [reflexivity|].
    unfold int_str, uint_chars. cbn [Z.to_int NilZero.string_of_int].
    unfold NilZero.string_of_uint.
    pose proof (DecimalPos.Unsigned.to_uint_nonnil p).
    destruct (Pos.to_uint p); [congruence|..]; reflexivity.
  - right. right. exists p. split; [reflexivity|].
    unfold int_str, uint_chars. cbn [Z.to_int NilZero.string_of_int].
    unfold NilZero.string_of_uint.
    pose proof (DecimalPos.Unsigned.to_uint_nonnil p).
    destruct (Pos.to_uint p); [congruence|..]; reflexivity.
Qed.

(** The value of a run of digits is below the power of ten of its
    length. *)
Lemma digits_fold_bound (d : str) :
  Forall (fun c => is_digit c = true) d ->
  forall a : Z,
    (0 <= a)%Z ->
    (fold_left digit_step d a < (a + 1) * 10 ^ Z.of_nat (List.length d))%Z.
Proof.
  induction 1 as [|c d Hc _ IH]; intros a Ha; cbn [fold_left List.length].
  - change (10 ^ Z.of_nat 0)%Z with 1%Z. lia.
  - unfold is_digit in Hc. apply andb_prop in Hc as (H1 & H2).
    apply N.leb_le in H1, H2.
    assert (Hs : (0 <= digit_step a c <= a * 10 + 9)%Z)
      by (unfold digit_step; lia).
    specialize (IH (digit_step a c) (proj1 Hs)).
    rewrite Nat2Z.inj_succ, Z.pow_succ_r by lia.
    assert (Hp : (0 < 10 ^ Z.of_nat (List.length d))%Z)
      by (apply Z.pow_pos_nonneg; lia).
    nia.
Qed.

(** An integer at or above a power of ten has more digits than the
    exponent. *)
Lemma int_digit_count_above (n : Z) (k : nat) :
  (10 ^ Z.of_nat k <= Z.abs n)%Z -> (k < int_digit_count n)%nat.
Proof.
  intros H. unfold int_digit_count.
  assert (Hp : (0 < 10 ^ Z.of_nat k)%Z) by (apply Z.pow_pos_nonneg; lia).
  destruct (int_str_cases (Z.abs n)) as [(E & _) | [(p & E & Es) | (p & E & _)]];
    [lia | | lia].
  rewrite Es.
  pose proof (digits_fold_bound _ (uint_chars_digits (Pos.to_uint p)) 0%Z
                (Z.le_refl 0)) as Hb.
  rewrite digits_fold_zero, DecimalPos.Unsigned.of_to in Hb.
  change (Z.of_N (N.pos p)) with (Z.pos p) in Hb. rewrite <- E in Hb.
  destruct (Nat.le_gt_cases (List.length (uint_chars (Pos.to_uint p))) k)
    as [L|L]; [|exact L].
  exfalso.
  assert (Hm : (10 ^ Z.of_nat (List.length (uint_chars (Pos.to_uint p)))
                <= 10 ^ Z.of_nat k)%Z)
    by (apply Z.pow_le_mono_r; lia).
  lia.
Qed.

(** Beyond the digit limit an integer has no text. *)
Lemma int_to_str_above (n : Z) :
  (10 ^ Z.of_nat int_max_str_digits <= Z.abs n)%Z ->
  int_to_str n = Raise digit_limit_to_str.
Proof.
  intros H. apply int_digit_count_above in H.
  destruct (int_to_str_cases n) as [(_ & L)|(E & _)]; [lia | exact E].
Qed.
Section Properties.

Context {W : World}.

(* ===================================================================== *)
(** ** Function-call extraction                                           *)
(* ===================================================================== *)

(** The extractor returns [None] or a dictionary with at least one key. *)
Lemma extract_function_call_cases (text : str) :
  extract_function_call text = PNone \/
  exists d, d <> [] /\ extract_function_call text = PDict d.
Proof.
  unfold extract_function_call.
  destruct (re_search function_call_pattern text) as [m|] eqn:E; [|left; reflexivity].
  destruct (json_loads m) as [v|e] eqn:Ev; [|left; reflexivity].
  destruct (re_search_some _ _ _ E) as (pre & post & _ & Hm & _).
  apply function_call_pattern_denotes in Hm.
  destruct (json_loads_brace_object _ _ Hm Ev) as (d & -> & Hd).
  right. eauto.
Qed.


(** The match stops at the first closing brace: a call whose arguments are
    a nested object is cut short, fails to decode and is not extracted. *)
Example extract_nested_arguments :
  extract_function_call
    (pyq "call {`name`: `f`, `arguments`: {`x`: 1}} now") = PNone.
Proof.
  unfold extract_function_call, json_loads.
  destruct loads_depth as [|[|room]]; vm_compute; reflexivity.
Qed.

(** An object without the quoted word is skipped. *)
Example extract_skips_other_objects :
  (1 <= loads_depth)%nat ->
  extract_function_call (pyq "{`a`: 1} then {`name`: `f`}")
  = PDict [(py "name", PStr (py "f"))].
Proof.
  intros H. unfold extract_function_call, json_loads.
  destruct loads_depth as [|room]; [lia|]. vm_compute. reflexivity.
Qed.

(** Only the first match is decoded. *)
Example extract_first_match_only :
  extract_function_call (pyq "{ `name` } then {`name`: `f`}") = PNone.
Proof.
  unfold extract_function_call, json_loads.
  destruct loads_depth as [|room]; vm_compute; reflexivity.
Qed.

(** Without room for one object the decoder raises and nothing is
    extracted. *)
Example extract_without_room :
  loads_depth = O ->
  extract_function_call (pyq "{`name`: `f`}") = PNone.
Proof.
  intros H. unfold extract_function_call, json_loads. rewrite H.
  vm_compute. reflexivity.
Qed.

(* ===================================================================== *)
(** ** Response normalisation                                             *)
(* ===================================================================== *)

(** C2. The flat reply with text [hello] and [created_at] 5 is normalised to
    a response with exactly one choice, whose content is [hello] with no
    function call, whose finish reason is [stop]; [created] is 5 and the
    three usage counts are zero. *)
Theorem normalize_hello (config : dict) :
  parse_function_call_response
    (PDict [(py "response", PStr (py "hello")); (py "created_at", PInt 5)]) config
  = Return (PDict
      [(py "id", PStr (py "call_" ++ int_str (str_hash (py "hello"))));
       (py "object", PStr (py "chat.completion"));
       (py "created", PInt 5);
       (py "model", dict_get_default (py "model_name") (PStr (py "unknown")) config);
       (py "choices",
        PList [PDict
          [(py "index", PInt 0);
           (py "message", PDict
              [(py "role", PStr (py "assistant"));
               (py "content", PStr (py "hello"));
               (py "function_call", PNone)]);
           (py "finish_reason", PStr (py "stop"))]]);
       (py "usage", PDict
          [(py "prompt_tokens", PInt 0);
           (py "completion_tokens", PInt 0);
           (py "total_tokens", PInt 0)])]).
Proof. reflexivity. Qed.

(** C3. For a raw response with no ["choices"] key whose ["response"] field
    is a text, the normalised response holds exactly one choice, and its
    finish reason is [function_call] exactly when the extractor found a call
    in the text, [stop] exactly when it found none. *)
Theorem flat_response_finish_reason (raw config : dict) (text : str) :
  dict_mem (py "choices") raw = false ->
  dict_get (py "response") raw = Some (PStr text) ->
  exists canonical choice : dict,
    parse_function_call_response (PDict raw) config = Return (PDict canonical) /\
    dict_get (py "choices") canonical = Some (PList [PDict choice]) /\
    (dict_get (py "finish_reason") choice = Some (PStr (py "function_call"))
     <-> extract_function_call text <> PNone) /\
    (dict_get (py "finish_reason") choice = Some (PStr (py "stop"))
     <-> extract_function_call text = PNone).
Proof.
  intros Hc Hr. unfold parse_function_call_response.
  cbn [py_in]. rewrite Hc.
  unfold dict_mem, dict_get_default. rewrite Hr.
  eexists. eexists. split; [reflexivity|]. split; [reflexivity|].
  change (dict_get (py "finish_reason") _) with
    (Some (PStr (if truthy (extract_function_call text)
                 then py "function_call" else py "stop"))).
  destruct (extract_function_call_cases text) as [E|(d & Hd & E)]; rewrite E.
  - cbn [truthy]. split; split; intros H;
      try discriminate; try reflexivity; congruence.
  - destruct d as [|kv d]; [congruence|].
    cbn [truthy]. split; split; intros H;
      try discriminate; try reflexivity.
Qed.

(** C4, as the code has it. A raw response that holds a ["choices"] key is
    returned unchanged, and so is one that holds neither a ["choices"] nor
    a ["response"] key. A raw response without ["choices"] whose
    ["response"] entry is not a text is not passed through: normalising it
    raises [TypeError]. *)
Theorem normalize_pass_through (raw config : dict) :
  (dict_mem (py "choices") raw = true ->
   parse_function_call_response (PDict raw) config = Return (PDict raw)) /\
  (dict_mem (py "choices") raw = false ->
   dict_mem (py "response") raw = false ->
   parse_function_call_response (PDict raw) config = Return (PDict raw)) /\
  (dict_mem (py "choices") raw = false ->
   forall v, dict_get (py "response") raw = Some v ->
             (forall text, v <> PStr text) ->
             parse_function_call_response (PDict raw) config = Raise TypeError).
Proof.
  unfold parse_function_call_response. cbn [py_in]. repeat split.
  - intros H. rewrite H. reflexivity.
  - intros H1 H2. rewrite H1, H2. reflexivity.
  - intros H v Hv Hn. rewrite H. unfold dict_mem, dict_get_default.
    rewrite Hv. destruct v; try reflexivity.
    exfalso. exact (Hn _ eq_refl).
Qed.

(* ===================================================================== *)
(** ** Dispatch and adapters                                              *)
(* ===================================================================== *)

(** C5. When the backend named by the configuration is none of ["ollama"],
    ["vllm"] and ["openai"], [call_model] raises the unsupported-backend
    error and sends no request. *)
Theorem call_model_unsupported_backend
    (prompt : str) (tools : pyval) (config : dict)
    (temperature max_tokens backend : pyval) :
  dict_get_default (py "backend") (PStr (py "ollama")) config = backend ->
  backend <> PStr (py "ollama") ->
  backend <> PStr (py "vllm") ->
  backend <> PStr (py "openai") ->
  call_model prompt tools (Some config) temperature max_tokens
  = (Raise (ValueError (py "Unsupported backend: " ++ py_str backend)), []).
Proof.
  intros Hb H1 H2 H3. unfold call_model. rewrite Hb.
  rewrite (py_eq_str_false _ _ H1), (py_eq_str_false _ _ H2),
    (py_eq_str_false _ _ H3).
  reflexivity.
Qed.

(** Without a configuration the backend is read from the environment, and
    an unsupported name there is refused in the same way. *)
Lemma call_model_default_config_unsupported
    (prompt : str) (tools temperature max_tokens : pyval) (backend : str) :
  getenv_default (py "MODEL_BACKEND") (py "ollama") = backend ->
  backend <> py "ollama" ->
  backend <> py "vllm" ->
  backend <> py "openai" ->
  call_model prompt tools None temperature max_tokens
  = (Raise (ValueError (py "Unsupported backend: " ++ backend)), []).
Proof.
  intros Hb H1 H2 H3. unfold call_model, get_default_config.
  change (dict_get_default (py "backend") (PStr (py "ollama")) _)
    with (PStr (getenv_default (py "MODEL_BACKEND") (py "ollama"))).
  rewrite Hb. cbn [py_eq_str py_str].
  apply str_eqb_neq in H1, H2, H3. rewrite H1, H2, H3. reflexivity.
Qed.

(** Posting sends exactly the request it is given. *)
Lemma post_json_sent (req : http_request) :
  exists res, post_json req = (res, [req]).
Proof.
  unfold post_json. destruct (httpx_post req) as [resp|]; [|eauto].
  destruct (status_is_error resp); [eauto|].
  destruct (body_json resp); eauto.
Qed.

Lemma chat_payload_built (prompt : str) (tools model temperature max_tokens : pyval) :
  chat_payload
    (if truthy tools
     then dict_set (py "tools")
            (match tools with PList _ => tools | _ => PList [tools] end)
            [(py "model", model);
             (py "messages", PList [PDict [(py "role", PStr (py "user"));
                                           (py "content", PStr prompt)]]);
             (py "temperature", temperature);
             (py "max_tokens", max_tokens)]
     else [(py "model", model);
           (py "messages", PList [PDict [(py "role", PStr (py "user"));
                                         (py "content", PStr prompt)]]);
           (py "temperature", temperature);
           (py "max_tokens", max_tokens)])
    prompt tools model temperature max_tokens.
Proof.
  unfold chat_payload. destruct (truthy tools) eqn:T.
  - repeat split; try reflexivity.
    + discriminate.
    + intros _ [l ->]. reflexivity.
    + intros _ Hn. destruct tools; try reflexivity.
      exfalso. exact (Hn _ eq_refl).
  - repeat split; try reflexivity; discriminate.
Qed.

(** C9. Both chat-completion adapters send exactly one request, whose
    payload holds a single user message with the prompt, the configured
    model, the temperature and the token limit; when tools are supplied the
    payload carries them as a list, a lone tool becoming a list of one. *)
Theorem chat_adapters_payload
    (prompt : str) (tools : pyval) (config : dict) (temperature max_tokens : pyval) :
  (exists res req,
      call_vllm prompt tools config temperature max_tokens = (res, [req]) /\
      chat_payload (req_json req) prompt tools
        (dict_get_default (py "model_name") (PStr (py "default")) config)
        temperature max_tokens)
  /\
  (exists res req,
      call_openai_compatible prompt tools config temperature max_tokens
      = (res, [req]) /\
      chat_payload (req_json req) prompt tools
        (dict_get_default (py "model_name") (PStr (py "gpt-3.5-turbo")) config)
        temperature max_tokens).
Proof.
  split.
  - unfold call_vllm.
    match goal with
    | |- context [post_json ?r] =>
        destruct (post_json_sent r) as [res E]; exists res, r
    end.
    split; [exact E|]. apply chat_payload_built.
  - unfold call_openai_compatible.
    match goal with
    | |- context [post_json ?r] =>
        destruct (post_json_sent r) as [res E]; exists res, r
    end.
    split; [exact E|]. apply chat_payload_built.
Qed.

(* ===================================================================== *)
(** ** Tool markup                                                        *)
(* ===================================================================== *)

(** One turn of the loop on a tool schema: it appends the element of the
    tool, or raises the error of the limit that leaves the tool without an
    element. *)
Lemma append_tool_element (tool : pyval) :
  is_tool_schema tool ->
  (exists el,
      tool_element tool el /\
      forall xml_parts,
      exists parts,
        append_tool xml_parts tool = Return parts /\
        List.concat parts = List.concat xml_parts ++ el)
  \/ (exists e,
         limit_error e /\ (forall el, ~ tool_element tool el) /\
         forall xml_parts, append_tool xml_parts tool = Raise e).
Proof.
  intros (t & func & -> & Hf).
  unfold append_tool, tool_element, tool_parameters, tool_description,
    tool_name, tool_function.
  rewrite Hf.
  destruct (py_format (dict_get_default (py "name") (PStr []) func))
    as [name|e] eqn:En.
  2:{ right. exists e. split; [exact (py_format_error _ _ En)|].
      split; [|reflexivity].
      intros el (name & d & H & _). discriminate H. }
  destruct (py_format (dict_get_default (py "description") (PStr []) func))
    as [description|e] eqn:Ed.
  2:{ right. exists e. split; [exact (py_format_error _ _ Ed)|].
      split; [|reflexivity].
      intros el (n & d & _ & H & _). discriminate H. }
  destruct (truthy (dict_get_default (py "parameters") (PDict []) func)) eqn:Et.
  - destruct (json_dumps (dict_get_default (py "parameters") (PDict []) func))
      as [parameters|e] eqn:Ep.
    + left. eexists. split.
      * exists name, description. split; [reflexivity|]. split; [reflexivity|].
        right. split; [reflexivity|]. exists parameters.
        split; [reflexivity | reflexivity].
      * intros xml_parts. eexists. split; [reflexivity|].
        rewrite !concat_app. cbn [List.concat].
        rewrite ?app_nil_r, <- ?app_assoc. reflexivity.
    + right. exists e. split; [exact (json_dumps_error _ _ Ep)|].
      split; [|reflexivity].
      intros el (n & d & _ & _ & [(H & _)|(_ & p & H & _)]); discriminate H.
  - left. eexists. split.
    + exists name, description. split; [reflexivity|]. split; [reflexivity|].
      left. split; reflexivity.
    + intros xml_parts. eexists. split; [reflexivity|].
      rewrite !concat_app. cbn [List.concat].
      rewrite ?app_nil_r, <- ?app_assoc. reflexivity.
Qed.

(** A tool has at most one element. *)
Lemma tool_element_unique (tool : pyval) (el el' : str) :
  tool_element tool el -> tool_element tool el' -> el = el'.
Proof.
  intros (n & d & Hn & Hd & Hp) (n' & d' & Hn' & Hd' & Hp').
  rewrite Hn in Hn'. injection Hn' as <-.
  rewrite Hd in Hd'. injection Hd' as <-.
  destruct Hp as [(T & ->)|(T & p & Hp & ->)],
           Hp' as [(T' & ->)|(T' & p' & Hp' & ->)];
    congruence.
Qed.

(** The loop appends the element of each tool, in order. *)
Lemma append_tools_elements (tools : list pyval) (els : list str) :
  Forall2 tool_element tools els ->
  Forall is_tool_schema tools ->
  forall xml_parts,
  exists parts,
    append_tools tools xml_parts = Return parts /\
    List.concat parts = List.concat xml_parts ++ List.concat els.
Proof.
  induction 1 as [|tool el tools els Hel _ IH]; intros Hs xml_parts;
    cbn [append_tools].
  - exists xml_parts. split; [reflexivity|]. cbn [List.concat].
    rewrite app_nil_r. reflexivity.
  - inversion Hs as [|? ? Ht Hs']; subst.
    destruct (append_tool_element tool Ht)
      as [(el' & Hel' & Happ)|(e & _ & Hno & _)]; [|destruct (Hno el Hel)].
    destruct (Happ xml_parts) as (parts & Ea & Ep). rewrite Ea.
    rewrite (tool_element_unique tool el' el Hel' Hel) in Ep.
    destruct (IH Hs' parts) as (parts' & -> & Ep').
    exists parts'. split; [reflexivity|].
    rewrite Ep', Ep. cbn [List.concat]. rewrite <- app_assoc. reflexivity.
Qed.

(** The loop stops at the first tool that has no element. *)
Lemma append_tools_limit (tools : list pyval) :
  Forall is_tool_schema tools ->
  (forall els, ~ Forall2 tool_element tools els) ->
  forall xml_parts,
  exists e, append_tools tools xml_parts = Raise e /\ limit_error e.
Proof.
  induction 1 as [|tool tools Ht Hs IH]; intros Hno xml_parts.
  - destruct (Hno []). constructor.
  - cbn [append_tools].
    destruct (append_tool_element tool Ht)
      as [(el & Hel & Happ)|(e & He & _ & Hr)].
    + destruct (Happ xml_parts) as (parts & -> & _).
      apply IH. intros els Hels. apply (Hno (el :: els)).
      constructor; assumption.
    + rewrite Hr. exists e. split; [reflexivity | exact He].
Qed.


(* ===================================================================== *)
(** ** Tool formatting                                                    *)
(* ===================================================================== *)

(** C6. For every list of tool schemas, formatting with the structured-json
    kind ["json"] returns the input list unchanged. *)
Theorem format_tools_json_identity (tools : list pyval) :
  format_tools_for_model tools (py "json") = Return (PList tools).
Proof. reflexivity. Qed.

(** C10. For every list of tool schemas and every format kind other than
    ["xml"] and ["function_calling"], known or not, [format_tools_for_model]
    returns the input list unchanged and raises nothing. *)
Theorem format_tools_other_kind_identity (tools : list pyval) (format_type : str) :
  format_type <> py "xml" ->
  format_type <> py "function_calling" ->
  format_tools_for_model tools format_type = Return (PList tools).
Proof.
  intros Hxml Hfc. unfold format_tools_for_model.
  apply str_eqb_neq in Hxml. apply str_eqb_neq in Hfc.
  rewrite Hxml, Hfc. reflexivity.
Qed.

(** C8, as the code has it. For every input markup string the reverse
    conversion returns the empty list; it raises no error. *)
Theorem xml_tools_to_json_empty (xml_string : str) :
  xml_tools_to_json xml_string = Return [].
Proof. reflexivity. Qed.

End Properties.

(* ===================================================================== *)
(** ** The properties at concrete inputs                                  *)
(* ===================================================================== *)

(** C3 on a reply whose text holds a call, in a world where nothing is set. *)
Lemma flat_response_finish_reason_witness :
  dict_mem (py "choices")
    [(py "response", PStr (pyq "{`name`: `lookup`}"))] = false /\
  dict_get (py "response")
    [(py "response", PStr (pyq "{`name`: `lookup`}"))]
  = Some (PStr (pyq "{`name`: `lookup`}")) /\
  exists canonical choice : dict,
    @parse_function_call_response quiet_world
      (PDict [(py "response", PStr (pyq "{`name`: `lookup`}"))]) []
    = Return (PDict canonical) /\
    dict_get (py "choices") canonical = Some (PList [PDict choice]) /\
    (dict_get (py "finish_reason") choice = Some (PStr (py "function_call"))
     <-> @extract_function_call quiet_world (pyq "{`name`: `lookup`}") <> PNone) /\
    (dict_get (py "finish_reason") choice = Some (PStr (py "stop"))
     <-> @extract_function_call quiet_world (pyq "{`name`: `lookup`}") = PNone).
Proof.
  split; [reflexivity|]. split; [reflexivity|].
  apply (@flat_response_finish_reason quiet_world); reflexivity.
Defined.

(** C5 on the backend [unknown-xyz]. *)
Lemma call_model_unsupported_backend_witness :
  dict_get_default (py "backend") (PStr (py "ollama"))
    [(py "backend", PStr (py "unknown-xyz"))] = PStr (py "unknown-xyz") /\
  @call_model quiet_world (py "hello") PNone
    (Some [(py "backend", PStr (py "unknown-xyz"))]) (PInt 1) (PInt 1000)
  = (Raise (ValueError (py "Unsupported backend: unknown-xyz")), []).
Proof.
  split; [reflexivity|].
  apply (@call_model_unsupported_backend quiet_world
           (py "hello") PNone [(py "backend", PStr (py "unknown-xyz"))]
           (PInt 1) (PInt 1000) (PStr (py "unknown-xyz")));
    [reflexivity | discriminate | discriminate | discriminate].
Defined.


(** C10 at the unknown kind ["yaml"], with one tool. *)
Lemma format_tools_other_kind_identity_witness :
  py "yaml" <> py "xml" /\
  py "yaml" <> py "function_calling" /\
  @format_tools_for_model quiet_world [PDict [(py "type", PStr (py "function"))]]
     (py "yaml")
  = Return (PList [PDict [(py "type", PStr (py "function"))]]).
Proof.
  split; [discriminate|]. split; [discriminate|].
  apply (@format_tools_other_kind_identity quiet_world); discriminate.
Defined.

(** C8 fails as stated: on a document that holds one tool the reverse
    conversion returns the empty list instead of raising. *)
Lemma xml_tools_to_json_does_not_fail :
  xml_tools_to_json
    (py "<tools><tool name='lookup'><description>d</description></tool></tools>")
  = Return []
  /\ forall e : exn,
       xml_tools_to_json
         (py "<tools><tool name='lookup'><description>d</description></tool></tools>")
       <> Raise e.
Proof. split; [reflexivity|]. intros e. discriminate. Qed.


(** C4 fails as stated: a reply whose ["response"] entry is a number holds
    neither a ["choices"] key nor a response text, and it is not returned
    unchanged. *)
Lemma normalize_non_text_response_raises :
  dict_mem (py "choices") [(py "response", PInt 5)] = false
  /\ (forall text : str,
         dict_get (py "response") [(py "response", PInt 5)] <> Some (PStr text))
  /\ @parse_function_call_response quiet_world
       (PDict [(py "response", PInt 5)]) []
     = Raise TypeError
  /\ @parse_function_call_response quiet_world
       (PDict [(py "response", PInt 5)]) []
     <> Return (PDict [(py "response", PInt 5)]).
Proof.
  split; [reflexivity|]. split; [intros text; discriminate|].
  split; [reflexivity | discriminate].
Qed.

(** A tool whose parameters hold an integer beyond the digit limit has no
    markup. *)
Lemma json_tools_to_xml_digit_limit (n : Z) :
  (10 ^ Z.of_nat int_max_str_digits <= Z.abs n)%Z ->
  @json_tools_to_xml quiet_world
    [PDict [(py "function",
             PDict [(py "name", PStr (py "count"));
                    (py "parameters", PDict [(py "limit", PInt n)])])]]
  = Raise digit_limit_to_str.
Proof.
  intros H. apply int_to_str_above in H.
  unfold json_tools_to_xml. cbn [append_tools].
  unfold append_tool.
  change (dict_get_default (py "function") (PDict [])
            [(py "function",
              PDict [(py "name", PStr (py "count"));
                     (py "parameters", PDict [(py "limit", PInt n)])])])
    with (PDict [(py "name", PStr (py "count"));
                 (py "parameters", PDict [(py "limit", PInt n)])]).
  cbv beta iota.
  change (dict_get_default (py "name") (PStr []) _) with (PStr (py "count")).
  change (dict_get_default (py "description") (PStr []) _) with (PStr []).
  change (dict_get_default (py "parameters") (PDict []) _)
    with (PDict [(py "limit", PInt n)]).
  cbn [py_format truthy].
  change (@json_dumps quiet_world (PDict [(py "limit", PInt n)]))
    with (@json_dumps_within quiet_world 900 (PDict [(py "limit", PInt n)])).
  cbn [json_dumps_within map collect].
  rewrite H. reflexivity.
Qed.


(* ===================================================================== *)
(** ** More about strings and dictionaries                                *)
(* ===================================================================== *)

Lemma startswith_app (p s : str) :
  startswith p s = true <-> exists rest, s = p ++ rest.
Proof.
  revert s. induction p as [|x p IH]; intros s; cbn [startswith].
  - split; [intros _; exists s; reflexivity | reflexivity].
  - destruct s as [|y s].
    + split; [discriminate | intros [rest E]; discriminate].
    + rewrite andb_true_iff, N.eqb_eq, IH. split.
      * intros [-> [rest ->]]. exists rest. reflexivity.
      * intros [rest E]. injection E as -> ->. eauto.
Qed.

Lemma str_contains_app (sub s : str) :
  str_contains sub s = true <-> exists pre post, s = pre ++ sub ++ post.
Proof.
  induction s as [|y s IH]; cbn [str_contains].
  - rewrite orb_false_r, startswith_app. split.
    + intros [rest E]. exists [], rest. exact E.
    + intros (pre & post & E). destruct pre; [eauto|discriminate].
  - rewrite orb_true_iff, startswith_app, IH. split.
    + intros [[rest E]|(pre & post & E)].
      * exists [], rest. exact E.
      * exists (y :: pre), post. rewrite E. reflexivity.
    + intros (pre & post & E). destruct pre as [|z pre].
      * left. eauto.
      * right. injection E as _ E. eauto.
Qed.

Lemma dict_get_set_same (k : str) (v : pyval) (d : dict) :
  dict_get k (dict_set k v d) = Some v.
Proof.
  induction d as [|[k' v'] d IH]; cbn [dict_set dict_get].
  - replace (str_eqb k k) with true by (symmetry; apply str_eqb_eq; reflexivity).
    reflexivity.
  - destruct (str_eqb k k') eqn:E; cbn [dict_get]; rewrite E; [reflexivity | exact IH].
Qed.

Lemma dict_get_set_other (k k' : str) (v : pyval) (d : dict) :
  k' <> k -> dict_get k' (dict_set k v d) = dict_get k' d.
Proof.
  intros Hk. induction d as [|[k0 v0] d IH]; cbn [dict_set dict_get].
  - apply str_eqb_neq in Hk. rewrite Hk. reflexivity.
  - destruct (str_eqb k k0) eqn:E; cbn [dict_get].
    + apply str_eqb_eq in E. subst k0.
      apply str_eqb_neq in Hk. rewrite Hk. reflexivity.
    + destruct (str_eqb k' k0); [reflexivity | exact IH].
Qed.

Section MoreProperties.

Context {W : World}.

(* ===================================================================== *)
(** ** The extractor and the normaliser                                   *)
(* ===================================================================== *)

(** X1. A text without the quoted word [name], without an opening brace or
    without a closing brace holds no function call: the extractor returns
    [None]. *)
Theorem extract_function_call_needs_object (text : str) :
  str_contains (pyq "`name`") text = false \/ ~ In 123 text \/ ~ In 125 text ->
  extract_function_call text = PNone.
Proof.
  intros H. unfold extract_function_call.
  destruct (re_search function_call_pattern text) as [m|] eqn:E; [|reflexivity].
  exfalso.
  destruct (re_search_some _ _ _ E) as (pre & post & -> & Hm & _).
  apply function_call_pattern_denotes in Hm.
  destruct Hm as (a & b & -> & _ & _).
  destruct H as [H|[H|H]].
  - assert (C : str_contains (pyq "`name`")
                  (pre ++ ([123] ++ a ++ pyq "`name`" ++ b ++ [125]) ++ post) = true).
    { apply str_contains_app. exists (pre ++ [123] ++ a), (b ++ [125] ++ post).
      rewrite <- !app_assoc. reflexivity. }
    pose proof (eq_trans (eq_sym C) H) as F. discriminate F.
  - apply H. apply in_or_app. right. apply in_or_app. left.
    left. reflexivity.
  - apply H. apply in_or_app. right. apply in_or_app. left.
    do 4 (apply in_or_app; right). left. reflexivity.
Qed.

(** X2. Normalising twice is normalising once: what the normaliser returns,
    it returns unchanged when given it again, under any configuration. *)
Theorem parse_function_call_response_idempotent
    (response normalized : pyval) (config config' : dict) :
  parse_function_call_response response config = Return normalized ->
  parse_function_call_response normalized config' = Return normalized.
Proof.
  unfold parse_function_call_response at 1.
  destruct (py_in (py "choices") response) as [[|]|e] eqn:Ec; [| |discriminate].
  - intros H. injection H as <-.
    unfold parse_function_call_response. rewrite Ec. reflexivity.
  - destruct (py_in (py "response") response) as [[|]|e] eqn:Er; [| |discriminate].
    + destruct response as [| | | | |l|d]; try discriminate.
      destruct (dict_get_default (py "response") (PStr []) d); try discriminate.
      intros H. injection H as <-. reflexivity.
    + intros H. injection H as <-.
      unfold parse_function_call_response. rewrite Ec, Er. reflexivity.
Qed.

(** X3. On a dictionary the normaliser fails in one case only: there is no
    ["choices"] key and the ["response"] field holds something other than a
    text. The error is then a [TypeError]. *)
Theorem parse_function_call_response_raises (raw config : dict) (e : exn) :
  parse_function_call_response (PDict raw) config = Raise e <->
  e = TypeError /\
  dict_mem (py "choices") raw = false /\
  exists v, dict_get (py "response") raw = Some v /\ forall text, v <> PStr text.
Proof.
  unfold parse_function_call_response. cbn [py_in].
  destruct (dict_mem (py "choices") raw) eqn:Ec.
  - split; [discriminate | intros (_ & H & _); discriminate].
  - unfold dict_mem, dict_get_default.
    destruct (dict_get (py "response") raw) as [v|] eqn:Er.
    + destruct v; split;
        try discriminate;
        try (intros H; injection H as <-; split; [reflexivity|];
             split; [reflexivity|]; eexists; split; [reflexivity|];
             intros text; discriminate);
        try (intros (-> & _ & _); reflexivity).
      intros (_ & _ & v & Hv & Hn). injection Hv as <-.
      exfalso. exact (Hn _ eq_refl).
    + split; [discriminate|].
      intros (_ & _ & v & Hv & _). discriminate.
Qed.

End MoreProperties.

Section AdapterProperties.

Context {W : World}.

(* ===================================================================== *)
(** ** The adapters and the router                                        *)
(* ===================================================================== *)

(** The four outcomes of a post, by the backend's answer. *)
Lemma post_json_cases (req : http_request) :
  exists res,
    post_json req = (res, [req]) /\
    (httpx_post req = None -> res = Raise RequestError) /\
    (forall resp, httpx_post req = Some resp ->
       status_is_error resp = true -> res = Raise HTTPStatusError) /\
    (forall resp, httpx_post req = Some resp ->
       status_is_error resp = false -> body_json resp = None ->
       res = Raise JSONDecodeError) /\
    (forall resp body, httpx_post req = Some resp ->
       status_is_error resp = false -> body_json resp = Some body ->
       res = Return body).
Proof.
  unfold post_json. destruct (httpx_post req) as [resp|].
  - destruct (status_is_error resp) eqn:Es;
      [|destruct (body_json resp) as [body|] eqn:Eb];
      (eexists; split; [reflexivity|]; repeat split; try discriminate;
       intros;
       repeat match goal with
              | E : Some _ = Some _ |- _ => injection E as <-
              end;
       congruence).
  - eexists. split; [reflexivity|]. repeat split; try discriminate.
Qed.

(** The local-generate adapter either cannot dump its tools, and then
    raises before anything is sent, or posts one request; the request, and
    what becomes of the answer. *)
Lemma call_ollama_request
    (prompt : str) (tools : pyval) (config : dict) (temperature max_tokens : pyval) :
  (exists e,
      dump_failure tools e /\
      call_ollama prompt tools config temperature max_tokens = (Raise e, []))
  \/
  (exists posted req,
      post_json req = (posted, [req]) /\
      call_ollama prompt tools config temperature max_tokens
      = (match posted with
         | Return body => parse_function_call_response body config
         | Raise e => Raise e
         end, [req]) /\
      req_url req
      = py_str (dict_get_default (py "base_url")
                  (PStr (py "http://localhost:11434")) config)
        ++ py "/api/generate" /\
      req_headers req = None /\
      req_timeout_seconds req = 30%Z /\
      generate_payload (req_json req) prompt tools
        (dict_get_default (py "model_name") (PStr (py "default")) config)
        (dict_get_default (py "use_raw_mode") (PBool false) config)
        temperature max_tokens).
Proof.
  unfold call_ollama.
  destruct (truthy tools) eqn:T;
    [destruct tools as [|b|n|f|markup|l|d] eqn:Et; try discriminate T|];
    try match goal with
        | |- context [json_dumps ?t] =>
            destruct (json_dumps t) as [text|e] eqn:Ed;
            [|left; exists e; split; [|reflexivity];
              split; [exact T|]; split; [intros m; discriminate | exact Ed]]
        end;
    right;
    match goal with
    | |- context [post_json ?r] =>
        destruct (post_json_cases r) as (posted & E & _); exists posted, r
    end;
    (split; [exact E|]); rewrite E;
    (split; [destruct posted; reflexivity|]);
    do 3 (split; [reflexivity|]);
    cbn [req_json]; unfold generate_payload;
    destruct (truthy (dict_get_default (py "use_raw_mode") (PBool false) config));
    repeat split; intros;
    try discriminate; try reflexivity; try congruence;
    try match goal with
        | H : PStr _ = PStr _ |- _ => injection H as <-; reflexivity
        | H : forall m, PStr ?x <> PStr m |- _ => exfalso; exact (H x eq_refl)
        | Ed : json_dumps ?t = Return ?text |- exists _, _ =>
            exists text; split; [exact Ed | reflexivity]
        end.
Qed.

Lemma call_vllm_request
    (prompt : str) (tools : pyval) (config : dict) (temperature max_tokens : pyval) :
  exists posted req,
    post_json req = (posted, [req]) /\
    call_vllm prompt tools config temperature max_tokens = (posted, [req]) /\
    req_url req
    = py_str (dict_get_default (py "base_url")
                (PStr (py "http://localhost:8000")) config)
      ++ py "/v1/chat/completions" /\
    req_headers req = None /\
    req_timeout_seconds req = 30%Z.
Proof.
  unfold call_vllm.
  match goal with
  | |- context [post_json ?r] =>
      destruct (post_json_cases r) as (posted & E & _); exists posted, r
  end.
  repeat split; try exact E; reflexivity.
Qed.

Lemma call_openai_compatible_request
    (prompt : str) (tools : pyval) (config : dict) (temperature max_tokens : pyval) :
  exists posted req,
    post_json req = (posted, [req]) /\
    call_openai_compatible prompt tools config temperature max_tokens
    = (posted, [req]) /\
    req_url req
    = py_str (dict_get_default (py "base_url")
                (PStr (py "https://api.openai.com/v1")) config)
      ++ py "/chat/completions" /\
    req_headers req
    = Some [(py "Authorization",
             PStr (py "Bearer "
                   ++ py_str (dict_get_default (py "api_key")
                                (match getenv (py "OPENAI_API_KEY") with
                                 | Some k => PStr k
                                 | None => PNone
                                 end) config)));
            (py "Content-Type", PStr (py "application/json"))] /\
    req_timeout_seconds req = 30%Z.
Proof.
  unfold call_openai_compatible.
  match goal with
  | |- context [post_json ?r] =>
      destruct (post_json_cases r) as (posted & E & _); exists posted, r
  end.
  repeat split; try exact E; reflexivity.
Qed.

Lemma supported_backend_cases (backend : pyval) :
  supported_backend backend ->
  (backend = PStr (py "ollama") /\ py_eq_str backend (py "ollama") = true)
  \/ (backend = PStr (py "vllm") /\ py_eq_str backend (py "ollama") = false
      /\ py_eq_str backend (py "vllm") = true)
  \/ (backend = PStr (py "openai") /\ py_eq_str backend (py "ollama") = false
      /\ py_eq_str backend (py "vllm") = false
      /\ py_eq_str backend (py "openai") = true).
Proof.
  intros [ -> | [ -> | -> ] ]; [left | right; left | right; right];
    repeat split; reflexivity.
Qed.


(** X5. With a supported backend a failure of the one request is the
    failure of [call_model]: a transport failure, an error status and a
    body that is not JSON each raise their own error, and nothing is sent
    again. (The local-generate adapter sends no request at all when it
    cannot dump its tools.) *)
Theorem call_model_backend_failure
    (prompt : str) (tools : pyval) (config : dict)
    (temperature max_tokens backend : pyval) :
  dict_get_default (py "backend") (PStr (py "ollama")) config = backend ->
  supported_backend backend ->
  (exists e,
      backend = PStr (py "ollama") /\ dump_failure tools e /\
      call_model prompt tools (Some config) temperature max_tokens
      = (Raise e, []))
  \/
  (exists res req,
      call_model prompt tools (Some config) temperature max_tokens = (res, [req]) /\
      (httpx_post req = None -> res = Raise RequestError) /\
      (forall resp, httpx_post req = Some resp ->
         status_is_error resp = true -> res = Raise HTTPStatusError) /\
      (forall resp, httpx_post req = Some resp ->
         status_is_error resp = false -> body_json resp = None ->
         res = Raise JSONDecodeError)).
Proof.
  intros Hb Hs. unfold call_model. rewrite Hb.
  destruct (supported_backend_cases _ Hs)
    as [ [ -> E1 ] | [ ( -> & E1 & E2 ) | ( -> & E1 & E2 & E3 ) ] ].
  - rewrite E1.
    destruct (call_ollama_request prompt tools config temperature max_tokens)
      as [(e & Hd & ->)|(posted & req & Hp & -> & _)];
      [left; exists e; auto|right].
    destruct (post_json_cases req) as (posted' & Hp' & Hn & Hst & Hj & _).
    rewrite Hp in Hp'. injection Hp' as <-.
    eexists. exists req. split; [reflexivity|].
    repeat split.
    + intros H. rewrite (Hn H). reflexivity.
    + intros resp H H'. rewrite (Hst resp H H'). reflexivity.
    + intros resp H H' H''. rewrite (Hj resp H H' H''). reflexivity.
  - rewrite E1, E2. right.
    destruct (call_vllm_request prompt tools config temperature max_tokens)
      as (posted & req & Hp & -> & _).
    destruct (post_json_cases req) as (posted' & Hp' & Hn & Hst & Hj & _).
    rewrite Hp in Hp'. injection Hp' as <-.
    exists posted, req. split; [reflexivity|]. repeat split; assumption.
  - rewrite E1, E2, E3. right.
    destruct (call_openai_compatible_request prompt tools config
                temperature max_tokens)
      as (posted & req & Hp & -> & _).
    destruct (post_json_cases req) as (posted' & Hp' & Hn & Hst & Hj & _).
    rewrite Hp in Hp'. injection Hp' as <-.
    exists posted, req. split; [reflexivity|]. repeat split; assumption.
Qed.

(** X6. When the backend answers with a JSON body, the two chat-completion
    adapters return that body as it is, whatever its shape, and only the
    local-generate adapter normalises it. (The local-generate adapter gets
    no answer when it cannot dump its tools: it sends nothing.) *)
Theorem call_model_backend_answer
    (prompt : str) (tools : pyval) (config : dict)
    (temperature max_tokens backend : pyval) :
  dict_get_default (py "backend") (PStr (py "ollama")) config = backend ->
  supported_backend backend ->
  (exists e,
      backend = PStr (py "ollama") /\ dump_failure tools e /\
      call_model prompt tools (Some config) temperature max_tokens
      = (Raise e, []))
  \/
  (exists res req,
      call_model prompt tools (Some config) temperature max_tokens = (res, [req]) /\
      forall resp body,
        httpx_post req = Some resp ->
        status_is_error resp = false -> body_json resp = Some body ->
        (backend = PStr (py "ollama") ->
         res = parse_function_call_response body config) /\
        (backend <> PStr (py "ollama") -> res = Return body)).
Proof.
  intros Hb Hs. unfold call_model. rewrite Hb.
  destruct (supported_backend_cases _ Hs)
    as [ [ -> E1 ] | [ ( -> & E1 & E2 ) | ( -> & E1 & E2 & E3 ) ] ].
  - rewrite E1.
    destruct (call_ollama_request prompt tools config temperature max_tokens)
      as [(e & Hd & ->)|(posted & req & Hp & -> & _)];
      [left; exists e; auto|right].
    destruct (post_json_cases req) as (posted' & Hp' & _ & _ & _ & Hok).
    rewrite Hp in Hp'. injection Hp' as <-.
    eexists. exists req. split; [reflexivity|].
    intros resp body H H' H''. rewrite (Hok resp body H H' H'').
    split; [reflexivity | congruence].
  - rewrite E1, E2. right.
    destruct (call_vllm_request prompt tools config temperature max_tokens)
      as (posted & req & Hp & -> & _).
    destruct (post_json_cases req) as (posted' & Hp' & _ & _ & _ & Hok).
    rewrite Hp in Hp'. injection Hp' as <-.
    exists posted, req. split; [reflexivity|].
    intros resp body H H' H''. rewrite (Hok resp body H H' H'').
    split; [discriminate | reflexivity].
  - rewrite E1, E2, E3. right.
    destruct (call_openai_compatible_request prompt tools config
                temperature max_tokens)
      as (posted & req & Hp & -> & _).
    destruct (post_json_cases req) as (posted' & Hp' & _ & _ & _ & Hok).
    rewrite Hp in Hp'. injection Hp' as <-.
    exists posted, req. split; [reflexivity|].
    intros resp body H H' H''. rewrite (Hok resp body H H' H'').
    split; [discriminate | reflexivity].
Qed.


(** X8. The hosted adapter authorises with [Bearer] and the key of the
    configuration; without one, the key of the environment; with neither,
    the word [None]. A key present in the configuration wins even when it
    is [None]. *)
Theorem call_openai_compatible_authorization
    (prompt : str) (tools : pyval) (config : dict) (temperature max_tokens : pyval) :
  exists res req headers,
    call_openai_compatible prompt tools config temperature max_tokens
    = (res, [req]) /\
    req_headers req = Some headers /\
    dict_get (py "Content-Type") headers = Some (PStr (py "application/json")) /\
    (forall key, dict_get (py "api_key") config = Some key ->
       dict_get (py "Authorization") headers
       = Some (PStr (py "Bearer " ++ py_str key))) /\
    (forall key, dict_get (py "api_key") config = None ->
       getenv (py "OPENAI_API_KEY") = Some key ->
       dict_get (py "Authorization") headers = Some (PStr (py "Bearer " ++ key))) /\
    (dict_get (py "api_key") config = None ->
     getenv (py "OPENAI_API_KEY") = None ->
     dict_get (py "Authorization") headers = Some (PStr (py "Bearer None"))).
Proof.
  destruct (call_openai_compatible_request prompt tools config
              temperature max_tokens)
    as (posted & req & _ & E & _ & Hh & _).
  eexists. exists req. eexists. split; [exact E|]. split; [exact Hh|].
  split; [reflexivity|].
  unfold dict_get_default. repeat split.
  - intros key Hk. rewrite Hk. reflexivity.
  - intros key Hk He. rewrite Hk, He. reflexivity.
  - intros Hk He. rewrite Hk, He. reflexivity.
Qed.

(* ===================================================================== *)
(** ** Tool formatting, alone and before an adapter                       *)
(* ===================================================================== *)

Lemma append_tool_not_schema (xml_parts : list str) (tool : pyval) :
  is_tool_schema tool \/
  (~ is_tool_schema tool /\ append_tool xml_parts tool = Raise AttributeError).
Proof.
  destruct tool as [| | | | | |t];
    try (right; split; [intros (t' & fn & E & _); discriminate | reflexivity]).
  unfold append_tool, is_tool_schema.
  destruct (dict_get_default (py "function") (PDict []) t) as [| | | | | |func] eqn:E;
    try (right; split; [|reflexivity];
         intros (t' & fn & Et & Ef); injection Et as <-; congruence).
  left. exists t, func. auto.
Qed.

(** What the loop raises, and at which tool. *)
Lemma append_tools_raises (tools : list pyval) :
  forall xml_parts e,
    append_tools tools xml_parts = Raise e ->
    (e = AttributeError /\ Exists (fun tool => ~ is_tool_schema tool) tools)
    \/ (limit_error e /\
        Exists (fun tool => is_tool_schema tool /\
                            forall el, ~ tool_element tool el) tools).
Proof.
  induction tools as [|tool tools IH]; intros xml_parts e; cbn [append_tools];
    [discriminate|].
  destruct (append_tool_not_schema xml_parts tool) as [Hs|[Hn ->]].
  - destruct (append_tool_element tool Hs)
      as [(el & _ & Happ)|(e' & He & Hno & Hr)].
    + destruct (Happ xml_parts) as (parts & -> & _). intros H.
      destruct (IH _ _ H) as [(-> & Hx)|(Hl & Hx)];
        [left | right]; (split; [auto | right; exact Hx]).
    + rewrite Hr. intros H. injection H as <-. right.
      split; [exact He | left; split; assumption].
  - intros H. injection H as <-. left. split; [reflexivity | left; exact Hn].
Qed.

(** A tool that is not a schema stops the loop, there or before. *)
Lemma append_tools_stopped (tools : list pyval) :
  Exists (fun tool => ~ is_tool_schema tool) tools ->
  forall xml_parts, exists e, append_tools tools xml_parts = Raise e.
Proof.
  induction 1 as [tool tools Hn|tool tools _ IH]; intros xml_parts;
    cbn [append_tools].
  - destruct (append_tool_not_schema xml_parts tool) as [Hs|[_ ->]];
      [contradiction | eauto].
  - destruct (append_tool xml_parts tool) as [parts|e]; [apply IH | eauto].
Qed.

(** X9. [json_tools_to_xml] raises in two cases only. At a tool that is not
    a schema (it is not a dictionary, or its ["function"] entry is not
    one) the error is an [AttributeError]; at a schema whose name,
    description or parameters a limit of the interpreter keeps from being
    rendered it is the error of that limit. The first such tool decides.
    A list that holds a tool that is not a schema never has a document, not
    even a partial one. *)
Theorem json_tools_to_xml_raises (tools : list pyval) :
  (forall e,
      json_tools_to_xml tools = Raise e ->
      (e = AttributeError /\ Exists (fun tool => ~ is_tool_schema tool) tools)
      \/ (limit_error e /\
          Exists (fun tool => is_tool_schema tool /\
                              forall el, ~ tool_element tool el) tools)) /\
  (Exists (fun tool => ~ is_tool_schema tool) tools ->
   exists e, json_tools_to_xml tools = Raise e) /\
  (Exists (fun tool => ~ is_tool_schema tool) tools ->
   Forall (fun tool => is_tool_schema tool -> exists el, tool_element tool el)
          tools ->
   json_tools_to_xml tools = Raise AttributeError).
Proof.
  unfold json_tools_to_xml.
  assert (H1 : forall e,
             append_tools tools [py "<tools>"] = Raise e ->
             (e = AttributeError /\
              Exists (fun tool => ~ is_tool_schema tool) tools)
             \/ (limit_error e /\
                 Exists (fun tool => is_tool_schema tool /\
                                     forall el, ~ tool_element tool el) tools))
    by (intros e; apply append_tools_raises).
  split; [|split].
  - intros e H.
    destruct (append_tools tools [py "<tools>"]) as [parts|e'] eqn:E;
      [discriminate|].
    injection H as <-. exact (H1 _ eq_refl).
  - intros Hx. destruct (append_tools_stopped tools Hx [py "<tools>"]) as [e ->].
    eauto.
  - intros Hx Hel.
    destruct (append_tools_stopped tools Hx [py "<tools>"]) as [e E].
    rewrite E. destruct (H1 e E) as [(-> & _)|(_ & Hbad)]; [reflexivity|].
    exfalso. rewrite Forall_forall in Hel.
    apply Exists_exists in Hbad as (tool & Hin & Hs & Hno).
    destruct (Hel tool Hin Hs) as [el Hel']. exact (Hno el Hel').
Qed.

(** X10. The function-calling envelope is a dictionary, so a chat-completion
    adapter takes it for a lone tool: the payload's ["tools"] is a list of
    one element, the envelope, and not the list of tools. This holds for
    the empty tool list too. *)
Theorem function_calling_envelope_wrapped
    (prompt : str) (tools : list pyval) (config : dict)
    (temperature max_tokens : pyval) :
  exists formatted,
    format_tools_for_model tools (py "function_calling") = Return formatted /\
    formatted = PDict [(py "tools", PList tools)] /\
    (exists res req,
        call_vllm prompt formatted config temperature max_tokens = (res, [req]) /\
        dict_get (py "tools") (req_json req) = Some (PList [formatted])) /\
    (exists res req,
        call_openai_compatible prompt formatted config temperature max_tokens
        = (res, [req]) /\
        dict_get (py "tools") (req_json req) = Some (PList [formatted])).
Proof.
  eexists. split; [reflexivity|]. split; [reflexivity|]. split.
  - unfold call_vllm.
    match goal with
    | |- context [post_json ?r] =>
        destruct (post_json_cases r) as (posted & E & _); exists posted, r
    end.
    split; [exact E | reflexivity].
  - unfold call_openai_compatible.
    match goal with
    | |- context [post_json ?r] =>
        destruct (post_json_cases r) as (posted & E & _); exists posted, r
    end.
    split; [exact E | reflexivity].
Qed.

(** A document is never empty. *)
Lemma json_tools_to_xml_opens (tools : list pyval) (xml : str) :
  json_tools_to_xml tools = Return xml -> exists rest, xml = 60 :: rest.
Proof.
  unfold json_tools_to_xml.
  assert (G : forall ts parts parts',
             append_tools ts parts = Return parts' ->
             exists more, parts' = parts ++ more).
  { induction ts as [|t ts IH]; intros parts parts'; cbn [append_tools].
    - intros H. injection H as <-. exists []. rewrite app_nil_r. reflexivity.
    - destruct (append_tool parts t) as [p|] eqn:E; [|discriminate].
      intros H. destruct (IH _ _ H) as [more ->].
      assert (exists m, p = parts ++ m) as [m ->].
      { unfold append_tool in E.
        repeat match type of E with
               | context [match ?x with _ => _ end] => destruct x; try discriminate
               | context [if ?x then _ else _] => destruct x
               end;
          injection E as <-; rewrite <- ?app_assoc; eauto. }
      rewrite <- app_assoc. eauto. }
  destruct (append_tools tools [py "<tools>"]) as [parts|] eqn:E; [|discriminate].
  intros H. injection H as <-. destruct (G _ _ _ E) as [more ->].
  cbn [app List.concat]. eexists. reflexivity.
Qed.

(** X11. Markup made from tools always reaches the model: whenever the
    markup format returns, what it returns is a text that is not empty, so
    the local-generate adapter appends it to the prompt after a blank line
    and sends no ["context"], even for an empty list of tools. *)
Theorem xml_tools_ride_on_prompt
    (prompt : str) (tools : list pyval) (config : dict)
    (temperature max_tokens formatted : pyval) :
  format_tools_for_model tools (py "xml") = Return formatted ->
  exists xml res req,
    formatted = PStr xml /\ xml <> [] /\
    call_ollama prompt formatted config temperature max_tokens = (res, [req]) /\
    dict_get (py "prompt") (req_json req)
    = Some (PStr (prompt ++ [10; 10] ++ xml)) /\
    dict_get (py "context") (req_json req) = None.
Proof.
  unfold format_tools_for_model.
  change (str_eqb (py "xml") (py "xml")) with true. cbn iota.
  destruct (json_tools_to_xml tools) as [xml|] eqn:Ex; [|discriminate].
  intros H. injection H as <-.
  destruct (json_tools_to_xml_opens _ _ Ex) as [rest ->].
  exists (60 :: rest).
  destruct (call_ollama_request prompt (PStr (60 :: rest))
              config temperature max_tokens)
    as [(e & (_ & Hn & _) & _)|(posted & req & _ & E & _ & _ & _ & Hp)];
    [destruct (Hn _ eq_refl)|].
  eexists. exists req.
  split; [reflexivity|]. split; [discriminate|]. split; [exact E|].
  destruct Hp as (_ & _ & _ & _ & Hm & _).
  exact (Hm _ eq_refl eq_refl).
Qed.

End AdapterProperties.

(* ===================================================================== *)
(** ** The front door                                                     *)
(* ===================================================================== *)

Lemma fold_left_append_map {A : Type} (f : A -> str) (l : list A) (acc : list str) :
  fold_left (fun parts x => parts ++ [f x]) l acc = acc ++ map f l.
Proof.
  revert acc. induction l as [|x l IH]; intros acc; cbn [fold_left map].
  - rewrite app_nil_r. reflexivity.
  - rewrite IH, <- app_assoc. reflexivity.
Qed.

Lemma join_app (sep : str) (l1 l2 : list str) :
  l1 <> [] -> l2 <> [] ->
  join sep (l1 ++ l2) = join sep l1 ++ sep ++ join sep l2.
Proof.
  intros H1 H2. induction l1 as [|p l1 IH]; [congruence|].
  destruct l1 as [|q l1].
  - destruct l2; [congruence | reflexivity].
  - change (join sep ((p :: q :: l1) ++ l2))
      with (p ++ sep ++ join sep ((q :: l1) ++ l2)).
    rewrite IH by discriminate.
    change (join sep (p :: q :: l1)) with (p ++ sep ++ join sep (q :: l1)).
    rewrite <- !app_assoc. reflexivity.
Qed.

Section FrontDoorProperties.

Context {W : World} {Sv : Services}.

(** X12. The front door and the engine build the same configuration from
    the environment: without a model name, or with the empty one,
    [get_model_config] equals [get_default_config]; a model name that is
    not empty replaces ["model_name"] and nothing else. *)
Theorem get_model_config_default (model_name : option str) :
  get_model_config model_name
  = match model_name with
    | Some (c :: m) => dict_set (py "model_name") (PStr (c :: m)) get_default_config
    | _ => get_default_config
    end.
Proof. destruct model_name as [[|c m]|]; reflexivity. Qed.

Lemma build_prompt_from_messages_lines (messages : list ChatMessage) :
  build_prompt_from_messages messages = join [10] (map message_line messages).
Proof.
  unfold build_prompt_from_messages.
  rewrite (fold_left_append_map message_line). reflexivity.
Qed.

(** X13. The prompt of two non-empty runs of messages is the prompt of the
    first, a line feed, and the prompt of the second; the prompt of one
    message is its role, a colon and a space, and its content; the prompt
    of no message is empty. *)
Theorem build_prompt_from_messages_app (ms1 ms2 : list ChatMessage) :
  ms1 <> [] -> ms2 <> [] ->
  build_prompt_from_messages (ms1 ++ ms2)
  = build_prompt_from_messages ms1 ++ [10] ++ build_prompt_from_messages ms2
  /\ (forall msg, build_prompt_from_messages [msg]
                  = msg_role msg ++ py ": " ++ msg_content msg)
  /\ build_prompt_from_messages [] = [].
Proof.
  intros H1 H2. split; [|split; reflexivity].
  rewrite !build_prompt_from_messages_lines, map_app.
  apply join_app; destruct ms1, ms2; try congruence; discriminate.
Qed.

(** Every call of the router sends at most one request. *)
Lemma call_model_at_most_one
    (prompt : str) (tools : pyval) (model_config : option dict)
    (temperature max_tokens : pyval) :
  (List.length (snd (call_model prompt tools model_config temperature max_tokens))
   <= 1)%nat.
Proof.
  unfold call_model.
  repeat match goal with
         | |- context [if py_eq_str ?b ?s then _ else _] =>
             destruct (py_eq_str b s)
         end.
  - match goal with
    | |- context [call_ollama ?p ?t ?c ?a ?b] =>
        destruct (call_ollama_request p t c a b)
          as [(? & _ & ->)|(? & ? & _ & -> & _)]
    end; cbn; lia.
  - match goal with
    | |- context [call_vllm ?p ?t ?c ?a ?b] =>
        destruct (call_vllm_request p t c a b) as (? & ? & _ & -> & _)
    end. cbn. lia.
  - match goal with
    | |- context [call_openai_compatible ?p ?t ?c ?a ?b] =>
        destruct (call_openai_compatible_request p t c a b) as (? & ? & _ & -> & _)
    end. cbn. lia.
  - cbn. lia.
Qed.

(** X14. One chat request costs at most one backend request, whatever the
    request, the environment and the answer. *)
Theorem chat_completions_at_most_one_request (request : ChatCompletionRequest) :
  (List.length (snd (chat_completions request)) <= 1)%nat.
Proof.
  unfold chat_completions.
  match goal with
  | |- context [match ?f with Return _ => _ | Raise _ => _ end] =>
      destruct f as [formatted|e]
  end; [|cbn; lia].
  match goal with
  | |- context [call_model ?p ?t ?c ?a ?b] =>
      pose proof (call_model_at_most_one p t c a b) as L;
      destruct (call_model p t c a b) as [[response|e] sent]
  end; exact L.
Qed.

(** X15. When the environment names a backend that is not supported, every
    chat request is answered with status 500 and no backend is contacted;
    for a request without tools the detail is the message of the router. *)
Theorem chat_completions_unsupported_backend
    (request : ChatCompletionRequest) (backend : str) :
  getenv_default (py "MODEL_BACKEND") (py "ollama") = backend ->
  backend <> py "ollama" -> backend <> py "vllm" -> backend <> py "openai" ->
  exists detail,
    chat_completions request = (HTTPException 500 detail, []) /\
    (chat_tools request = None \/ chat_tools request = Some [] ->
     detail = py "Unsupported backend: " ++ backend).
Proof.
  intros Hb H1 H2 H3.
  assert (Hcall : forall prompt tools model_name temperature max_tokens,
             call_model prompt tools (Some (get_model_config model_name))
               temperature max_tokens
             = (Raise (ValueError (py "Unsupported backend: " ++ backend)), [])).
  { intros. unfold call_model, get_model_config.
    change (dict_get_default (py "backend") (PStr (py "ollama")) _)
      with (PStr (getenv_default (py "MODEL_BACKEND") (py "ollama"))).
    rewrite Hb. cbn [py_eq_str py_str].
    apply str_eqb_neq in H1, H2, H3. rewrite H1, H2, H3. reflexivity. }
  unfold chat_completions.
  destruct (chat_tools request) as [[|t ts]|] eqn:Et.
  - rewrite Hcall. eexists. split; [reflexivity|]. intros _. reflexivity.
  - match goal with
    | |- context [match ?f with Return _ => _ | Raise _ => _ end] =>
        destruct f as [formatted|e]
    end.
    + rewrite Hcall. eexists. split; [reflexivity|].
      intros [H|H]; discriminate.
    + eexists. split; [reflexivity|]. intros [H|H]; discriminate.
  - rewrite Hcall. eexists. split; [reflexivity|]. intros _. reflexivity.
Qed.


End FrontDoorProperties.

(* ===================================================================== *)
(** ** The function registry                                              *)
(* ===================================================================== *)

Lemma str_eqb_refl (k : str) : str_eqb k k = true.
Proof. apply str_eqb_eq. reflexivity. Qed.

Lemma handlers_get_set_same (name : str) (h : handler) (hs : list (str * handler)) :
  handlers_get name (handlers_set name h hs) = Some h.
Proof.
  induction hs as [|[n h'] hs IH]; cbn [handlers_set handlers_get].
  - rewrite str_eqb_refl. reflexivity.
  - destruct (str_eqb name n) eqn:E; cbn [handlers_get]; rewrite E;
      [reflexivity | exact IH].
Qed.

Lemma handlers_get_set_other (name other : str) (h : handler)
    (hs : list (str * handler)) :
  other <> name ->
  handlers_get other (handlers_set name h hs) = handlers_get other hs.
Proof.
  intros Hn. induction hs as [|[n h'] hs IH]; cbn [handlers_set handlers_get].
  - apply str_eqb_neq in Hn. rewrite Hn. reflexivity.
  - destruct (str_eqb name n) eqn:E; cbn [handlers_get].
    + apply str_eqb_eq in E. subst n.
      apply str_eqb_neq in Hn. rewrite Hn. reflexivity.
    + destruct (str_eqb other n); [reflexivity | exact IH].
Qed.

Lemma dict_get_none_keys (k : str) (d : dict) :
  dict_get k d = None <-> ~ In k (map fst d).
Proof.
  induction d as [|[k' v] d IH]; cbn [dict_get map fst In].
  - split; [intros _ [] | reflexivity].
  - destruct (str_eqb k k') eqn:E.
    + apply str_eqb_eq in E. subst k'. split; [discriminate|].
      intros H. exfalso. apply H. left. reflexivity.
    + apply str_eqb_neq in E. rewrite IH. split.
      * intros H [H'|H']; [congruence | contradiction].
      * intros H H'. apply H. right. exact H'.
Qed.

Lemma dict_mem_false_keys (k : str) (d : dict) :
  dict_mem k d = false -> ~ In k (map fst d).
Proof.
  unfold dict_mem. intros H. apply dict_get_none_keys.
  destruct (dict_get k d); [discriminate | reflexivity].
Qed.

Lemma dict_set_known (k : str) (v : pyval) (d : dict) :
  dict_mem k d = true -> map fst (dict_set k v d) = map fst d.
Proof.
  unfold dict_mem. induction d as [|[k' v'] d IH]; cbn [dict_get dict_set map fst].
  - discriminate.
  - destruct (str_eqb k k'); cbn [map fst]; [reflexivity|].
    intros H. rewrite (IH H). reflexivity.
Qed.

Lemma dict_set_fresh (k : str) (v : pyval) (d : dict) :
  dict_mem k d = false -> dict_set k v d = d ++ [(k, v)].
Proof.
  unfold dict_mem. induction d as [|[k' v'] d IH]; cbn [dict_get dict_set app].
  - reflexivity.
  - destruct (str_eqb k k'); [discriminate|].
    intros H. rewrite (IH H). reflexivity.
Qed.

Lemma dict_set_entries (P : str -> pyval -> Prop) (k : str) (v : pyval) (d : dict) :
  Forall (fun kv => P (fst kv) (snd kv)) d -> P k v ->
  Forall (fun kv => P (fst kv) (snd kv)) (dict_set k v d).
Proof.
  intros Hd Hv. induction Hd as [|[k' v'] d Hk Hd IH]; cbn [dict_set].
  - constructor; [exact Hv | constructor].
  - destruct (str_eqb k k') eqn:E.
    + apply str_eqb_eq in E. subst k'. constructor; [exact Hv | exact Hd].
    + constructor; [exact Hk | exact IH].
Qed.

(** X17. Registering and looking up: after [register_function] the name
    yields the definition just given, and every other name yields what it
    yielded before. *)
Theorem register_function_get_function
    (self : FunctionRegistry) (name : str) (description parameters : pyval)
    (handler : option handler) :
  get_function (register_function self name description parameters handler) name
  = PDict [(py "name", PStr name);
           (py "description", description);
           (py "parameters", parameters)]
  /\ forall other,
       other <> name ->
       get_function (register_function self name description parameters handler)
         other
       = get_function self other.
Proof.
  unfold get_function, dict_get_default, register_function. split.
  - destruct handler; cbn [_functions]; rewrite dict_get_set_same; reflexivity.
  - intros other Hn.
    destruct handler; cbn [_functions];
      rewrite (dict_get_set_other _ _ _ _ Hn); reflexivity.
Qed.

(** X18. Registering a name that is already there replaces its definition
    in place: the names listed and their order do not change. A new name
    goes to the end of the list. *)
Theorem register_function_list_functions
    (self : FunctionRegistry) (name : str) (description parameters : pyval)
    (handler : option handler) :
  (dict_mem name (_functions self) = true ->
   map fst (_functions (register_function self name description parameters handler))
   = map fst (_functions self)) /\
  (dict_mem name (_functions self) = false ->
   list_functions (register_function self name description parameters handler)
   = list_functions self
     ++ [PDict [(py "name", PStr name);
                (py "description", description);
                (py "parameters", parameters)]]).
Proof.
  unfold list_functions, register_function. split; intros H.
  - destruct handler; cbn [_functions]; apply dict_set_known; exact H.
  - destruct handler; cbn [_functions];
      rewrite (dict_set_fresh _ _ _ H), map_app; reflexivity.
Qed.

(** X19. A handler outlives a registration without one: when a name that has
    a handler is registered again with no handler, [execute_function] still
    calls the old handler. *)
Theorem register_function_keeps_handler
    (self : FunctionRegistry) (name : str) (description parameters : pyval)
    (h : handler) (arguments : dict) :
  handlers_get name (_handlers self) = Some h ->
  execute_function (register_function self name description parameters None)
    name arguments
  = h arguments.
Proof.
  intros Hh. unfold execute_function, register_function. cbn [_functions _handlers].
  unfold dict_mem. rewrite dict_get_set_same. cbn [negb]. rewrite Hh. reflexivity.
Qed.

Lemma execute_function_registered
    (self : FunctionRegistry) (name : str) (description parameters : pyval)
    (h : handler) (arguments : dict) :
  execute_function (register_function self name description parameters (Some h))
    name arguments
  = h arguments.
Proof.
  unfold execute_function, register_function.
  cbn [_functions _handlers]. unfold dict_mem.
  rewrite dict_get_set_same, handlers_get_set_same. reflexivity.
Qed.

Lemma execute_function_other
    (self : FunctionRegistry) (name other : str) (description parameters : pyval)
    (handler : option handler) (arguments : dict) :
  other <> name ->
  execute_function (register_function self name description parameters handler)
    other arguments
  = execute_function self other arguments.
Proof.
  intros Hn. unfold execute_function, register_function, dict_mem.
  destruct handler; cbn [_functions _handlers];
    rewrite (dict_get_set_other _ _ _ _ Hn);
    rewrite ?(handlers_get_set_other _ _ _ _ Hn); reflexivity.
Qed.

(** X20. After a registration with a handler, executing the name calls that
    handler with the arguments; executing any other name does what it did
    before, whatever was registered. *)
Theorem register_function_execute_function
    (self : FunctionRegistry) (name : str) (description parameters : pyval)
    (h : handler) (handler : option handler) (arguments : dict) :
  execute_function (register_function self name description parameters (Some h))
    name arguments
  = h arguments
  /\ forall other,
       other <> name ->
       execute_function
         (register_function self name description parameters handler)
         other arguments
       = execute_function self other arguments.
Proof.
  split; [apply execute_function_registered|].
  intros other Hn. apply execute_function_other. exact Hn.
Qed.

Lemma reachable_registry_facts (self : FunctionRegistry) :
  reachable self ->
  Forall (fun kv => registered_entry (fst kv) (snd kv)) (_functions self) /\
  NoDup (map fst (_functions self)) /\
  (forall name h,
      handlers_get name (_handlers self) = Some h ->
      dict_mem name (_functions self) = true).
Proof.
  induction 1 as [|self name description parameters handler _ (IHe & IHn & IHh)].
  - repeat split; [constructor | constructor | discriminate].
  - assert (Ef : _functions (register_function self name description parameters
                               handler)
                 = dict_set name
                     (PDict [(py "name", PStr name);
                             (py "description", description);
                             (py "parameters", parameters)])
                     (_functions self))
      by (destruct handler; reflexivity).
    rewrite Ef. repeat split.
    + apply (dict_set_entries registered_entry); [exact IHe|].
      exists description, parameters. reflexivity.
    + destruct (dict_mem name (_functions self)) eqn:Em.
      * rewrite (dict_set_known _ _ _ Em). exact IHn.
      * rewrite (dict_set_fresh _ _ _ Em), map_app. cbn [map fst].
        apply NoDup_app; [exact IHn | repeat constructor; intros [] |].
        intros k Hk [<-|[]].
        apply dict_mem_false_keys in Em. contradiction.
    + intros n h. unfold dict_mem.
      destruct (str_eqb n name) eqn:En.
      * apply str_eqb_eq in En. subst n. rewrite dict_get_set_same. reflexivity.
      * apply str_eqb_neq in En. rewrite (dict_get_set_other _ _ _ _ En).
        destruct handler as [h'|]; cbn [register_function _handlers].
        -- rewrite (handlers_get_set_other _ _ _ _ En). apply IHh.
        -- apply IHh.
Qed.

(** X21. What every registry built by registrations satisfies: each stored
    definition holds the name it is stored under, a description and
    parameters; no name is listed twice; and a name with a handler is a
    registered name. *)
Theorem reachable_invariant (self : FunctionRegistry) :
  reachable self ->
  Forall (fun kv => registered_entry (fst kv) (snd kv)) (_functions self) /\
  NoDup (map fst (_functions self)) /\
  (forall name h,
      handlers_get name (_handlers self) = Some h ->
      dict_mem name (_functions self) = true).
Proof. exact (reachable_registry_facts self). Qed.

Lemma append_definitions_entries (fs : dict) :
  Forall (fun kv => registered_entry (fst kv) (snd kv)) fs ->
  forall tools,
    append_definitions (map snd fs) tools = inr (tools ++ map tool_of_entry fs).
Proof.
  induction 1 as [|[k v] fs (description & parameters & E) _ IH]; intros tools;
    cbn [map append_definitions].
  - rewrite app_nil_r. reflexivity.
  - cbn [fst snd] in E. subst v. cbn [snd].
    unfold append_definition. cbn [subscript].
    change (dict_get (py "name") _) with (Some (PStr k)).
    change (dict_get (py "description") _) with (Some description).
    change (dict_get (py "parameters") _) with (Some parameters).
    cbn iota. rewrite IH, <- app_assoc. reflexivity.
Qed.

Section RegistryTools.

Context {W : World}.

(** X22. On a registry built by registrations [get_tools_definition] never
    meets a missing key: it returns one tool per registered function, in
    order, each wrapping the stored definition; every one is a tool schema
    that carries its registered name. So the markup formatter never raises
    [AttributeError] on the list: it returns the document of the elements
    of the tools, or raises the error of a limit of the interpreter at a
    description or at parameters that cannot be rendered. *)
Theorem get_tools_definition_reachable (self : FunctionRegistry) :
  reachable self ->
  exists tools,
    get_tools_definition self = inr tools /\
    tools = map tool_of_entry (_functions self) /\
    List.length tools = List.length (list_functions self) /\
    Forall is_tool_schema tools /\
    map tool_name tools = map (fun kv => PStr (fst kv)) (_functions self) /\
    (forall els,
        Forall2 tool_element tools els ->
        json_tools_to_xml tools
        = Return (py "<tools>" ++ List.concat els ++ py "</tools>")) /\
    (forall e,
        json_tools_to_xml tools = Raise e ->
        limit_error e /\ e <> AttributeError /\
        Exists (fun tool => forall el, ~ tool_element tool el) tools).
Proof.
  intros Hr. destruct (reachable_registry_facts self Hr) as (He & _ & _).
  exists (map tool_of_entry (_functions self)).
  assert (Hs : Forall is_tool_schema (map tool_of_entry (_functions self))).
  { apply Forall_map. apply (Forall_impl _ (P := fun kv => registered_entry (fst kv) (snd kv)));
      [|exact He].
    intros [k v] (description & parameters & E). cbn [fst snd] in E. subst v.
    eexists. eexists. split; reflexivity. }
  split; [unfold get_tools_definition; apply (append_definitions_entries _ He)|].
  split; [reflexivity|].
  split; [unfold list_functions; rewrite !length_map; reflexivity|].
  split; [exact Hs|].
  split.
  - rewrite map_map. apply map_ext_Forall.
    apply (Forall_impl _ (P := fun kv => registered_entry (fst kv) (snd kv)));
      [|exact He].
    intros [k v] (description & parameters & E). cbn [fst snd] in E. subst v.
    reflexivity.
  - split.
    + intros els Hels. unfold json_tools_to_xml.
      destruct (append_tools_elements _ els Hels Hs [py "<tools>"])
        as (parts & -> & Ep).
      rewrite concat_app, Ep. cbn [List.concat].
      rewrite !app_nil_r, <- app_assoc. reflexivity.
    + intros e. unfold json_tools_to_xml.
      destruct (append_tools _ [py "<tools>"]) as [parts|e'] eqn:E;
        [discriminate|].
      intros H. injection H as <-.
      destruct (append_tools_raises _ _ _ E) as [(_ & Hx)|(Hl & Hx)].
      * exfalso. apply Exists_exists in Hx as (tool & Hin & Hn).
        rewrite Forall_forall in Hs. exact (Hn (Hs tool Hin)).
      * split; [exact Hl|]. split.
        -- destruct Hl as [-> | ->]; discriminate.
        -- apply Exists_exists in Hx as (tool & Hin & _ & Hn).
           apply Exists_exists. eauto.
Qed.

End RegistryTools.

(* ===================================================================== *)
(** ** The registered handlers                                            *)
(* ===================================================================== *)

Lemma functions_get_registered
    (self : FunctionRegistry) (name : str) (description parameters : pyval)
    (handler : option handler) :
  dict_get name
    (_functions (register_function self name description parameters handler))
  = Some (PDict [(py "name", PStr name);
                 (py "description", description);
                 (py "parameters", parameters)]).
Proof. destruct handler; apply dict_get_set_same. Qed.

Lemma functions_get_other
    (self : FunctionRegistry) (name other : str) (description parameters : pyval)
    (handler : option handler) :
  other <> name ->
  dict_get other
    (_functions (register_function self name description parameters handler))
  = dict_get other (_functions self).
Proof. intros Hn. destruct handler; apply dict_get_set_other; exact Hn. Qed.

Lemma handlers_get_registered
    (self : FunctionRegistry) (name : str) (description parameters : pyval)
    (h : handler) :
  handlers_get name
    (_handlers (register_function self name description parameters (Some h)))
  = Some h.
Proof. apply handlers_get_set_same. Qed.

Lemma handlers_get_other
    (self : FunctionRegistry) (name other : str) (description parameters : pyval)
    (handler : option handler) :
  other <> name ->
  handlers_get other
    (_handlers (register_function self name description parameters handler))
  = handlers_get other (_handlers self).
Proof.
  intros Hn. destruct handler; [apply handlers_get_set_other; exact Hn|].
  reflexivity.
Qed.

(** Two different literal names. *)
Ltac names_differ := apply str_eqb_neq; vm_compute; reflexivity.

Section McpProperties.

Context {W : World} {Sv : Services}.

Lemma or_error_reply_client_json (what : str) (req : client_request) :
  exists v,
    or_error_reply what (client_json req) = (Return v, [req]) /\
    (forall resp body,
        client_send req = Some resp -> status_is_error resp = false ->
        body_json resp = Some body -> v = body) /\
    (request_failed req -> failure_reply v).
Proof.
  unfold client_json, request_failed.
  destruct (client_send req) as [resp|].
  - destruct (status_is_error resp) eqn:Es;
      [|destruct (body_json resp) as [body|] eqn:Eb];
      cbn [or_error_reply]; eexists; (split; [reflexivity|]); split;
      try (intros r b E; injection E as <-; congruence);
      try (intros _; eexists; eexists; reflexivity).
    intros [F|(r & E & [F|F])]; [discriminate| |];
      injection E as <-; congruence.
  - cbn [or_error_reply]. eexists. split; [reflexivity|]. split.
    + discriminate.
    + intros _. eexists. eexists. reflexivity.
Qed.

(** A handler that posts or gets once and turns failure into a reply. *)
Lemma handler_outcome_request (what path : str) (req : client_request) :
  cr_url req = MCP_CONFIG_SERVER_URL ++ py "/mcp/tools/" ++ path ->
  handler_outcome (or_error_reply what (client_json req)).
Proof.
  intros Hu. right.
  destruct (or_error_reply_client_json what req) as (v & E & Hok & Hfail).
  exists v, req. split; [exact E|]. split; [|split; assumption].
  rewrite Hu. apply startswith_app. exists path.
  rewrite <- app_assoc. reflexivity.
Qed.

Lemma handler_outcome_type_error : handler_outcome (Raise TypeError, []).
Proof. left. reflexivity. Qed.

Lemma kwarg_cases (p : str * option pyval) (arguments : dict) :
  kwarg p arguments = Raise TypeError \/ exists a, kwarg p arguments = Return a.
Proof.
  unfold kwarg. destruct (dict_get (fst p) arguments); [eauto|].
  destruct (snd p); eauto.
Qed.

Ltac kwargs_cases :=
  repeat match goal with
         | |- context [kwarg ?p ?a] =>
             let E := fresh "E" in
             destruct (kwarg_cases p a) as [E|[? E]]; rewrite E
         end.

Lemma with_kwargs0_outcome (f : outcome) (arguments : dict) :
  handler_outcome f -> handler_outcome (with_kwargs0 f arguments).
Proof.
  intros H. unfold with_kwargs0.
  destruct (only_keys _ arguments); [exact H | apply handler_outcome_type_error].
Qed.

Lemma with_kwargs1_outcome p1 (f : pyval -> outcome) (arguments : dict) :
  (forall a1, handler_outcome (f a1)) ->
  handler_outcome (with_kwargs1 p1 f arguments).
Proof.
  intros H. unfold with_kwargs1.
  destruct (only_keys _ arguments); [|apply handler_outcome_type_error].
  kwargs_cases; auto using handler_outcome_type_error.
Qed.

Lemma with_kwargs2_outcome p1 p2 (f : pyval -> pyval -> outcome) (arguments : dict) :
  (forall a1 a2, handler_outcome (f a1 a2)) ->
  handler_outcome (with_kwargs2 p1 p2 f arguments).
Proof.
  intros H. unfold with_kwargs2.
  destruct (only_keys _ arguments); [|apply handler_outcome_type_error].
  kwargs_cases; auto using handler_outcome_type_error.
Qed.

Lemma with_kwargs3_outcome p1 p2 p3 (f : pyval -> pyval -> pyval -> outcome)
    (arguments : dict) :
  (forall a1 a2 a3, handler_outcome (f a1 a2 a3)) ->
  handler_outcome (with_kwargs3 p1 p2 p3 f arguments).
Proof.
  intros H. unfold with_kwargs3.
  destruct (only_keys _ arguments); [|apply handler_outcome_type_error].
  kwargs_cases; auto using handler_outcome_type_error.
Qed.

Lemma with_kwargs4_outcome p1 p2 p3 p4
    (f : pyval -> pyval -> pyval -> pyval -> outcome) (arguments : dict) :
  (forall a1 a2 a3 a4, handler_outcome (f a1 a2 a3 a4)) ->
  handler_outcome (with_kwargs4 p1 p2 p3 p4 f arguments).
Proof.
  intros H. unfold with_kwargs4.
  destruct (only_keys _ arguments); [|apply handler_outcome_type_error].
  kwargs_cases; auto using handler_outcome_type_error.
Qed.

Lemma handlers_are_outcomes :
  (forall a, handler_outcome (discover_services_handler a)) /\
  (forall a, handler_outcome (get_service_info_handler a)) /\
  (forall a b c d, handler_outcome (configure_service_handler a b c d)) /\
  (forall a b, handler_outcome (test_service_handler a b)) /\
  handler_outcome list_services_handler /\
  (forall a b, handler_outcome (update_service_config_handler a b)) /\
  (forall a, handler_outcome (get_config_guide_handler a)) /\
  (forall a b c, handler_outcome (search_marketplace_handler a b c)).
Proof.
  repeat split; intros.
  - apply (handler_outcome_request _ (py "discover_services")). reflexivity.
  - apply (handler_outcome_request _ (py "get_service_info")). reflexivity.
  - apply (handler_outcome_request _ (py "configure_service")). reflexivity.
  - apply (handler_outcome_request _ (py "test_service_connection")). reflexivity.
  - apply (handler_outcome_request _ (py "list_configured_services")). reflexivity.
  - apply (handler_outcome_request _ (py "update_service_config")). reflexivity.
  - apply (handler_outcome_request _ (py "get_configuration_guide")). reflexivity.
  - apply (handler_outcome_request _ (py "search_marketplace")). reflexivity.
Qed.


(** X24. [register_mcp_functions] adds to any registry: afterwards each of
    the eight names is registered and has a handler, while every other name
    is looked up and executed as before; a registry built by registrations
    stays one, and from the empty registry the names are listed in the
    order of the source. *)
Theorem register_mcp_functions_registers (self : FunctionRegistry) :
  (forall name,
      In name mcp_function_names ->
      dict_mem name (_functions (register_mcp_functions self)) = true /\
      handlers_get name (_handlers (register_mcp_functions self)) <> None) /\
  (forall name arguments,
      ~ In name mcp_function_names ->
      get_function (register_mcp_functions self) name = get_function self name /\
      execute_function (register_mcp_functions self) name arguments
      = execute_function self name arguments) /\
  (reachable self -> reachable (register_mcp_functions self)) /\
  map fst (_functions (register_mcp_functions new_registry)) = mcp_function_names.
Proof.
  split; [|split; [|split]].
  - intros name H. unfold mcp_function_names in H. cbn [In] in H. split.
    + unfold register_mcp_functions, dict_mem. cbv zeta.
      repeat destruct H as [<-|H]; try contradiction;
        repeat rewrite functions_get_other by names_differ;
        rewrite functions_get_registered; reflexivity.
    + unfold register_mcp_functions. cbv zeta.
      repeat destruct H as [<-|H]; try contradiction;
        repeat rewrite handlers_get_other by names_differ;
        rewrite handlers_get_registered; discriminate.
  - intros name arguments H.
    assert (Hall : Forall (fun n => name <> n) mcp_function_names)
      by (apply Forall_forall; intros n Hn ->; exact (H Hn)).
    unfold mcp_function_names in Hall.
    repeat match goal with
           | F : Forall _ (_ :: _) |- _ => apply Forall_cons_iff in F as [? F]
           end.
    split.
    + unfold register_mcp_functions, get_function, dict_get_default. cbv zeta.
      repeat rewrite functions_get_other by assumption. reflexivity.
    + unfold register_mcp_functions. cbv zeta.
      repeat rewrite execute_function_other by assumption. reflexivity.
  - intros Hr. unfold register_mcp_functions. cbv zeta.
    repeat apply reachable_register. exact Hr.
  - vm_compute. reflexivity.
Qed.

(** X25. Optional arguments that are empty are not sent. [test_service]
    sends [config_id] only when it is neither [None] nor zero;
    [search_marketplace] sends each of its three filters only when it is
    not empty, and an empty parameter set when none is;
    [configure_service] posts with a timeout of sixty seconds and sends an
    empty dictionary for settings that are absent or empty. *)
Theorem handlers_optional_arguments :
  (forall service_name config_id,
      exists res req params,
        test_service_handler service_name config_id = (res, [req]) /\
        cr_params req = Some params /\
        dict_get (py "service_name") params = Some service_name /\
        dict_get (py "config_id") params
        = (if truthy config_id then Some config_id else None)) /\
  (forall use_case integration_type category,
      exists res req params,
        search_marketplace_handler use_case integration_type category
        = (res, [req]) /\
        cr_params req = Some params /\
        dict_get (py "use_case") params
        = (if truthy use_case then Some use_case else None) /\
        dict_get (py "integration_type") params
        = (if truthy integration_type then Some integration_type else None) /\
        dict_get (py "category") params
        = (if truthy category then Some category else None)) /\
  (forall service_name credentials settings config_name,
      exists res req payload,
        configure_service_handler service_name credentials settings config_name
        = (res, [req]) /\
        cr_method req = POST /\
        cr_timeout_seconds req = 60%Z /\
        cr_json req = Some payload /\
        dict_get (py "settings") payload
        = Some (if truthy settings then settings else PDict [])).
Proof.
  split; [|split]; intros.
  - unfold test_service_handler.
    match goal with
    | |- context [client_json ?r] =>
        destruct (or_error_reply_client_json (py "Error testing service") r)
          as (v & E & _); rewrite E; exists (Return v), r
    end.
    eexists. split; [reflexivity|]. split; [reflexivity|].
    destruct (truthy config_id); split; reflexivity.
  - unfold search_marketplace_handler.
    match goal with
    | |- context [client_json ?r] =>
        destruct (or_error_reply_client_json (py "Error searching marketplace") r)
          as (v & E & _); rewrite E; exists (Return v), r
    end.
    eexists. split; [reflexivity|]. split; [reflexivity|].
    destruct (truthy use_case), (truthy integration_type), (truthy category);
      repeat split; reflexivity.
  - unfold configure_service_handler.
    match goal with
    | |- context [client_json ?r] =>
        destruct (or_error_reply_client_json (py "Error configuring service") r)
          as (v & E & _); rewrite E; exists (Return v), r
    end.
    eexists. repeat split; reflexivity.
Qed.

End McpProperties.

(* ===================================================================== *)
(** ** Reading back what [json.dumps] wrote                               *)
(* ===================================================================== *)








Lemma span_digits_app (d rest : str) :
  Forall (fun x => is_digit x = true) d ->
  match rest with [] => True | c :: _ => is_digit c = false end ->
  span_digits (d ++ rest) = (d, rest).
Proof.
  intros Hd Hr. induction Hd as [|x d Hx Hd IH].
  - rewrite app_nil_l. destruct rest as [|c r]; [reflexivity|].
    cbn [span_digits]. rewrite Hr. reflexivity.
  - rewrite <- app_comm_cons. cbn [span_digits]. rewrite Hx, IH. reflexivity.
Qed.


Lemma number_end_frac_exp (rest : str) :
  number_end rest -> match_frac rest = ([], rest) /\ match_exp rest = ([], rest).
Proof.
  destruct rest as [|c r]; [split; reflexivity|].
  intros (_ & H1 & H2 & H3). unfold match_frac, match_exp.
  rewrite H1, H2, H3. split; reflexivity.
Qed.

Lemma number_end_digit (rest : str) :
  number_end rest ->
  match rest with [] => True | c :: _ => is_digit c = false end.
Proof. destruct rest; [trivial|]. intros (H & _). exact H. Qed.

Lemma is_digit_not_minus (c : char) : is_digit c = true -> (c =? 45) = false.
Proof.
  unfold is_digit. intros H. apply andb_prop in H as (H1 & H2).
  apply N.leb_le in H1. apply N.eqb_neq. lia.
Qed.

Lemma match_integer_minus (c : char) (r i rest : str) :
  (c =? 45) = false ->
  match_integer (c :: r) = Some (i, rest) ->
  match_integer (45 :: c :: r) = Some (45 :: i, rest).
Proof.
  intros Hc H. unfold match_integer in H |- *.
  rewrite N.eqb_refl. rewrite Hc in H. cbv beta iota in H |- *.
  destruct (c =? 48).
  - injection H as <- <-. reflexivity.
  - destruct (is_digit c); [|discriminate H].
    destruct (span_digits r) as [d' rest'].
    injection H as <- <-. reflexivity.
Qed.

Lemma match_integer_digits (c : char) (d rest : str) :
  is_digit c = true -> (c =? 48) = false ->
  Forall (fun x => is_digit x = true) d ->
  number_end rest ->
  match_integer ((c :: d) ++ rest) = Some (c :: d, rest).
Proof.
  intros Hc H0 Hd Hr. unfold match_integer. rewrite <- List.app_comm_cons.
  rewrite (is_digit_not_minus c Hc), H0, Hc.
  rewrite (span_digits_app d rest Hd (number_end_digit rest Hr)). reflexivity.
Qed.

Lemma hex_val_hex_digit (k : N) : k < 16 -> hex_val (hex_digit k) = Some k.
Proof.
  intros H.
  assert (C : k = 0 \/ k = 1 \/ k = 2 \/ k = 3 \/ k = 4 \/ k = 5 \/ k = 6 \/ k = 7
              \/ k = 8 \/ k = 9 \/ k = 10 \/ k = 11 \/ k = 12 \/ k = 13 \/ k = 14
              \/ k = 15) by lia.
  repeat (destruct C as [-> | C]; [reflexivity|]). subst k. reflexivity.
Qed.

Lemma decode_hex4 (v : N) :
  v < 65536 ->
  exists h1 h2 h3 h4,
    hex4 v = [h1; h2; h3; h4] /\ decode_uXXXX h1 h2 h3 h4 = Some v.
Proof.
  intros Hv. unfold hex4. do 4 eexists. split; [reflexivity|].
  unfold decode_uXXXX. rewrite !N.shiftr_div_pow2.
  change (2 ^ 12) with 4096. change (2 ^ 8) with 256. change (2 ^ 4) with 16.
  rewrite !hex_val_hex_digit by (apply N.mod_lt; discriminate).
  f_equal. zify. Z.to_euclidean_division_equations. lia.
Qed.

Lemma land_shiftl_low (a x n : N) : x < 2 ^ n -> N.land (N.shiftl a n) x = 0.
Proof.
  intros Hx. apply N.bits_inj_0. intros m. rewrite N.land_spec.
  destruct (N.lt_ge_cases m n) as [Hm|Hm].
  - rewrite N.shiftl_spec_low by exact Hm. reflexivity.
  - rewrite <- (N.mod_small x (2 ^ n)) by exact Hx.
    rewrite N.mod_pow2_bits_high by exact Hm. apply andb_false_r.
Qed.

Lemma lor_shiftl_low (a x n : N) :
  x < 2 ^ n -> N.lor (N.shiftl a n) x = a * 2 ^ n + x.
Proof.
  intros Hx. rewrite <- N.lxor_lor by (apply land_shiftl_low; exact Hx).
  rewrite <- N.add_nocarry_lxor by (apply land_shiftl_low; exact Hx).
  rewrite N.shiftl_mul_pow2. reflexivity.
Qed.

(** The surrogate pair the encoder writes for a code point beyond the basic
    plane. *)
Lemma surrogate_pair (c : char) :
  65536 <= c -> c < 1114112 ->
  let n := c - 65536 in
  let s1 := N.lor 55296 (N.land (N.shiftr n 10) 1023) in
  let s2 := N.lor 56320 (N.land n 1023) in
  55296 <= s1 /\ s1 <= 56319 /\ 56320 <= s2 /\ s2 <= 57343 /\
  65536 + N.lor (N.shiftl (s1 - 55296) 10) (s2 - 56320) = c.
Proof.
  intros H1 H2. cbv zeta. remember (c - 65536) as n eqn:En.
  assert (Hn : n < 1048576) by lia.
  assert (Hd : n / 1024 < 1024) by (zify; Z.to_euclidean_division_equations; lia).
  assert (Hm : n mod 1024 < 1024) by (apply N.mod_lt; discriminate).
  assert (E1 : N.lor 55296 (N.land (N.shiftr n 10) 1023) = 55296 + n / 1024).
  { change 1023 with (N.ones 10). rewrite N.land_ones.
    change 55296 with (N.shiftl 54 10) at 1.
    rewrite lor_shiftl_low by (apply N.mod_lt; discriminate).
    rewrite N.shiftr_div_pow2. change (2 ^ 10) with 1024.
    rewrite (N.mod_small _ _ Hd). change (N.shiftl 54 10) with 55296. lia. }
  assert (E2 : N.lor 56320 (N.land n 1023) = 56320 + n mod 1024).
  { change 1023 with (N.ones 10). rewrite N.land_ones.
    change 56320 with (N.shiftl 55 10) at 1.
    rewrite lor_shiftl_low by (apply N.mod_lt; discriminate).
    change (2 ^ 10) with 1024. change (N.shiftl 55 10) with 56320. lia. }
  rewrite !E1, !E2.
  rewrite (N.add_comm 55296), (N.add_comm 56320), !N.add_sub.
  rewrite lor_shiftl_low by exact Hm. change (2 ^ 10) with 1024.
  pose proof (N.div_mod n 1024) as Hq.
  revert Hd Hm Hq. generalize (n / 1024) (n mod 1024). intros q r Hd Hm Hq.
  repeat split; lia.
Qed.

Lemma scanstring_u (h1 h2 h3 h4 : char) (r2 : str) (uni : N) :
  decode_uXXXX h1 h2 h3 h4 = Some uni ->
  (55296 <=? uni) && (uni <=? 56319) = false ->
  scanstring (92 :: 117 :: h1 :: h2 :: h3 :: h4 :: r2)
  = cons_chunk uni (scanstring r2).
Proof.
  intros Hd Hs.
  change (scanstring (92 :: 117 :: h1 :: h2 :: h3 :: h4 :: r2))
    with (match decode_uXXXX h1 h2 h3 h4 with
          | None => None
          | Some uni =>
              if (55296 <=? uni) && (uni <=? 56319) then
                match r2 with
                | b :: u :: r4 =>
                    if (b =? 92) && (u =? 117) then
                      match r4 with
                      | k1 :: k2 :: k3 :: k4 :: r5 =>
                          match decode_uXXXX k1 k2 k3 k4 with
                          | None => None
                          | Some uni2 =>
                              if (56320 <=? uni2) && (uni2 <=? 57343) then
                                cons_chunk
                                  (65536 + N.lor (N.shiftl (uni - 55296) 10)
                                                 (uni2 - 56320))
                                  (scanstring r5)
                              else cons_chunk uni (scanstring r2)
                          end
                      | _ => None
                      end
                    else cons_chunk uni (scanstring r2)
                | _ => cons_chunk uni (scanstring r2)
                end
              else cons_chunk uni (scanstring r2)
          end).
  rewrite Hd, Hs. reflexivity.
Qed.

Lemma scanstring_uu (h1 h2 h3 h4 k1 k2 k3 k4 : char) (r5 : str) (uni uni2 : N) :
  decode_uXXXX h1 h2 h3 h4 = Some uni ->
  decode_uXXXX k1 k2 k3 k4 = Some uni2 ->
  (55296 <=? uni) && (uni <=? 56319) = true ->
  (56320 <=? uni2) && (uni2 <=? 57343) = true ->
  scanstring (92 :: 117 :: h1 :: h2 :: h3 :: h4
              :: 92 :: 117 :: k1 :: k2 :: k3 :: k4 :: r5)
  = cons_chunk (65536 + N.lor (N.shiftl (uni - 55296) 10) (uni2 - 56320))
      (scanstring r5).
Proof.
  intros Hd Hd2 Hs Hs2.
  change (scanstring (92 :: 117 :: h1 :: h2 :: h3 :: h4
                      :: 92 :: 117 :: k1 :: k2 :: k3 :: k4 :: r5))
    with (match decode_uXXXX h1 h2 h3 h4 with
          | None => None
          | Some uni =>
              if (55296 <=? uni) && (uni <=? 56319) then
                match decode_uXXXX k1 k2 k3 k4 with
                | None => None
                | Some uni2 =>
                    if (56320 <=? uni2) && (uni2 <=? 57343) then
                      cons_chunk
                        (65536 + N.lor (N.shiftl (uni - 55296) 10)
                                       (uni2 - 56320))
                        (scanstring r5)
                    else cons_chunk uni
                           (scanstring (92 :: 117 :: k1 :: k2 :: k3 :: k4 :: r5))
                end
              else cons_chunk uni
                     (scanstring (92 :: 117 :: k1 :: k2 :: k3 :: k4 :: r5))
          end).
  rewrite Hd, Hs, Hd2, Hs2. reflexivity.
Qed.

Lemma scanstring_plain (c : char) (tail : str) :
  (c =? 34) = false -> (c =? 92) = false -> (c <? 32) = false ->
  scanstring (c :: tail) = cons_chunk c (scanstring tail).
Proof.
  intros H1 H2 H3. cbn [scanstring]. rewrite H1, H2, H3. reflexivity.
Qed.

(** The decoder reads one escaped character back. *)
Lemma scanstring_escape_char (c : char) (tail : str) :
  scalar c ->
  scanstring (json_escape_char c ++ tail) = cons_chunk c (scanstring tail).
Proof.
  intros Hc. unfold json_escape_char.
  destruct (c =? 92) eqn:E92; [apply N.eqb_eq in E92; subst c; reflexivity|].
  destruct (c =? 34) eqn:E34; [apply N.eqb_eq in E34; subst c; reflexivity|].
  destruct (c =? 8) eqn:E8; [apply N.eqb_eq in E8; subst c; reflexivity|].
  destruct (c =? 12) eqn:E12; [apply N.eqb_eq in E12; subst c; reflexivity|].
  destruct (c =? 10) eqn:E10; [apply N.eqb_eq in E10; subst c; reflexivity|].
  destruct (c =? 13) eqn:E13; [apply N.eqb_eq in E13; subst c; reflexivity|].
  destruct (c =? 9) eqn:E9; [apply N.eqb_eq in E9; subst c; reflexivity|].
  destruct ((32 <=? c) && (c <=? 126)) eqn:Ep.
  - apply andb_prop in Ep as (Ep & _). apply N.leb_le in Ep.
    apply scanstring_plain; [exact E34 | exact E92 | apply N.ltb_ge; exact Ep].
  - destruct (c <? 65536) eqn:Eb.
    + apply N.ltb_lt in Eb.
      destruct (decode_hex4 c Eb) as (h1 & h2 & h3 & h4 & -> & Hd).
      apply (scanstring_u h1 h2 h3 h4 tail c Hd).
      destruct Hc as [Hc|[Hc _]].
      * apply andb_false_iff. left. apply N.leb_gt. exact Hc.
      * apply andb_false_iff. right. apply N.leb_gt. lia.
    + apply N.ltb_ge in Eb. destruct Hc as [Hc|[_ Hc]]; [lia|].
      pose proof (surrogate_pair c Eb Hc) as Hp. cbv zeta in Hp.
      destruct Hp as (A1 & A2 & B1 & B2 & Hv).
      cbv zeta.
      destruct (decode_hex4 (N.lor 55296 (N.land (N.shiftr (c - 65536) 10) 1023)))
        as (h1 & h2 & h3 & h4 & -> & Hd); [lia|].
      destruct (decode_hex4 (N.lor 56320 (N.land (c - 65536) 1023)))
        as (k1 & k2 & k3 & k4 & -> & Hd2); [lia|].
      etransitivity;
        [apply (scanstring_uu h1 h2 h3 h4 k1 k2 k3 k4 tail _ _ Hd Hd2);
         apply andb_true_intro; split; apply N.leb_le; assumption|].
      rewrite Hv. reflexivity.
Qed.

(** The decoder reads a quoted text back. *)
Lemma scanstring_escaped (s rest : str) :
  Forall scalar s ->
  scanstring (List.concat (map json_escape_char s) ++ 34 :: rest) = Some (s, rest).
Proof.
  induction 1 as [|c s Hc Hs IH]; [reflexivity|].
  cbn [map List.concat]. rewrite <- List.app_assoc.
  rewrite (scanstring_escape_char c _ Hc), IH. reflexivity.
Qed.

Lemma value_end_number_end (rest : str) : value_end rest -> number_end rest.
Proof. intros (r & [-> | ->]); repeat split. Qed.

Lemma skip_ws_head (c : char) (r : str) :
  is_ws c = false -> skip_ws (c :: r) = c :: r.
Proof. intros H. cbn [skip_ws]. rewrite H. reflexivity. Qed.

Lemma is_digit_not_ws (c : char) : is_digit c = true -> is_ws c = false.
Proof.
  unfold is_digit, is_ws. intros H. apply andb_prop in H as (H1 & _).
  apply N.leb_le in H1.
  repeat (apply orb_false_intro); apply N.eqb_neq; lia.
Qed.

(** The first character of a dumped integer: a digit or the minus sign. *)
Lemma int_str_head (n : Z) :
  exists c r, int_str n = c :: r /\ (is_digit c = true \/ c = 45).
Proof.
  destruct (int_str_cases n) as [(_ & E) | [(p & _ & E) | (p & _ & E)]];
    rewrite E.
  - exists 48, []. split; [reflexivity | left; reflexivity].
  - destruct (to_uint_head p) as (c & d & -> & Hc & _). eauto.
  - eauto.
Qed.

Lemma join_concat (sep p : str) (l : list str) :
  join sep (p :: l) = p ++ List.concat (map (fun q => sep ++ q) l).
Proof.
  revert p. induction l as [|q l IH]; intros p.
  - cbn [join map List.concat]. rewrite List.app_nil_r. reflexivity.
  - change (join sep (p :: q :: l)) with (p ++ sep ++ join sep (q :: l)).
    rewrite IH. cbn [map List.concat]. rewrite <- !List.app_assoc. reflexivity.
Qed.

Lemma dict_of_pairs_acc (pairs acc : list (str * pyval)) :
  NoDup (map fst (acc ++ pairs)) ->
  fold_left (fun d kv => dict_set (fst kv) (snd kv) d) pairs acc = acc ++ pairs.
Proof.
  revert acc. induction pairs as [|[k v] pairs IH]; intros acc Hn.
  - cbn [fold_left]. rewrite List.app_nil_r. reflexivity.
  - cbn [fold_left fst snd].
    assert (Hk : dict_mem k acc = false).
    { unfold dict_mem.
      destruct (dict_get k acc) eqn:E; [|reflexivity]. exfalso.
      assert (Hin : In k (map fst acc)).
      { destruct (in_dec (list_eq_dec N.eq_dec) k (map fst acc)) as [H|H];
          [exact H|].
        apply dict_get_none_keys in H. congruence. }
      rewrite map_app in Hn. cbn [map fst] in Hn.
      apply NoDup_remove_2 in Hn. apply Hn, in_or_app. left. exact Hin. }
    rewrite (dict_set_fresh k v acc Hk).
    rewrite IH; rewrite <- List.app_assoc; [reflexivity | exact Hn].
Qed.

(** [dict] of pairs with distinct keys is the list of pairs. *)
Lemma dict_of_pairs_distinct (pairs : list (str * pyval)) :
  NoDup (map fst pairs) -> dict_of_pairs pairs = pairs.
Proof. intros H. exact (dict_of_pairs_acc pairs [] H). Qed.

Lemma hex_digit_not_brace (n : N) : hex_digit (n mod 16) <> 125.
Proof.
  pose proof (N.mod_lt n 16) as H. unfold hex_digit.
  destruct (n mod 16 <? 10) eqn:E.
  - apply N.ltb_lt in E. lia.
  - lia.
Qed.

Lemma hex4_no_brace (v : N) : ~ In 125 (hex4 v).
Proof.
  unfold hex4. cbn [In].
  intros [H|[H|[H|[H|[]]]]]; exact (hex_digit_not_brace _ H).
Qed.

Lemma json_escape_char_no_brace (c : char) :
  c <> 125 -> ~ In 125 (json_escape_char c).
Proof.
  intros Hc. unfold json_escape_char.
  destruct (c =? 92); [intros [H|[H|[]]]; discriminate H|].
  destruct (c =? 34); [intros [H|[H|[]]]; discriminate H|].
  destruct (c =? 8); [intros [H|[H|[]]]; discriminate H|].
  destruct (c =? 12); [intros [H|[H|[]]]; discriminate H|].
  destruct (c =? 10); [intros [H|[H|[]]]; discriminate H|].
  destruct (c =? 13); [intros [H|[H|[]]]; discriminate H|].
  destruct (c =? 9); [intros [H|[H|[]]]; discriminate H|].
  destruct ((32 <=? c) && (c <=? 126)).
  - intros [H|[]]. exact (Hc H).
  - destruct (c <? 65536).
    + change (py "\u" ++ hex4 c) with (92 :: 117 :: hex4 c).
      intros [H|[H|H]]; try discriminate H. exact (hex4_no_brace _ H).
    + cbv zeta.
      match goal with
      | |- ~ In _ (_ ++ hex4 ?a ++ _ ++ hex4 ?b) =>
          change (~ In 125 (92 :: 117 :: hex4 a ++ 92 :: 117 :: hex4 b))
      end.
      intros [H|[H|H]]; try discriminate H.
      apply in_app_or in H as [H|[H|[H|H]]]; try discriminate H;
        exact (hex4_no_brace _ H).
Qed.

Lemma json_quote_no_brace (s : str) : ~ In 125 s -> ~ In 125 (json_quote s).
Proof.
  intros Hs. unfold json_quote. intros H.
  apply in_app_or in H as [[H|[]]|H]; [discriminate H|].
  apply in_app_or in H as [H|[H|[]]]; [|discriminate H].
  apply in_concat in H as (e & He & H).
  apply in_map_iff in He as (c & <- & Hc).
  apply (json_escape_char_no_brace c); [|exact H].
  intros ->. exact (Hs Hc).
Qed.

Lemma int_str_no_brace (n : Z) : ~ In 125 (int_str n).
Proof.
  assert (Hu : forall u, ~ In 125 (uint_chars u)).
  { intros u H. pose proof (uint_chars_digits u) as Hd.
    rewrite Forall_forall in Hd. specialize (Hd _ H). discriminate Hd. }
  destruct (int_str_cases n) as [(_ & E) | [(p & _ & E) | (p & _ & E)]];
    rewrite E.
  - intros [H|[]]. discriminate H.
  - apply Hu.
  - intros [H|H]; [discriminate H | exact (Hu _ H)].
Qed.

Lemma re_search_first_match (text m : str) :
  first_match text m -> re_search function_call_pattern text = Some m.
Proof.
  intros Hf. destruct (re_search function_call_pattern text) as [m'|] eqn:E.
  - f_equal. apply (first_match_unique text); [|exact Hf].
    destruct (re_search_some _ _ _ E) as (pre & post & Et & Hm & Hmin).
    exists pre, post. split; [exact Et|]. split.
    + apply function_call_pattern_denotes. exact Hm.
    + intros pre' m'' post' E' Hm'. apply (Hmin pre' m'' post' E').
      apply function_call_pattern_denotes. exact Hm'.
  - exfalso. destruct Hf as (pre & post & Et & Hm & _).
    apply (re_search_none _ _ E pre m post Et).
    apply function_call_pattern_denotes. exact Hm.
Qed.

(** A brace object after a text without opening brace is the first one. *)
Lemma first_match_after (pre m post : str) :
  ~ In 123 pre -> braces_with_quoted_name m -> first_match (pre ++ m ++ post) m.
Proof.
  intros Hp Hm. exists pre, post. split; [reflexivity|]. split; [exact Hm|].
  intros pre' m' post' E (a & b & -> & _).
  destruct (Nat.le_gt_cases (List.length pre) (List.length pre')) as [L|L];
    [exact L|].
  exfalso. apply Hp.
  assert (Hp' : pre = firstn (List.length pre) (pre' ++ 123 :: (a ++ pyq "`name`" ++ b ++ [125]) ++ post')).
  { change (([123] ++ a ++ pyq "`name`" ++ b ++ [125]) ++ post')
      with (123 :: (a ++ pyq "`name`" ++ b ++ [125]) ++ post') in E.
    rewrite <- E, firstn_app, Nat.sub_diag, firstn_all. cbn [firstn].
    rewrite List.app_nil_r. reflexivity. }
  rewrite Hp', firstn_app.
  apply in_or_app. right.
  destruct (List.length pre - List.length pre')%nat eqn:En; [lia|].
  cbn [firstn]. left. reflexivity.
Qed.

Section ReadBack.

Context {W : World}.

Lemma match_number_integer (s i rest : str) :
  match_integer s = Some (i, rest) -> number_end rest ->
  (List.length (unsigned_digits i) <= int_max_str_digits)%nat ->
  match_number s = Some (Return (PInt (parse_int i)), rest).
Proof.
  intros Hi Hr Hl. destruct (number_end_frac_exp rest Hr) as (Hf & He).
  unfold match_number. rewrite Hi, Hf, He. unfold int_of_str.
  apply Nat.ltb_ge in Hl. rewrite Hl. reflexivity.
Qed.

(** The decoder reads back the integer [json.dumps] wrote. *)
Lemma match_number_int_str (n : Z) (rest : str) :
  number_end rest ->
  (int_digit_count n <= int_max_str_digits)%nat ->
  match_number (int_str n ++ rest) = Some (Return (PInt n), rest).
Proof.
  intros Hr Hl. unfold int_digit_count in Hl.
  destruct (int_str_cases n) as [(-> & E) | [(p & -> & E) | (p & -> & E)]];
    rewrite E.
  - refine (match_number_integer ([48] ++ rest) [48] rest eq_refl Hr _).
    cbn. unfold int_max_str_digits. lia.
  - destruct (to_uint_head p) as (c & d & Ed & Hc & H0 & Hd).
    change (Z.abs (Z.pos p)) with (Z.pos p) in Hl. rewrite E in Hl.
    rewrite Ed in Hl |- *.
    assert (Hu : (List.length (unsigned_digits (c :: d)) <= int_max_str_digits)%nat).
    { cbn [unsigned_digits]. rewrite (is_digit_not_minus c Hc). exact Hl. }
    rewrite (match_number_integer _ _ _
               (match_integer_digits c d rest Hc H0 Hd Hr) Hr Hu).
    f_equal. f_equal. f_equal. f_equal. unfold parse_int.
    rewrite (is_digit_not_minus c Hc), <- Ed, digits_value_uint.
    rewrite DecimalPos.Unsigned.of_to. reflexivity.
  - destruct (to_uint_head p) as (c & d & Ed & Hc & H0 & Hd).
    change (Z.abs (Z.neg p)) with (Z.pos p) in Hl.
    destruct (int_str_cases (Z.pos p)) as [(Ez & _) | [(q & Eq & Es) | (q & Eq & _)]];
      try discriminate.
    injection Eq as <-. rewrite Es in Hl.
    rewrite Ed in Hl |- *.
    pose proof (match_integer_minus c (d ++ rest) (c :: d) rest
                  (is_digit_not_minus c Hc)
                  (match_integer_digits c d rest Hc H0 Hd Hr)) as Hm.
    assert (Hu : (List.length (unsigned_digits (45%N :: c :: d))
                  <= int_max_str_digits)%nat) by exact Hl.
    etransitivity; [exact (match_number_integer _ _ _ Hm Hr Hu)|].
    f_equal. f_equal. f_equal. f_equal. unfold parse_int.
    change (45 =? 45) with true. cbv beta iota.
    rewrite <- Ed, digits_value_uint, DecimalPos.Unsigned.of_to. reflexivity.
Qed.

Lemma scan_once_quote (fuel room : nat) (t : str) :
  scan_once (S fuel) room (34 :: t)
  = match scanstring t with
    | Some (v, rest) => Decoded (PStr v) rest
    | None => DecodeError
    end.
Proof. reflexivity. Qed.

Lemma scan_once_number
    (fuel room : nat) (c : char) (r : str) (v : pyval) (rest : str) :
  is_digit c = true \/ c = 45 ->
  match_number (c :: r) = Some (Return v, rest) ->
  scan_once (S fuel) room (c :: r) = Decoded v rest.
Proof.
  intros Hc Hm.
  assert (H : (c =? 34) = false /\ (c =? 123) = false /\ (c =? 91) = false /\
              (c =? 110) = false /\ (c =? 116) = false /\ (c =? 102) = false).
  { destruct Hc as [Hc | ->]; [|repeat split].
    unfold is_digit in Hc. apply andb_prop in Hc as (H1 & H2).
    apply N.leb_le in H1, H2. repeat split; apply N.eqb_neq; lia. }
  destruct H as (H1 & H2 & H3 & H4 & H5 & H6).
  cbn [scan_once]. rewrite H1, H2, H3, H4, H5, H6. cbn [andb].
  rewrite Hm. reflexivity.
Qed.

(** The decoder reads a flat value back, and stops where it ends. *)
Lemma scan_once_readable_value (fuel room : nat) (v : pyval) (rest : str) :
  readable_value v -> value_end rest ->
  scan_once (S fuel) room (json_text v ++ rest) = Decoded v rest.
Proof.
  intros Hv Hr. destruct v as [|[|]|n|f|s|l|d]; try contradiction.
  - reflexivity.
  - reflexivity.
  - reflexivity.
  - cbn [json_text].
    pose proof (match_number_int_str n rest (value_end_number_end rest Hr) Hv)
      as Hm.
    destruct (int_str_head n) as (c & r & E & Hc). rewrite E in Hm |- *.
    exact (scan_once_number fuel room c (r ++ rest) _ _ Hc Hm).
  - cbn [json_text]. unfold json_quote. rewrite <- !List.app_assoc.
    change ([34] ++ List.concat (map json_escape_char s) ++ [34] ++ rest)
      with (34 :: (List.concat (map json_escape_char s) ++ 34 :: rest)).
    rewrite scan_once_quote, (scanstring_escaped s rest (proj1 Hv)). reflexivity.
Qed.

Lemma skip_ws_readable_value (v : pyval) (rest : str) :
  readable_value v -> skip_ws (json_text v ++ rest) = json_text v ++ rest.
Proof.
  intros Hv. destruct v as [|[|]|n|f|s|l|d]; try contradiction;
    try reflexivity.
  cbn [json_text]. destruct (int_str_head n) as (c & r & -> & [Hc | ->]).
  - apply skip_ws_head, is_digit_not_ws. exact Hc.
  - reflexivity.
Qed.

Lemma json_text_dict (d : dict) :
  json_text (PDict d) = 123 :: join (py ", ") (map member d) ++ [125].
Proof.
  cbn [json_text]. change (py "{") with [123]. change (py "}") with [125].
  cbn [app]. f_equal. f_equal. f_equal. apply map_ext. intros [k x]. reflexivity.
Qed.

Lemma member_app (k : str) (x : pyval) (rest : str) :
  member (k, x) ++ rest
  = 34 :: List.concat (map json_escape_char k)
          ++ 34 :: 58 :: 32 :: json_text x ++ rest.
Proof.
  unfold member, json_quote. cbn [fst snd]. rewrite <- !List.app_assoc.
  reflexivity.
Qed.

Lemma object_pairs_eq (fuel room : nat) (s : str) (pairs : list (str * pyval)) :
  object_pairs (S fuel) room s pairs
  = match scanstring s with
    | None => DecodeError
    | Some (key, s1) =>
        match skip_ws s1 with
        | c :: s2 =>
            if c =? 58 then
              match scan_once fuel room (skip_ws s2) with
              | Decoded value s3 =>
                  let pairs' := pairs ++ [(key, value)] in
                  match skip_ws s3 with
                  | d :: s4 =>
                      if d =? 125 then Decoded pairs' s4
                      else if d =? 44 then
                        match skip_ws s4 with
                        | q :: s5 =>
                            if q =? 34 then object_pairs fuel room s5 pairs'
                            else DecodeError
                        | [] => DecodeError
                        end
                      else DecodeError
                  | [] => DecodeError
                  end
              | DecodeError => DecodeError
              | Failed e => Failed e
              | FuelOut => FuelOut
              end
            else DecodeError
        | [] => DecodeError
        end
    end.
Proof. reflexivity. Qed.

(** The member loop of the decoder reads the first member back. *)
Lemma object_pairs_member
    (fuel room : nat) (k : str) (x : pyval) (s3 : str)
    (acc : list (str * pyval)) :
  flat_text k -> readable_value x -> value_end s3 ->
  object_pairs (S (S fuel)) room
    (List.concat (map json_escape_char k) ++ 34 :: 58 :: 32 :: json_text x ++ s3)
    acc
  = match s3 with
    | d :: s4 =>
        if d =? 125 then Decoded (acc ++ [(k, x)]) s4
        else
          match skip_ws s4 with
          | q :: s5 =>
              if q =? 34 then object_pairs (S fuel) room s5 (acc ++ [(k, x)])
              else DecodeError
          | [] => DecodeError
          end
    | [] => DecodeError
    end.
Proof.
  intros Hk Hx Hr. rewrite object_pairs_eq.
  rewrite (scanstring_escaped k _ (proj1 Hk)).
  change (skip_ws (58 :: 32 :: json_text x ++ s3))
    with (58 :: 32 :: json_text x ++ s3).
  change (58 =? 58) with true. cbv beta iota.
  change (skip_ws (32 :: json_text x ++ s3)) with (skip_ws (json_text x ++ s3)).
  rewrite (skip_ws_readable_value x s3 Hx),
    (scan_once_readable_value fuel room x s3 Hx Hr).
  cbv zeta. destruct Hr as (r & [-> | ->]); reflexivity.
Qed.

(** The member loop reads a whole dumped object back. *)
Lemma object_pairs_members (d : dict) :
  forall (fuel room : nat) (k : str) (x : pyval) (acc : list (str * pyval))
         (post : str),
    (List.length d + 2 <= fuel)%nat ->
    Forall (fun kv => flat_text (fst kv) /\ readable_value (snd kv)) ((k, x) :: d) ->
    object_pairs fuel room
      (List.concat (map json_escape_char k)
       ++ 34 :: 58 :: 32 :: json_text x
       ++ List.concat (map (fun q => py ", " ++ q) (map member d))
       ++ 125 :: post)
      acc
    = Decoded (acc ++ (k, x) :: d) post.
Proof.
  induction d as [|[k' x'] d IH]; intros fuel room k x acc post Hf Hd;
    inversion Hd as [|? ? (Hk & Hx) Hd']; subst;
    cbn [fst snd] in Hk, Hx;
    destruct fuel as [|[|fuel]]; cbn [List.length] in Hf; try lia.
  - cbn [map List.concat app].
    rewrite (object_pairs_member fuel room k x (125 :: post) acc Hk Hx)
      by (exists post; right; reflexivity).
    reflexivity.
  - cbn [map List.concat]. rewrite <- !List.app_assoc, member_app.
    change (py ", " ++ ?t) with (44 :: 32 :: t).
    rewrite (object_pairs_member fuel room k x _ acc Hk Hx)
      by (eexists; left; reflexivity).
    change (44 =? 125) with false. cbv beta iota.
    match goal with
    | |- context [skip_ws (32 :: 34 :: ?t)] =>
        change (skip_ws (32 :: 34 :: t)) with (34 :: t)
    end.
    change (34 =? 34) with true. cbv beta iota.
    rewrite (IH (S fuel) room k' x' (acc ++ [(k, x)]) post) by (lia || exact Hd').
    rewrite <- List.app_assoc. reflexivity.
Qed.

Lemma readable_value_no_brace (v : pyval) : readable_value v -> ~ In 125 (json_text v).
Proof.
  destruct v as [|[|]|n|f|s|l|d]; try contradiction; intros Hv;
    cbn [json_text].
  - intros H. vm_compute in H.
    repeat (destruct H as [H|H]; [discriminate H|]). exact H.
  - intros H. vm_compute in H.
    repeat (destruct H as [H|H]; [discriminate H|]). exact H.
  - intros H. vm_compute in H.
    repeat (destruct H as [H|H]; [discriminate H|]). exact H.
  - apply int_str_no_brace.
  - apply json_quote_no_brace. exact (proj2 Hv).
Qed.

Lemma member_no_brace (kv : str * pyval) :
  flat_text (fst kv) -> readable_value (snd kv) -> ~ In 125 (member kv).
Proof.
  intros Hk Hv. unfold member. intros H.
  apply in_app_or in H as [H|H];
    [exact (json_quote_no_brace _ (proj2 Hk) H)|].
  apply in_app_or in H as [H|H];
    [|exact (readable_value_no_brace _ Hv H)].
  destruct H as [H|[H|[]]]; discriminate H.
Qed.

Lemma members_no_brace (d : dict) :
  Forall (fun kv => flat_text (fst kv) /\ readable_value (snd kv)) d ->
  ~ In 125 (List.concat (map (fun q => py ", " ++ q) (map member d))).
Proof.
  intros Hd H. apply in_concat in H as (e & He & H).
  apply in_map_iff in He as (q & <- & Hq).
  apply in_map_iff in Hq as (kv & <- & Hkv).
  rewrite Forall_forall in Hd. destruct (Hd kv Hkv) as (Hk & Hv).
  destruct H as [H|[H|H]]; try discriminate H.
  exact (member_no_brace kv Hk Hv H).
Qed.

(** The quoted word [name] stands in the dump of a dictionary with that
    key. *)
Lemma members_hold_key (k : str) (d : dict) :
  In k (map fst d) ->
  exists a b, join (py ", ") (map member d) = a ++ json_quote k ++ b.
Proof.
  intros Hk. apply in_map_iff in Hk as ([k' x] & <- & Hin). cbn [fst].
  apply in_split in Hin as (d1 & d2 & ->).
  destruct d1 as [|kv d1].
  - exists [],
      (py ": " ++ json_text x
       ++ List.concat (map (fun q => py ", " ++ q) (map member d2))).
    cbn [app map]. rewrite join_concat.
    change (member (k', x)) with (json_quote k' ++ py ": " ++ json_text x).
    rewrite <- !List.app_assoc. reflexivity.
  - exists (member kv
            ++ List.concat (map (fun q => py ", " ++ q) (map member d1))
            ++ py ", "),
      (py ": " ++ json_text x
       ++ List.concat (map (fun q => py ", " ++ q) (map member d2))).
    cbn [app map]. rewrite join_concat, !map_app. cbn [map].
    rewrite concat_app. cbn [List.concat].
    change (member (k', x)) with (json_quote k' ++ py ": " ++ json_text x).
    rewrite <- !List.app_assoc. reflexivity.
Qed.

(** The dump of a flat call is a brace object that holds the quoted word
    [name]. *)
Lemma readable_call_brace_object (call : dict) :
  readable_call call -> braces_with_quoted_name (json_text (PDict call)).
Proof.
  intros (Hn & Hk & Hd).
  assert (Hb : ~ In 125 (join (py ", ") (map member call))).
  { destruct call as [|kv call]; [intros []|].
    cbn [map]. rewrite join_concat. inversion Hd as [|? ? (H1 & H2) Hd']; subst.
    intros H. apply in_app_or in H as [H|H].
    - exact (member_no_brace kv H1 H2 H).
    - exact (members_no_brace call Hd' H). }
  destruct (members_hold_key (py "name") call Hk) as (a & b & E).
  rewrite json_text_dict, E in *.
  exists a, b. split.
  - cbn [app]. rewrite <- !List.app_assoc. reflexivity.
  - split; intros H; apply Hb; apply in_or_app;
      [left; exact H | right; apply in_or_app; right; exact H].
Qed.

Lemma members_length (d : dict) :
  (List.length d
   <= List.length (List.concat (map (fun q => py ", " ++ q) (map member d))))%nat.
Proof.
  induction d as [|kv d IH]; [apply Nat.le_refl|].
  cbn [map List.concat]. rewrite length_app.
  change (py ", " ++ member kv) with (44 :: 32 :: member kv).
  cbn [List.length]. lia.
Qed.

(** With room for one object [json.loads] reads the text of a readable
    call back. *)
Lemma json_loads_readable_call (room : nat) (call : dict) :
  readable_call call ->
  json_loads_within (S room) (json_text (PDict call)) = Return (PDict call).
Proof.
  intros (Hn & Hk & Hd).
  destruct call as [|[k x] d]; [destruct Hk|].
  unfold json_loads_within. rewrite json_text_dict.
  cbn [map]. rewrite join_concat, <- List.app_assoc, member_app.
  match goal with
  | |- context [startswith _ (123 :: 34 :: ?t)] =>
      change (startswith [65279] (123 :: 34 :: t)) with false;
      change (skip_ws (123 :: 34 :: t)) with (123 :: 34 :: t);
      change (scan_once (S ?f) (S room) (123 :: 34 :: t))
        with (scan_map (fun pairs => PDict (dict_of_pairs pairs))
                (object_pairs f room t []))
  end.
  cbv beta iota. rewrite <- ?List.app_assoc.
  rewrite (object_pairs_members d _ room k x [] []);
    [|pose proof (members_length d); cbn [List.length];
      rewrite !length_app; cbn [List.length]; rewrite !length_app; lia
     |exact Hd].
  cbn [scan_map app skip_ws]. rewrite (dict_of_pairs_distinct _ Hn). reflexivity.
Qed.

(** A flat value that [json.dumps] accepts is readable. *)
Lemma dumped_value_readable (room : nat) (v : pyval) (text : str) :
  flat_value v -> json_dumps_within room v = Return text -> readable_value v.
Proof.
  destruct v as [|b|n|f|s|l|d]; cbn [flat_value readable_value]; auto.
  intros _ H. cbn [json_dumps_within] in H.
  destruct (int_to_str_cases n) as [(_ & L)|(E & _)]; [exact L|].
  rewrite E in H. discriminate H.
Qed.

(** A flat call that [json.dumps] accepts is readable, and what it returns
    is the text of the call. *)
Lemma dumped_call_readable (call : dict) (text : str) :
  flat_call call -> json_dumps (PDict call) = Return text ->
  readable_call call /\ text = json_text (PDict call).
Proof.
  intros (Hn & Hk & Hd) H. split; [|exact (json_dumps_text _ _ H)].
  split; [exact Hn|]. split; [exact Hk|].
  unfold json_dumps in H. cbn [json_dumps_within] in H.
  destruct dumps_depth as [|room]; [discriminate|].
  match type of H with
  | match collect ?c with _ => _ end = _ => destruct (collect c) as [parts|] eqn:E
  end; [|discriminate].
  apply collect_return in E. clear H Hn Hk.
  revert parts E. induction Hd as [|[k x] d (Hk & Hx) _ IH]; intros parts E;
    [constructor|].
  destruct parts as [|p parts]; [discriminate|]. cbn [map] in E.
  injection E as Ex E. constructor; [|exact (IH _ E)].
  split; [exact Hk|]. cbn [fst snd] in *.
  destruct (json_dumps_within room x) as [t|] eqn:Et; [|discriminate].
  exact (dumped_value_readable room x t Hx Et).
Qed.

(** The extractor reads the text of a readable call back. *)
Lemma extract_readable_call (pre post : str) (call : dict) :
  ~ In 123 pre -> readable_call call -> (1 <= loads_depth)%nat ->
  extract_function_call (pre ++ json_text (PDict call) ++ post) = PDict call.
Proof.
  intros Hp Hc Hl. unfold extract_function_call.
  rewrite (re_search_first_match _ _
             (first_match_after pre _ post Hp
                (readable_call_brace_object call Hc))).
  unfold json_loads. destruct loads_depth as [|room]; [lia|].
  rewrite (json_loads_readable_call room call Hc). reflexivity.
Qed.

(** X26. Round trip. Whatever [json.dumps] returns for a flat call
    (distinct keys, one of them [name], values that are [None], booleans,
    integers or texts, no surrogate and no closing brace in any text),
    embedded in a reply after a text without opening brace and before any
    text, is read back as that call by the extractor, wherever the
    interpreter has room to decode one object. *)
Theorem extract_function_call_round_trip
    (pre post text : str) (call : dict) :
  ~ In 123 pre ->
  flat_call call ->
  json_dumps (PDict call) = Return text ->
  (1 <= loads_depth)%nat ->
  extract_function_call (pre ++ text ++ post) = PDict call.
Proof.
  intros Hp Hc Hd Hl.
  destruct (dumped_call_readable call text Hc Hd) as (Hr & ->).
  exact (extract_readable_call pre post call Hp Hr Hl).
Qed.

(** X27. A flat reply whose text embeds what [json.dumps] returns for a
    flat call, after a text without opening brace, is normalised to one
    choice whose message carries the text as content and the call as
    [function_call], with the finish reason [function_call], wherever the
    interpreter has room to decode one object. *)
Theorem flat_reply_function_call
    (raw config : dict) (pre post text : str) (call : dict) :
  dict_mem (py "choices") raw = false ->
  dict_get (py "response") raw = Some (PStr (pre ++ text ++ post)) ->
  ~ In 123 pre ->
  flat_call call ->
  json_dumps (PDict call) = Return text ->
  (1 <= loads_depth)%nat ->
  exists canonical choice message : dict,
    parse_function_call_response (PDict raw) config = Return (PDict canonical) /\
    dict_get (py "choices") canonical = Some (PList [PDict choice]) /\
    dict_get (py "message") choice = Some (PDict message) /\
    dict_get (py "content") message = Some (PStr (pre ++ text ++ post)) /\
    dict_get (py "function_call") message = Some (PDict call) /\
    dict_get (py "finish_reason") choice = Some (PStr (py "function_call")).
Proof.
  intros Hc Hr Hp Hf Hd Hl.
  destruct (dumped_call_readable call text Hf Hd) as (Hrc & ->).
  pose proof (extract_readable_call pre post call Hp Hrc Hl) as E.
  unfold parse_function_call_response.
  cbn [py_in]. rewrite Hc.
  unfold dict_mem, dict_get_default. rewrite Hr, E.
  assert (Ht : truthy (PDict call) = true).
  { destruct Hf as (_ & Hk & _). destruct call; [destruct Hk | reflexivity]. }
  rewrite Ht.
  do 3 eexists. repeat split; reflexivity.
Qed.

End ReadBack.

(* ===================================================================== *)
(** ** The further properties at concrete inputs                          *)
(* ===================================================================== *)

(** X1 on a text without braces. *)
Lemma extract_function_call_needs_object_witness :
  (str_contains (pyq "`name`") (py "the name is lookup") = false \/
   ~ In 123 (py "the name is lookup") \/ ~ In 125 (py "the name is lookup")) /\
  @extract_function_call quiet_world (py "the name is lookup") = PNone.
Proof.
  split; [left; reflexivity|].
  apply (@extract_function_call_needs_object quiet_world). left. reflexivity.
Defined.

(** X2 on a flat reply: its normal form is normalised to itself. *)
Lemma parse_function_call_response_idempotent_witness :
  exists normalized,
    @parse_function_call_response quiet_world
      (PDict [(py "response", PStr (py "hello"))]) []
    = Return normalized /\
    @parse_function_call_response quiet_world normalized
      [(py "model_name", PStr (py "other"))]
    = Return normalized.
Proof.
  eexists. split; [reflexivity|].
  apply (@parse_function_call_response_idempotent quiet_world
           (PDict [(py "response", PStr (py "hello"))]) _ []).
  reflexivity.
Defined.


(** X5 with the self-hosted backend unreachable. *)
Lemma call_model_backend_failure_witness :
  dict_get_default (py "backend") (PStr (py "ollama"))
    [(py "backend", PStr (py "vllm"))] = PStr (py "vllm") /\
  supported_backend (PStr (py "vllm")) /\
  exists req,
    @call_model quiet_world (py "hello") PNone
      (Some [(py "backend", PStr (py "vllm"))]) (PInt 1) (PInt 10)
    = (Raise RequestError, [req]).
Proof.
  split; [reflexivity|]. split; [right; left; reflexivity|].
  destruct (@call_model_backend_failure quiet_world (py "hello") PNone
              [(py "backend", PStr (py "vllm"))]
              (PInt 1) (PInt 10) (PStr (py "vllm")) eq_refl
              (or_intror (or_introl eq_refl)))
    as [(e & Hb & _) | (res & req & E & Hn & _)]; [discriminate Hb|].
  exists req. rewrite (Hn eq_refl) in E. exact E.
Defined.

(** X6 with a hosted backend that answers with a flat reply: it comes back
    as it is. *)
Lemma call_model_backend_answer_witness :
  dict_get_default (py "backend") (PStr (py "ollama"))
    [(py "backend", PStr (py "openai"))] = PStr (py "openai") /\
  supported_backend (PStr (py "openai")) /\
  exists req,
    @call_model (answering_world (PDict [(py "response", PStr (py "hello"))]))
      (py "hello") PNone
      (Some [(py "backend", PStr (py "openai"))]) (PInt 1) (PInt 10)
    = (Return (PDict [(py "response", PStr (py "hello"))]), [req]).
Proof.
  split; [reflexivity|]. split; [right; right; reflexivity|].
  destruct (@call_model_backend_answer
              (answering_world (PDict [(py "response", PStr (py "hello"))]))
              (py "hello") PNone
              [(py "backend", PStr (py "openai"))]
              (PInt 1) (PInt 10) (PStr (py "openai")) eq_refl
              (or_intror (or_intror eq_refl)))
    as [(e & Hb & _) | (res & req & E & Hok)]; [discriminate Hb|].
  exists req.
  destruct (Hok _ _ eq_refl eq_refl eq_refl) as [_ Hb].
  rewrite Hb in E; [exact E | discriminate].
Defined.

(** X11 on one tool. *)
Lemma xml_tools_ride_on_prompt_witness :
  @format_tools_for_model quiet_world
    [PDict [(py "function", PDict [(py "name", PStr (py "ping"))])]] (py "xml")
  = Return (PStr (py "<tools><tool name='ping'><description></description></tool></tools>")) /\
  exists res req,
    @call_ollama quiet_world (py "user: hi")
      (PStr (py "<tools><tool name='ping'><description></description></tool></tools>"))
      [] (PInt 1) (PInt 10)
    = (res, [req]) /\
    dict_get (py "prompt") (req_json req)
    = Some (PStr (py "user: hi" ++ [10; 10]
                  ++ py "<tools><tool name='ping'><description></description></tool></tools>")) /\
    dict_get (py "context") (req_json req) = None.
Proof.
  assert (H : @format_tools_for_model quiet_world
                [PDict [(py "function", PDict [(py "name", PStr (py "ping"))])]]
                (py "xml")
              = Return (PStr (py "<tools><tool name='ping'><description></description></tool></tools>")))
    by reflexivity.
  split; [exact H|].
  destruct (@xml_tools_ride_on_prompt quiet_world (py "user: hi") _ []
              (PInt 1) (PInt 10) _ H)
    as (xml & res & req & Ef & _ & Ec & Ep & Ex).
  injection Ef as <-.
  exists res, req. split; [exact Ec | split; [exact Ep | exact Ex]].
Defined.

(** X13 on a user message followed by an assistant message. *)
Lemma build_prompt_from_messages_app_witness :
  [{| msg_role := py "user"; msg_content := py "hi" |}] <> [] /\
  [{| msg_role := py "assistant"; msg_content := py "hello" |}] <> [] /\
  build_prompt_from_messages
    [{| msg_role := py "user"; msg_content := py "hi" |};
     {| msg_role := py "assistant"; msg_content := py "hello" |}]
  = py "user: hi" ++ [10] ++ py "assistant: hello".
Proof.
  split; [discriminate|]. split; [discriminate|].
  exact (proj1 (build_prompt_from_messages_app
                  [{| msg_role := py "user"; msg_content := py "hi" |}]
                  [{| msg_role := py "assistant"; msg_content := py "hello" |}]
                  ltac:(discriminate) ltac:(discriminate))).
Defined.

(** X15 with [MODEL_BACKEND] set to [unknown-xyz]. *)
Lemma chat_completions_unsupported_backend_witness :
  @getenv_default (env_world (py "MODEL_BACKEND") (py "unknown-xyz"))
    (py "MODEL_BACKEND") (py "ollama") = py "unknown-xyz" /\
  @chat_completions (env_world (py "MODEL_BACKEND") (py "unknown-xyz"))
    quiet_services
    {| chat_model := None;
       chat_messages := [{| msg_role := py "user"; msg_content := py "hi" |}];
       chat_tools := None;
       chat_temperature := None;
       chat_max_tokens := Some 1000%Z |}
  = (HTTPException 500 (py "Unsupported backend: unknown-xyz"), []).
Proof.
  split; [reflexivity|].
  destruct (@chat_completions_unsupported_backend
              (env_world (py "MODEL_BACKEND") (py "unknown-xyz")) quiet_services
              {| chat_model := None;
                 chat_messages :=
                   [{| msg_role := py "user"; msg_content := py "hi" |}];
                 chat_tools := None;
                 chat_temperature := None;
                 chat_max_tokens := Some 1000%Z |}
              (py "unknown-xyz") eq_refl
              ltac:(discriminate) ltac:(discriminate) ltac:(discriminate))
    as (detail & E & Hd).
  rewrite (Hd (or_introl eq_refl)) in E. exact E.
Defined.


(** X19: a handler registered first survives a second registration without
    handler. *)
Lemma register_function_keeps_handler_witness :
  handlers_get (py "lookup")
    (_handlers (register_function new_registry (py "lookup")
                  (PStr (py "first")) (PDict []) (Some idle_handler)))
  = Some idle_handler /\
  execute_function
    (register_function
       (register_function new_registry (py "lookup")
          (PStr (py "first")) (PDict []) (Some idle_handler))
       (py "lookup") (PStr (py "second")) (PDict []) None)
    (py "lookup") []
  = (Return PNone, []).
Proof.
  split; [reflexivity|].
  apply (register_function_keeps_handler
           (register_function new_registry (py "lookup")
              (PStr (py "first")) (PDict []) (Some idle_handler))
           (py "lookup") (PStr (py "second")) (PDict []) idle_handler []).
  reflexivity.
Defined.

(** X21 after one registration. *)
Lemma reachable_invariant_witness :
  reachable (register_function new_registry (py "lookup")
               (PStr (py "Find a record")) (PDict []) None) /\
  NoDup (map fst (_functions
                    (register_function new_registry (py "lookup")
                       (PStr (py "Find a record")) (PDict []) None))).
Proof.
  assert (H : reachable (register_function new_registry (py "lookup")
                           (PStr (py "Find a record")) (PDict []) None))
    by (constructor; constructor).
  split; [exact H|].
  exact (proj1 (proj2 (reachable_invariant _ H))).
Defined.

(** X22 after one registration. *)
Lemma get_tools_definition_reachable_witness :
  reachable (register_function new_registry (py "lookup")
               (PStr (py "Find a record")) (PDict []) None) /\
  get_tools_definition
    (register_function new_registry (py "lookup")
       (PStr (py "Find a record")) (PDict []) None)
  = inr [PDict [(py "type", PStr (py "function"));
                (py "function",
                 PDict [(py "name", PStr (py "lookup"));
                        (py "description", PStr (py "Find a record"));
                        (py "parameters", PDict [])])]].
Proof.
  assert (H : reachable (register_function new_registry (py "lookup")
                           (PStr (py "Find a record")) (PDict []) None))
    by (constructor; constructor).
  split; [exact H|].
  destruct (@get_tools_definition_reachable quiet_world _ H)
    as (tools & E & -> & _).
  exact E.
Defined.


(** X26 on a lookup call between two pieces of text. *)
Lemma extract_function_call_round_trip_witness :
  ~ In 123 (py "I will call ") /\
  flat_call [(py "name", PStr (py "lookup")); (py "arg", PInt (-12))] /\
  @json_dumps quiet_world
    (PDict [(py "name", PStr (py "lookup")); (py "arg", PInt (-12))])
  = Return (pyq "{`name`: `lookup`, `arg`: -12}") /\
  (1 <= @loads_depth quiet_world)%nat /\
  @extract_function_call quiet_world
    (py "I will call " ++ pyq "{`name`: `lookup`, `arg`: -12}" ++ py " now.")
  = PDict [(py "name", PStr (py "lookup")); (py "arg", PInt (-12))].
Proof.
  assert (Hp : ~ In 123 (py "I will call ")).
  { intros H. vm_compute in H.
    repeat (destruct H as [H|H]; [discriminate H|]). exact H. }
  assert (Ht : forall s, forallb (fun c => (c <? 125)) s = true -> flat_text s).
  { intros s Hs. rewrite forallb_forall in Hs. split.
    - apply Forall_forall. intros c Hc. left.
      specialize (Hs c Hc). apply N.ltb_lt in Hs. lia.
    - intros Hc. specialize (Hs _ Hc). discriminate Hs. }
  assert (Hc : flat_call [(py "name", PStr (py "lookup")); (py "arg", PInt (-12))]).
  { split; [|split].
    - cbn [map fst]. constructor.
      + intros [H|[]]. discriminate H.
      + constructor; [intros [] | constructor].
    - left. reflexivity.
    - repeat constructor; cbn [fst snd flat_value];
        apply Ht; reflexivity. }
  assert (Hd : @json_dumps quiet_world
                 (PDict [(py "name", PStr (py "lookup")); (py "arg", PInt (-12))])
               = Return (pyq "{`name`: `lookup`, `arg`: -12}"))
    by (vm_compute; reflexivity).
  assert (Hl : (1 <= @loads_depth quiet_world)%nat)
    by (apply Nat.leb_le; reflexivity).
  split; [exact Hp|]. split; [exact Hc|]. split; [exact Hd|]. split; [exact Hl|].
  exact (@extract_function_call_round_trip quiet_world _ _ _ _ Hp Hc Hd Hl).
Defined.

(** X27 on the reply of a local model that announces the same call. *)
Lemma flat_reply_function_call_witness :
  exists canonical choice message : dict,
    @parse_function_call_response quiet_world
      (PDict [(py "response",
               PStr (py "I will call "
                     ++ pyq "{`name`: `lookup`, `arg`: -12}"
                     ++ py " now."))])
      []
    = Return (PDict canonical) /\
    dict_get (py "choices") canonical = Some (PList [PDict choice]) /\
    dict_get (py "message") choice = Some (PDict message) /\
    dict_get (py "function_call") message
    = Some (PDict [(py "name", PStr (py "lookup")); (py "arg", PInt (-12))]) /\
    dict_get (py "finish_reason") choice = Some (PStr (py "function_call")).
Proof.
  assert (Hp : ~ In 123 (py "I will call ")).
  { intros H. vm_compute in H.
    repeat (destruct H as [H|H]; [discriminate H|]). exact H. }
  assert (Ht : forall s, forallb (fun c => (c <? 125)) s = true -> flat_text s).
  { intros s Hs. rewrite forallb_forall in Hs. split.
    - apply Forall_forall. intros c Hc. left.
      specialize (Hs c Hc). apply N.ltb_lt in Hs. lia.
    - intros Hc. specialize (Hs _ Hc). discriminate Hs. }
  assert (Hc : flat_call [(py "name", PStr (py "lookup")); (py "arg", PInt (-12))]).
  { split; [|split].
    - cbn [map fst]. constructor.
      + intros [H|[]]. discriminate H.
      + constructor; [intros [] | constructor].
    - left. reflexivity.
    - repeat constructor; cbn [fst snd flat_value];
        apply Ht; reflexivity. }
  assert (Hd : @json_dumps quiet_world
                 (PDict [(py "name", PStr (py "lookup")); (py "arg", PInt (-12))])
               = Return (pyq "{`name`: `lookup`, `arg`: -12}"))
    by (vm_compute; reflexivity).
  assert (Hl : (1 <= @loads_depth quiet_world)%nat)
    by (apply Nat.leb_le; reflexivity).
  destruct (@flat_reply_function_call quiet_world
              [(py "response",
                PStr (py "I will call "
                      ++ pyq "{`name`: `lookup`, `arg`: -12}"
                      ++ py " now."))]
              [] (py "I will call ") (py " now.") _ _ eq_refl eq_refl Hp Hc Hd Hl)
    as (canonical & choice & message & H1 & H2 & H3 & _ & H4 & H5).
  exists canonical, choice, message. auto.
Defined.

(* ===================================================================== *)
(** ** The limits of the interpreter at concrete inputs                   *)
(* ===================================================================== *)

(** Tools that hold an integer beyond the digit limit cannot be dumped: with
    the local-generate backend [call_model] raises the error of
    [json.dumps] and sends nothing. *)
Lemma call_model_digit_limit (n : Z) :
  (10 ^ Z.of_nat int_max_str_digits <= Z.abs n)%Z ->
  @dump_failure quiet_world (PList [PInt n]) digit_limit_to_str /\
  @call_model quiet_world (py "hello") (PList [PInt n]) (Some [])
    (PInt 1) (PInt 10)
  = (Raise digit_limit_to_str, []).
Proof.
  intros H. apply int_to_str_above in H.
  assert (E : @json_dumps quiet_world (PList [PInt n]) = Raise digit_limit_to_str).
  { change (@json_dumps quiet_world (PList [PInt n]))
      with (@json_dumps_within quiet_world 900 (PList [PInt n])).
    cbn [json_dumps_within map collect]. rewrite H. reflexivity. }
  split.
  - split; [reflexivity|]. split; [intros markup; discriminate | exact E].
  - unfold call_model.
    change (py_eq_str (dict_get_default (py "backend") (PStr (py "ollama")) [])
              (py "ollama")) with true.
    cbv beta iota zeta. unfold call_ollama. cbn [truthy]. rewrite E. reflexivity.
Qed.

(** The same at an integer of 4301 digits. *)
Lemma call_model_sends_nothing :
  @call_model quiet_world (py "hello") (PList [PInt (10 ^ 4300)]) (Some [])
    (PInt 1) (PInt 10)
  = (Raise digit_limit_to_str, []).
Proof.
  apply call_model_digit_limit.
  change (Z.of_nat int_max_str_digits) with 4300%Z.
  rewrite Z.abs_eq; [apply Z.le_refl | apply Z.pow_nonneg; lia].
Qed.

(** With the markup format the tools are rendered in order: a schema whose
    parameters hold an integer beyond the digit limit, standing before a
    tool whose ["function"] entry is a text, decides the detail of the
    answer. *)
Lemma chat_completions_digit_limit (n : Z) :
  (10 ^ Z.of_nat int_max_str_digits <= Z.abs n)%Z ->
  @chat_completions (env_world (py "TOOL_FORMAT") (py "xml")) quiet_services
    {| chat_model := None;
       chat_messages := [{| msg_role := py "user"; msg_content := py "hi" |}];
       chat_tools :=
         Some [[(py "function",
                 PDict [(py "name", PStr (py "count"));
                        (py "parameters", PDict [(py "limit", PInt n)])])];
               [(py "function", PStr (py "lookup"))]];
       chat_temperature := None;
       chat_max_tokens := None |}
  = (HTTPException 500
       (py "Exceeds the limit (4300 digits) for integer string conversion; use sys.set_int_max_str_digits() to increase the limit"),
     []).
Proof.
  intros H. apply int_to_str_above in H.
  unfold chat_completions. cbn [chat_tools].
  change (dict_get_default (py "tool_format") (PStr (py "json"))
            (@get_model_config (env_world (py "TOOL_FORMAT") (py "xml")) None))
    with (PStr (py "xml")).
  cbv beta iota.
  unfold format_tools_for_model.
  change (str_eqb (py "xml") (py "xml")) with true. cbv beta iota.
  unfold json_tools_to_xml. cbn [map append_tools].
  unfold append_tool at 1.
  change (dict_get_default (py "function") (PDict [])
            [(py "function",
              PDict [(py "name", PStr (py "count"));
                     (py "parameters", PDict [(py "limit", PInt n)])])])
    with (PDict [(py "name", PStr (py "count"));
                 (py "parameters", PDict [(py "limit", PInt n)])]).
  cbv beta iota.
  change (dict_get_default (py "name") (PStr [])
            [(py "name", PStr (py "count"));
             (py "parameters", PDict [(py "limit", PInt n)])])
    with (PStr (py "count")).
  change (dict_get_default (py "description") (PStr [])
            [(py "name", PStr (py "count"));
             (py "parameters", PDict [(py "limit", PInt n)])])
    with (PStr []).
  change (dict_get_default (py "parameters") (PDict [])
            [(py "name", PStr (py "count"));
             (py "parameters", PDict [(py "limit", PInt n)])])
    with (PDict [(py "limit", PInt n)]).
  cbn [py_format truthy].
  change (@json_dumps (env_world (py "TOOL_FORMAT") (py "xml"))
            (PDict [(py "limit", PInt n)]))
    with (@json_dumps_within (env_world (py "TOOL_FORMAT") (py "xml")) 900
            (PDict [(py "limit", PInt n)])).
  cbn [json_dumps_within map collect].
  rewrite H. reflexivity.
Qed.
